(** * IDTxl [Data]: canonical storage, realisation extraction and surrogates

    A shallow embedding of [idtxl/data.py].  The class [Data] stores a
    three-axis array (process, sample, replication), hands out flat
    realisation matrices for lists of variables and builds surrogate data by
    permuting replications or samples.

    numpy arrays are modelled by their shape together with an item function,
    one- and two-dimensional results by lists; Python integers are [Z],
    array sizes are [nat].  The stored array keeps the dtype it was given,
    the realisation matrix is float64: entries are cast as they are copied
    into it.  Exceptions, attribute reads, [print] and the global random
    source are threaded explicitly through a small monad. *)

From Stdlib Require Import Ascii String.
From Stdlib Require Import Reals Lra.
From Stdlib Require Import List ZArith Lia Bool Permutation Arith.
Import ListNotations.

Set Implicit Arguments.

(** ** Python exceptions and outcomes *)

(** The exception classes the module meets, each with its message.
    [Unmodelled] marks numpy behaviour that lies outside the embedding:
    arrays of more than three axes, which only an axis-order string with
    repeated or foreign symbols can produce. *)
Inductive exn : Type :=
| RuntimeError (msg : string)
| AttributeError (msg : string)
| IndexError (msg : string)
| ValueError (msg : string)
| AssertionError (msg : string)
| TypeError (msg : string)
| Unmodelled (what : string).

Inductive outcome (A : Type) : Type :=
| Ok (a : A)
| Raise (e : exn).

Arguments Ok {A} a.
Arguments Raise {A} e.

Definition obind {A B} (m : outcome A) (k : A -> outcome B) : outcome B :=
  match m with
  | Ok a => k a
  | Raise e => Raise e
  end.

Definition is_ok {A} (m : outcome A) : bool :=
  match m with Ok _ => true | Raise _ => false end.

Definition is_IndexError (e : exn) : bool :=
  match e with IndexError _ => true | _ => false end.

Definition is_AttributeError (e : exn) : bool :=
  match e with AttributeError _ => true | _ => false end.

(** ** Python indexing on one axis *)

(** [a[i]] on an axis of length [len]: negative indices count from the end,
    anything outside [-len, len) is an IndexError (here: [None]). *)
Definition py_index (len : nat) (i : Z) : option nat :=
  if (0 <=? i)%Z && (i <? Z.of_nat len)%Z then Some (Z.to_nat i)
  else if (- Z.of_nat len <=? i)%Z && (i <? 0)%Z then Some (Z.to_nat (Z.of_nat len + i))
  else None.

(** One bound of a slice, clamped the way Python's [slice.indices] does it
    for step 1. *)
Definition slice_bound (len : nat) (x : Z) : nat :=
  if (x <? 0)%Z then Z.to_nat (Z.max 0 (x + Z.of_nat len))
  else Z.to_nat (Z.min x (Z.of_nat len)).

(** [start:stop] on an axis of length [len]; [None] is Python's [None].
    The slice covers [lo, lo + n). *)
Definition slice_indices (len : nat) (start stop : option Z) : nat * nat :=
  let lo := match start with Some s => slice_bound len s | None => 0 end in
  let hi := match stop with Some s => slice_bound len s | None => len end in
  (lo, hi - lo).

(** numpy's rule for assigning [v] to a target of [n] cells along one axis:
    equal length, or a single value that is broadcast. *)
Definition broadcast_to {A} (n : nat) (v : list A) : outcome (list A) :=
  if length v =? n then Ok v
  else match v with
       | [x] => Ok (repeat x n)
       | _ => Raise (ValueError "could not broadcast input array")
       end.

(** [l[start:stop] = v] for a one-dimensional array. *)
Definition setslice {A} (l : list A) (start stop : option Z) (v : list A)
  : outcome (list A) :=
  let '(lo, n) := slice_indices (length l) start stop in
  obind (broadcast_to n v) (fun v' =>
  Ok (firstn lo l ++ v' ++ skipn (lo + n) l)).

(** Boolean-mask selection [a[mask]] and assignment [a[mask] = v]. *)
Fixpoint mask_select {A} (mask : list bool) (l : list A) : list A :=
  match mask, l with
  | b :: mask', x :: l' =>
      if b then x :: mask_select mask' l' else mask_select mask' l'
  | _, _ => []
  end.

Fixpoint mask_fill {A} (mask : list bool) (l : list A) (v : list A) : list A :=
  match mask, l with
  | b :: mask', x :: l' =>
      if b then
        match v with
        | y :: v' => y :: mask_fill mask' l' v'
        | [] => x :: mask_fill mask' l' []
        end
      else x :: mask_fill mask' l' v
  | _, _ => l
  end.

Definition mask_count (mask : list bool) : nat := count_occ bool_dec mask true.

Definition mask_assign {A} (mask : list bool) (l : list A) (v : list A)
  : outcome (list A) :=
  if negb (length mask =? length l) then
    Raise (IndexError "boolean index did not match indexed array")
  else
    obind (broadcast_to (mask_count mask) v) (fun v' =>
    Ok (mask_fill mask l v')).

(** Integer-array indexing [d[perm]] with non-negative indices. *)
Fixpoint take {A} (d : list A) (perm : list nat) : outcome (list A) :=
  match perm with
  | [] => Ok []
  | k :: perm' =>
      match nth_error d k with
      | Some x => obind (take d perm') (fun r => Ok (x :: r))
      | None => Raise (IndexError "index is out of bounds")
      end
  end.

(** [np.arange(n)] and [np.repeat(a, n)]. *)
Definition arange (n : nat) : list nat := seq 0 n.

Definition np_repeat {A} (a : list A) (n : Z) : outcome (list A) :=
  if (n <? 0)%Z then Raise (ValueError "repeats may not contain negative values")
  else Ok (flat_map (fun x => repeat x (Z.to_nat n)) a).

(** ** Python strings (axis-order strings) *)

Definition str := list ascii.

Definition psr : str := list_ascii_of_string "psr".

(** [s.replace(c, '')] for a one-character [c]. *)
Definition str_remove (s : str) (c : ascii) : str :=
  filter (fun x => negb (Ascii.eqb x c)) s.

(** [s.index(c)]; Python raises ValueError when [c] does not occur. *)
Fixpoint str_index (s : str) (c : ascii) : option nat :=
  match s with
  | [] => None
  | x :: s' => if Ascii.eqb x c then Some 0 else option_map S (str_index s' c)
  end.

(** Exchange the entries at positions [i] and [j] of a list. *)
Definition swap_entries {A} (d : A) (l : list A) (i j : nat) : list A :=
  map (fun k => nth (if k =? i then j else if k =? j then i else k) l d)
      (seq 0 (length l)).

(** Modelled from the spec: [idtxl_utils.swap_chars], a helper whose module
    is not among the sources.  The spec asks that a swap of two axes
    corresponds to a swap of the same two symbols in the tracking string. *)
Definition swap_chars (s : str) (i_1 i_2 : nat) : str :=
  swap_entries "000"%char s i_1 i_2.

(** ** The global random source *)

(** [np.random] is a process-wide generator.  It is modelled by the stream
    of raw draws it is going to produce; [np.random.permutation(n)] consumes
    [n] of them and shuffles [range(n)] by inserting each element at a drawn
    position. *)
Definition RandomState := nat -> nat.

Definition next_draw (g : RandomState) : nat * RandomState :=
  (g 0, fun i => g (S i)).

Definition insert_at {A} (k : nat) (x : A) (l : list A) : list A :=
  firstn k l ++ x :: skipn k l.

Fixpoint shuffle (l : list nat) (g : RandomState) : list nat * RandomState :=
  match l with
  | [] => ([], g)
  | x :: l' =>
      let '(p, g1) := shuffle l' g in
      let '(k, g2) := next_draw g1 in
      (insert_at (k mod S (length p)) x p, g2)
  end.

Definition np_random_permutation (n : nat) (g : RandomState)
  : list nat * RandomState :=
  shuffle (arange n) g.

(** ** Scalars stored in arrays *)

(** What the embedding needs to know about array entries: the cast numpy
    applies when an entry is assigned to a cell of a float64 array (the
    realisation matrix comes from [np.empty], which allocates float64,
    while the stored array keeps the dtype it was given), [np.isnan], and
    the value a cell of a fresh [np.empty] array happens to hold
    ([garbage_index] for an array that is filled with positions). *)
Class Scalar (V : Type) := {
  float64 : V -> V;
  isnan : V -> bool;
  garbage : V;
  garbage_index : nat
}.

(** Modelled from the spec: [idtxl_utils.standardise] applied along
    dimension 1 of a [(1, n)] array, a helper whose module is not among the
    sources.  The spec demands an array of identical shape. *)
Class Standardise (V : Type) := {
  standardise : list V -> list V;
  standardise_length : forall l, length (standardise l) = length l
}.

(** ** numpy arrays *)

Section Arrays.
Context {V : Type}.

(** An n-dimensional array: its shape and the entry at each index vector.
    Only index vectors inside the shape are meaningful. *)
Record ndarray : Type := mkArray {
  shape : list nat;
  item : list nat -> V
}.

Definition ndim (a : ndarray) : nat := length (shape a).

(** [np.expand_dims(a, axis)]: a new axis of length 1 at position [axis]. *)
Definition expand_dims (a : ndarray) (axis : nat) : ndarray :=
  {| shape := firstn axis (shape a) ++ 1 :: skipn axis (shape a);
     item := fun idx => item a (firstn axis idx ++ skipn (S axis) idx) |}.

(** [a.swapaxes(i, j)]: a view with two axes exchanged. *)
Definition swapaxes (a : ndarray) (i j : nat) : outcome ndarray :=
  if (i <? ndim a) && (j <? ndim a) then
    Ok {| shape := swap_entries 0 (shape a) i j;
          item := fun idx => item a (swap_entries 0 idx i j) |}
  else Raise (ValueError "axis is out of bounds for array").

(** [a.shape[k]]. *)
Definition shape_at (a : ndarray) (k : nat) : outcome nat :=
  match nth_error (shape a) k with
  | Some n => Ok n
  | None => Raise (IndexError "tuple index out of range")
  end.

(** [a[p, start:stop, r]] on a three-axis array: a one-dimensional array,
    given as the list of its entries. *)
Definition getitem3 (a : ndarray) (p : Z) (start stop : option Z) (r : nat)
  : outcome (list V) :=
  match shape a with
  | [n_p; n_s; n_r] =>
      match py_index n_p p with
      | None => Raise (IndexError "index is out of bounds for axis 0")
      | Some p' =>
          if r <? n_r then
            let '(lo, n) := slice_indices n_s start stop in
            Ok (map (fun k => item a [p'; k; r]) (seq lo n))
          else Raise (IndexError "index is out of bounds for axis 2")
      end
  | [] | [_] | [_; _] => Raise (IndexError "too many indices for array")
  | _ => Raise (Unmodelled "indexing an array of more than three axes")
  end.

(** A two-dimensional array such as the realisation matrix: its shape and
    its rows. *)
Record matrix : Type := mkMatrix {
  mshape : nat * nat;
  mrows : list (list V)
}.

Definition nrows (m : matrix) : nat := fst (mshape m).
Definition ncols (m : matrix) : nat := snd (mshape m).

(** [m[:, i]]. *)
Definition column (d : V) (m : matrix) (i : nat) : list V :=
  map (fun row => nth i row d) (mrows m).

(** Write [v] into column [i] of the rows [lo, lo + length v). *)
Fixpoint write_col (rows : list (list V)) (lo i : nat) (v : list V)
  : list (list V) :=
  match rows with
  | [] => []
  | row :: rows' =>
      match lo with
      | S lo' => row :: write_col rows' lo' i v
      | O =>
          match v with
          | [] => rows
          | x :: v' =>
              (firstn i row ++ x :: skipn (S i) row) :: write_col rows' 0 i v'
          end
      end
  end.

End Arrays.

Arguments ndarray V : clear implicits.
Arguments matrix V : clear implicits.

(** [m[start:stop, i] = v] for a float64 matrix [m]: the values are cast
    to float64 as they are copied. *)
Definition setitem_col {V} {scalar : Scalar V} (m : matrix V)
  (start stop : Z) (i : nat) (v : list V) : outcome (matrix V) :=
  if i <? ncols m then
    let '(lo, n) := slice_indices (nrows m) (Some start) (Some stop) in
    obind (broadcast_to n (map float64 v)) (fun v' =>
    Ok {| mshape := mshape m; mrows := write_col (mrows m) lo i v' |})
  else Raise (IndexError "index is out of bounds for axis 1").

(** ** The [Data] object and the Python world around it *)

(** A variable and a current value are pairs (process index, sample index). *)
Definition variable : Type := Z * Z.

(** What the methods print. *)
Inductive Printed : Type :=
| PrintIndexList (idx_list : list variable) (current_value : variable)
| PrintAdding (n_processes n_samples n_replications : nat)
| PrintOverwriting.

(** The attributes of a [Data] instance; an attribute that has not been
    assigned yet is [None]. *)
Record Data (V : Type) : Type := mkData {
  normalise : bool;
  _data : option (ndarray V);
  n_processes : option nat;
  n_samples : option nat;
  n_replications : option nat
}.

Arguments mkData {V}.
Arguments normalise {V}.
Arguments _data {V}.
Arguments n_processes {V}.
Arguments n_samples {V}.
Arguments n_replications {V}.

(** The state a method runs in: the instance, standard output and the
    global random source. *)
Record World (V : Type) : Type := mkWorld {
  self : Data V;
  stdout : list Printed;
  random : RandomState
}.

Arguments mkWorld {V}.
Arguments self {V}.
Arguments stdout {V}.
Arguments random {V}.

(** Computations that read and write the world and may raise. *)
Definition Py (V A : Type) : Type := World V -> outcome A * World V.

Definition ret {V A} (a : A) : Py V A := fun w => (Ok a, w).

Definition raise {V A} (e : exn) : Py V A := fun w => (Raise e, w).

Definition bind {V A B} (m : Py V A) (k : A -> Py V B) : Py V B :=
  fun w =>
    match m w with
    | (Ok a, w') => k a w'
    | (Raise e, w') => (Raise e, w')
    end.

Declare Scope py_scope.
Delimit Scope py_scope with py.
Notation "x <- m ;; k" := (bind m (fun x => k))
  (at level 61, m at next level, right associativity) : py_scope.
Notation "' pat <- m ;; k" := (bind m (fun x => match x with pat => k end))
  (at level 61, pat pattern, m at next level, right associativity) : py_scope.
Notation "m ;; k" := (bind m (fun _ => k))
  (at level 61, right associativity) : py_scope.
Open Scope py_scope.

Definition lift {V A} (m : outcome A) : Py V A := fun w => (m, w).

(** [try: m except E: handler], for the exceptions selected by [catches]. *)
Definition try_except {V A} (m : Py V A) (catches : exn -> bool)
  (handler : Py V A) : Py V A :=
  fun w =>
    match m w with
    | (Raise e, w') => if catches e then handler w' else (Raise e, w')
    | r => r
    end.

Definition assert {V} (b : bool) (msg : string) : Py V unit :=
  if b then ret tt else raise (AssertionError msg).

Definition print {V} (p : Printed) : Py V unit :=
  fun w => (Ok tt, mkWorld (self w) (stdout w ++ [p]) (random w)).

(** [np.random.permutation(n)] on the global source. *)
Definition random_permutation {V} (n : nat) : Py V (list nat) :=
  fun w =>
    let '(p, g) := np_random_permutation n (random w) in
    (Ok p, mkWorld (self w) (stdout w) g).

(** Reading an attribute of [self]. *)
Definition getattr {V A} (field : Data V -> option A) (name : string)
  : Py V A :=
  fun w =>
    match field (self w) with
    | Some a => (Ok a, w)
    | None => (Raise (AttributeError name), w)
    end.

Definition get_normalise {V} : Py V bool := fun w => (Ok (normalise (self w)), w).

Definition update_self {V} (f : Data V -> Data V) : Py V unit :=
  fun w => (Ok tt, mkWorld (f (self w)) (stdout w) (random w)).

(** [for x in l: s = body(x, s)]. *)
Fixpoint for_each {V A S} (l : list A) (body : A -> S -> Py V S) (s : S)
  : Py V S :=
  match l with
  | [] => ret s
  | x :: l' => s' <- body x s ;; for_each l' body s'
  end.

(** ** The canonicalizer: [_reorder_data] *)

Section Methods.
Context {V : Type} {scalar : Scalar V} {std : Standardise V}.

(** Reorder data dimensions to processes x samples x replications. *)
Definition _reorder_data (data : ndarray V) (dim_order : str)
  : outcome (ndarray V) :=
  (* add singletons for missing dimensions *)
  let missing_dims := fold_left str_remove dim_order psr in
  let '(data, dim_order) :=
    fold_left (fun '(data, dim_order) dim =>
                 (expand_dims data (ndim data), dim_order ++ [dim]))
              missing_dims (data, dim_order) in
  (* reorder array dims if necessary *)
  obind (match nth_error dim_order 0 with
         | None => Raise (IndexError "string index out of range")
         | Some c =>
             if negb (Ascii.eqb c "p") then
               match str_index dim_order "p" with
               | None => Raise (ValueError "substring not found")
               | Some ind_p =>
                   obind (swapaxes data 0 ind_p) (fun data =>
                   Ok (data, swap_chars dim_order 0 ind_p))
               end
             else Ok (data, dim_order)
         end) (fun '(data, dim_order) =>
  match nth_error dim_order 1 with
  | None => Raise (IndexError "string index out of range")
  | Some c =>
      if negb (Ascii.eqb c "s") then
        match str_index dim_order "s" with
        | None => Raise (ValueError "substring not found")
        | Some ind_s => swapaxes data 1 ind_s
        end
      else Ok data
  end).

(** ** Properties and size queries *)

Definition set__data (d : option (ndarray V)) (o : Data V) : Data V :=
  mkData (normalise o) d (n_processes o) (n_samples o) (n_replications o).

Definition set_n_processes (n : nat) (o : Data V) : Data V :=
  mkData (normalise o) (_data o) (Some n) (n_samples o) (n_replications o).

Definition set_n_samples (n : nat) (o : Data V) : Data V :=
  mkData (normalise o) (_data o) (n_processes o) (Some n) (n_replications o).

Definition set_n_replications (n : nat) (o : Data V) : Data V :=
  mkData (normalise o) (_data o) (n_processes o) (n_samples o) (Some n).

(** The property [data]: getter, setter and deleter. *)
Definition data : Py V (ndarray V) := getattr _data "_data".

Definition hasattr_data : Py V bool :=
  try_except (_ <- data ;; ret true) is_AttributeError (ret false).

Definition data_setter (d : ndarray V) : Py V unit :=
  has <- hasattr_data ;;
  if (has : bool) then
    raise (AttributeError
      "You can not assign a value to this attribute directly, use the set_data method instead.")
  else update_self (set__data (Some d)).

Definition data_deleter : Py V unit :=
  print PrintOverwriting ;;
  _ <- getattr _data "_data" ;;
  update_self (set__data None).

(** Number of realisations over samples. *)
Definition n_realisations_samples (current_value : option variable) : Py V Z :=
  match current_value with
  | None => n <- getattr n_samples "n_samples" ;; ret (Z.of_nat n)
  | Some cv => n <- getattr n_samples "n_samples" ;; ret (Z.of_nat n - snd cv)%Z
  end.

(** Number of realisations over replications. *)
Definition n_realisations_repl : Py V nat :=
  getattr n_replications "n_replications".

(** Number of realisations over samples and replications. *)
Definition n_realisations (current_value : option variable) : Py V Z :=
  a <- n_realisations_samples current_value ;;
  b <- n_realisations_repl ;;
  ret (a * Z.of_nat b)%Z.

(** ** [set_data] *)

(** Set the data size. *)
Definition _set_data_size (data : ndarray V) : Py V unit :=
  n <- lift (shape_at data 0) ;; update_self (set_n_processes n) ;;
  n <- lift (shape_at data 1) ;; update_self (set_n_samples n) ;;
  n <- lift (shape_at data 2) ;; update_self (set_n_replications n).

(** The body of the loop of [_normalise_data]: the slice of one process is
    flattened row by row, standardised, and written back in the same
    order. *)
Definition standardise_process (d : ndarray V) (d_p d_s d_r : nat)
  (process : nat) (d_standardised : ndarray V) : Py V (ndarray V) :=
  n <- n_realisations None ;;
  if negb (process <? d_p) then
    raise (IndexError "index is out of bounds for axis 0")
  else if negb (Z.of_nat (d_s * d_r) =? n)%Z then
    raise (ValueError "cannot reshape array")
  else
    let flat := map (fun k => item d [process; k / d_r; k mod d_r])
                    (seq 0 (d_s * d_r)) in
    let s := standardise flat in
    n_s <- getattr n_samples "n_samples" ;;
    n_r <- getattr n_replications "n_replications" ;;
    if negb (length s =? n_s * n_r) then
      raise (ValueError "cannot reshape array")
    else if negb ((n_s =? d_s) && (n_r =? d_r)) then
      raise (ValueError "could not broadcast input array")
    else
      ret {| shape := shape d_standardised;
             item := fun idx =>
               match idx with
               | [p; k; r] =>
                   if p =? process then nth (k * n_r + r) s garbage
                   else item d_standardised idx
               | _ => item d_standardised idx
               end |}.

(** Z-standardise data separately for each process. *)
Definition _normalise_data (d : ndarray V) : Py V (ndarray V) :=
  match shape d with
  | [d_p; d_s; d_r] =>
      let d_standardised := {| shape := shape d; item := fun _ => garbage |} in
      n_p <- getattr n_processes "n_processes" ;;
      for_each (arange n_p) (standardise_process d d_p d_s d_r) d_standardised
  | _ => raise (Unmodelled "normalising an array that does not have three axes")
  end.

(** Overwrite data in an existing Data object. *)
Definition set_data (data : ndarray V) (dim_order : str) : Py V unit :=
  if 3 <? length dim_order then
    raise (RuntimeError "dim_order can not have more than three entries")
  else if negb (length dim_order =? ndim data) then
    raise (RuntimeError
      "Data array dimension ({0}) and length of dim_order ({1}) are not equal.")
  else
    (* Bring data into the order processes x samples x replications. *)
    data_ordered <- lift (_reorder_data data dim_order) ;;
    _set_data_size data_ordered ;;
    n_p <- getattr n_processes "n_processes" ;;
    n_s <- getattr n_samples "n_samples" ;;
    n_r <- getattr n_replications "n_replications" ;;
    print (PrintAdding n_p n_s n_r) ;;
    try_except data_deleter is_AttributeError (ret tt) ;;
    nrm <- get_normalise ;;
    if (nrm : bool) then
      d <- _normalise_data data_ordered ;; data_setter d
    else data_setter data_ordered.

(** [Data(data, dim_order, normalise)]: the world a fresh instance lives in. *)
Definition Data_init (nrm : bool) : Data V :=
  mkData nrm None None None None.

Definition __init__ (data : option (ndarray V)) (dim_order : str) (nrm : bool)
  : Py V unit :=
  update_self (fun _ => Data_init nrm) ;;
  match data with
  | Some d => set_data d dim_order
  | None => ret tt
  end.

(** ** The realisation extractor *)

(** [np.empty((n, k))]. *)
Definition np_empty2 (n : Z) (k : nat) : outcome (matrix V) :=
  if (n <? 0)%Z then Raise (ValueError "negative dimensions are not allowed")
  else Ok {| mshape := (Z.to_nat n, k);
             mrows := repeat (repeat garbage k) (Z.to_nat n) |}.

Definition msg_smaller : string :=
  "All indices for which data is retrieved must  be smaller than the current value.".

Definition msg_access : string :=
  "You tried to access variable {0} in a data set with {1} processes and {2} samples.".

Definition msg_nans : string := "There are nans in the retrieved realisations.".

Definition msg_repl_index : string :=
  "There seems to be a problem with the replications index.".

(** The body of the inner loop of [_get_data]: copy the window of one
    replication into rows [r, r + n_real_time) of column [i]. *)
Definition retrieve_replication (idx current_value : variable)
  (n_real_time : Z) (i : nat) (replication : nat) (st : Z * matrix V)
  : Py V (Z * matrix V) :=
  let '(r, realisations) := st in
  let last_sample :=
    if (snd idx - snd current_value =? 0)%Z then None
    else Some (snd idx - snd current_value)%Z in
  realisations <-
    try_except
      (d <- data ;;
       v <- lift (getitem3 d (fst idx) (Some (snd idx)) last_sample
                           replication) ;;
       lift (setitem_col realisations r (r + n_real_time) i v))
      is_IndexError
      (raise (IndexError msg_access)) ;;
  ret ((r + n_real_time)%Z, realisations).

(** The body of the outer loop of [_get_data]: fill column [i] with the
    realisations of variable [idx]. *)
Definition retrieve_variable (current_value : variable) (n_real_time : Z)
  (replications_order : list nat) (idx : variable) (st : nat * matrix V)
  : Py V (nat * matrix V) :=
  let '(i, realisations) := st in
  '(_, realisations) <-
    for_each replications_order
      (retrieve_replication idx current_value n_real_time i)
      (0%Z, realisations) ;;
  assert (negb (existsb isnan (column garbage realisations i))) msg_nans ;;
  ret (S i, realisations).

(** Return realisations for a list of indices; with [shuffle], blocks of
    replications are permuted while the order of samples stays intact. *)
Definition _get_data (idx_list : list variable) (current_value : variable)
  (shuffle : bool) : Py V (matrix V * list nat) :=
  (* Check if requested indices are smaller than the current_value. *)
  if negb (forallb (fun x => snd x <=? snd current_value)%Z idx_list) then
    print (PrintIndexList idx_list current_value) ;;
    raise (RuntimeError msg_smaller)
  else
    (* Allocate memory. *)
    n_real_time <- n_realisations_samples (Some current_value) ;;
    n_real_repl <- n_realisations_repl ;;
    realisations <-
      lift (np_empty2 (n_real_time * Z.of_nat n_real_repl) (length idx_list)) ;;
    (* Shuffle the replication order if requested. *)
    replications_order <-
      (n <- getattr n_replications "n_replications" ;;
       if shuffle then random_permutation n else ret (arange n)) ;;
    (* Retrieve data. *)
    '(_, realisations) <-
      for_each idx_list
        (retrieve_variable current_value n_real_time replications_order)
        (0, realisations) ;;
    (* For each realisation keep the index of the replication it came from. *)
    replications_index <- lift (np_repeat replications_order n_real_time) ;;
    assert (length replications_index =? nrows realisations) msg_repl_index ;;
    ret (realisations, replications_index).

(** The argument [idx_list] as Python passes it: a list, or something else
    that holds variables. *)
Inductive idx_arg : Type :=
| PyList (l : list variable)
| PyTuple (l : list variable).

(** Return all realisations of a random variable in the data. *)
Definition get_realisations (current_value : variable) (idx_list : idx_arg)
  : Py V (matrix V * list nat) :=
  match idx_list with
  | PyList l => _get_data l current_value false
  | PyTuple _ => raise (TypeError "idx_realisations must be a list of tuples.")
  end.

(** Return realisations with permuted replications (time stays intact). *)
Definition permute_replications (current_value : variable) (idx_list : idx_arg)
  : Py V (matrix V * list nat) :=
  match idx_list with
  | PyList l => _get_data l current_value true
  | PyTuple _ => raise (TypeError "idx needs to be a list of tuples.")
  end.

(** ** Sample permutation *)

(** The argument [perm_range]: an integer or a string. *)
Inductive perm_range_arg : Type :=
| PermInt (b : Z)
| PermStr (s : string).

Definition msg_perm_range : string :=
  "Permutation range has to be larger than 1 otherwise there is nothing to permute.".

Definition msg_unknown : string := "Unkown value for 'perm_range': {0}".

Definition msg_first_dim : string :=
  "Array 'replication' index must have as many entries as the first dimension of array 'realisations'.".

Definition msg_not_enough : string :=
  "Not enough realisations per replication ({0}) to allow for the requested 'perm_range' ({1}).".

(** The body of the loop that builds the block-wise permutation: one draw
    for the block that starts at [i]. *)
Definition permute_block (perm_range : Z) (_ : nat) (st : Z * list nat)
  : Py V (Z * list nat) :=
  let '(i, perm) := st in
  p <- random_permutation (Z.to_nat perm_range) ;;
  perm <- lift (setslice perm (Some i) (Some (i + perm_range)%Z)
                         (map (fun x => x + Z.to_nat i) p)) ;;
  ret ((i + perm_range)%Z, perm).

(** The permutation that is applied to the realisations of each
    replication: one draw over the whole replication, or draws within
    consecutive blocks of length [perm_range]. *)
Definition sample_perm (n_per_repl : nat) (perm_range : Z) : Py V (list nat) :=
  if (perm_range =? Z.of_nat n_per_repl)%Z then
    (* permute all realisations in one replication *)
    random_permutation n_per_repl
  else
    (* build a permutation that permutes only within the perm_range *)
    let perm := repeat garbage_index n_per_repl in
    let remainder := (Z.of_nat n_per_repl mod perm_range)%Z in
    '(i, perm) <-
      for_each (arange (Z.to_nat (Z.of_nat n_per_repl / perm_range)))
               (permute_block perm_range) (0%Z, perm) ;;
    if (0 <? remainder)%Z then
      p <- random_permutation (Z.to_nat remainder) ;;
      lift (setslice perm (Some (- remainder)%Z) None
                     (map (fun x => x + Z.to_nat i) p))
    else ret perm.

(** [realisations[mask, :]] *)
Definition mask_getitem {A} (mask : list bool) (rows : list A)
  : outcome (list A) :=
  if length mask =? length rows then Ok (mask_select mask rows)
  else Raise (IndexError "boolean index did not match indexed array").

(** The body of the last loop of [permute_samples]: apply the permutation
    to the rows of one replication. *)
Definition permute_replication_rows (replication_idx perm : list nat)
  (replication : nat) (st : matrix V * list nat)
  : Py V (matrix V * list nat) :=
  let '(realisations_perm, perm_idx) := st in
  let mask := map (fun x => x =? replication) replication_idx in
  d <- lift (mask_getitem mask (mrows realisations_perm)) ;;
  d_perm <- lift (take d perm) ;;
  rows <- lift (mask_assign mask (mrows realisations_perm) d_perm) ;;
  perm_idx <- lift (mask_assign mask perm_idx perm) ;;
  ret ({| mshape := mshape realisations_perm; mrows := rows |}, perm_idx).

(** Return realisations with permuted samples (repl. stays intact). *)
Definition permute_samples (current_value : variable) (idx_list : idx_arg)
  (perm_range : perm_range_arg) : Py V (matrix V * list nat) :=
  '(realisations, replication_idx) <- get_realisations current_value idx_list ;;
  let realisations_perm := realisations in
  let n_per_repl := count_occ Nat.eq_dec replication_idx 0 in
  perm_range <-
    match perm_range with
    | PermInt b => assert (1 <? b)%Z msg_perm_range ;; ret b
    | PermStr s =>
        if String.eqb s "max" then ret (Z.of_nat n_per_repl)
        else raise (ValueError msg_unknown)
    end ;;
  assert (length replication_idx =? nrows realisations) msg_first_dim ;;
  assert (perm_range <=? Z.of_nat n_per_repl)%Z msg_not_enough ;;
  (* Create a permutation that respects the requested permutation range. *)
  perm <- sample_perm n_per_repl perm_range ;;
  (* Apply the permutation to data from each replication, individually. *)
  let perm_idx := repeat garbage_index (nrows realisations_perm) in
  n_r <- getattr n_replications "n_replications" ;;
  for_each (arange n_r) (permute_replication_rows replication_idx perm)
           (realisations_perm, perm_idx).

End Methods.

(** ** Concrete scalars and arrays *)

(** The float64 nearest to an integer, ties to even: an integer of at most
    53 bits is kept, a longer one loses its low bits.  (The integers of an
    int64 array are far from the overflow of float64.) *)
Definition Z_float64 (z : Z) : Z :=
  let m := Z.abs z in
  let e := (Z.log2 m - 52)%Z in
  if (e <=? 0)%Z then z
  else
    let q := Z.shiftr m e in
    let r := Z.land m (Z.ones e) in
    let half := Z.shiftl 1 (e - 1) in
    let q' := if (half <? r)%Z || ((r =? half)%Z && Z.odd q)
              then (q + 1)%Z else q in
    (Z.sgn z * Z.shiftl q' e)%Z.

(** Integer data: no NaN.  The junk left by [np.empty] is a parameter. *)
Definition Zscalar (junk : Z) (junk_index : nat) : Scalar Z :=
  {| float64 := Z_float64; isnan := fun _ => false;
     garbage := junk; garbage_index := junk_index |}.

(** Position of an index vector in the row-major (C order) buffer. *)
Definition ravel_index (shp idx : list nat) : nat :=
  fold_left (fun acc '(n, i) => acc * n + i) (combine shp idx) 0.

(** [np.arange(prod(shp)).reshape(shp)]: sequential integers. *)
Definition arange_reshape (shp : list nat) : ndarray Z :=
  {| shape := shp; item := fun idx => Z.of_nat (ravel_index shp idx) |}.

(** The same array holding real numbers. *)
Definition arange_reshape_R (shp : list nat) : ndarray R :=
  {| shape := shp; item := fun idx => IZR (Z.of_nat (ravel_index shp idx)) |}.

(** Data that is float64 already, taken as real numbers: the cast keeps
    it. *)
Definition Rscalar : Scalar R :=
  {| float64 := fun x => x; isnan := fun _ => false;
     garbage := 0%R; garbage_index := 0 |}.

Definition Rsum (l : list R) : R := fold_right Rplus 0%R l.

Definition Rmean (l : list R) : R := (Rsum l / INR (length l))%R.

Definition Rvariance (l : list R) : R :=
  Rmean (map (fun x => ((x - Rmean l) * (x - Rmean l))%R) l).

(** Modelled from the spec: standardisation of one process to zero mean and
    unit variance, over the reals. *)
Definition z_standardise (l : list R) : list R :=
  map (fun x => ((x - Rmean l) / sqrt (Rvariance l))%R) l.

Definition Rstandardise : Standardise R :=
  {| standardise := z_standardise;
     standardise_length := fun l => length_map _ l |}.

(** A stream of raw draws for runnable examples. *)
Definition example_draws : RandomState := fun i => 7 * i + 3.

Definition fresh_world {V} (nrm : bool) : World V :=
  mkWorld (Data_init nrm) [] example_draws.

Definition str_of (s : string) : str := list_ascii_of_string s.

(** An instance with normalisation switched off that holds the sequential
    integers 0 .. 23 as 2 processes x 4 samples x 3 replications. *)
Definition example_world : World Z :=
  mkWorld (mkData false (Some (arange_reshape [2; 4; 3]))
                  (Some 2) (Some 4) (Some 3))
          [PrintAdding 2 4 3; PrintOverwriting] example_draws.

(** An instance with a single replication: the integers 0 .. 7 as
    2 processes x 4 samples x 1 replication. *)
Definition single_replication_world : World Z :=
  mkWorld (mkData false (Some (arange_reshape [2; 4; 1]))
                  (Some 2) (Some 4) (Some 1))
          [PrintAdding 2 4 1; PrintOverwriting] example_draws.

(** The 4-sample x 3-process array of sequential numbers with every process
    but process 1 set to zero. *)
Definition only_process_1 : ndarray R :=
  {| shape := [4; 3];
     item := fun idx =>
       if nth 1 idx 0 =? 1 then item (arange_reshape_R [4; 3]) idx else 0%R |}.


(** ** Vocabulary of the statements *)

Section Vocabulary.
Context {V : Type} {scalar : Scalar V}.

(** The instance holds the canonical array [a] of [n_p] processes, [n_s]
    samples and [n_r] replications, as [set_data] leaves it. *)
Definition holds (o : Data V) (a : ndarray V) (n_p n_s n_r : nat) : Prop :=
  _data o = Some a /\ shape a = [n_p; n_s; n_r] /\
  n_processes o = Some n_p /\ n_samples o = Some n_s /\
  n_replications o = Some n_r.

(** The row of the stored array that a process index addresses. *)
Definition process_of (n_p : nat) (p : Z) : nat :=
  match py_index n_p p with Some p' => p' | None => 0 end.

(** A variable that addresses an existing process at a sample between 0 and
    the sample [t] of the current value. *)
Definition valid_variable (n_p : nat) (t : Z) (v : variable) : Prop :=
  py_index n_p (fst v) <> None /\ (0 <= snd v <= t)%Z.

(** The stored entry behind the [k]-th realisation of variable [v] in
    replication [rep]. *)
Definition stored_value (a : ndarray V) (n_p : nat) (v : variable)
  (rep k : nat) : V :=
  item a [process_of n_p (fst v); Z.to_nat (snd v) + k; rep].

(** The [k]-th realisation of variable [v] in replication [rep], as the
    float64 realisation matrix holds it. *)
Definition realisation (a : ndarray V) (n_p : nat) (v : variable)
  (rep k : nat) : V :=
  float64 (stored_value a n_p v rep k).

(** No realisation of the variables [idx] is NaN: what [np.isnan] is asked
    about the filled column. *)
Definition free_of_nan (a : ndarray V) (n_p n n_r : nat) (idx : list variable)
  : Prop :=
  forall v rep k, In v idx -> rep < n_r -> k < n ->
                  isnan (realisation a n_p v rep k) = false.

(** The time slots of the realisation matrix: replication-major,
    time-minor, for the replications in [order]. *)
Definition slots (n : nat) (order : list nat) : list (nat * nat) :=
  flat_map (fun rep => map (fun k => (rep, k)) (seq 0 n)) order.

(** The realisation matrix, row by row. *)
Definition realisation_rows (a : ndarray V) (n_p n : nat)
  (idx : list variable) (order : list nat) : list (list V) :=
  map (fun s => map (fun v => realisation a n_p v (fst s) (snd s)) idx)
      (slots n order).

(** The realisations that are available over time for a current value. *)
Definition available (n_s : nat) (cv : variable) : nat :=
  Z.to_nat (Z.of_nat n_s - snd cv).

(** The rows of a matrix of [k] columns in which only the columns of the
    variables [pre] have been filled so far. *)
Definition partial_rows (a : ndarray V) (n_p n k : nat)
  (pre : list variable) (order : list nat) : list (list V) :=
  map (fun s => map (fun v => realisation a n_p v (fst s) (snd s)) pre
                ++ repeat garbage (k - length pre))
      (slots n order).

(** The replication index that goes with it. *)
Definition replication_index (n : nat) (order : list nat) : list nat :=
  flat_map (fun rep => repeat rep n) order.

Definition realisation_matrix (a : ndarray V) (n_p n : nat)
  (idx : list variable) (order : list nat) : matrix V :=
  {| mshape := (n * length order, length idx);
     mrows := realisation_rows a n_p n idx order |}.

(** The [j]-th group of [n] consecutive rows. *)
Definition block {A} (n j : nat) (l : list A) : list A :=
  firstn n (skipn (j * n) l).

(** The rows whose replication index is [r]. *)
Definition rows_of_replication {A} (ri : list nat) (r : nat) (rows : list A)
  : list A :=
  mask_select (map (fun x => x =? r) ri) rows.

(** A permutation of positions that keeps every position inside its block
    of length [b]: blocks [0, b), [b, 2b), ... and a shorter last one. *)
Definition block_local (b : nat) (perm : list nat) : Prop :=
  forall k, k < length perm -> nth k perm 0 / b = k / b.

(** The state of the last loop of [permute_samples] once the replications
    [done] have been treated: their rows are the original rows of the same
    replication taken in the order [perm], and the rows of the other
    replications are still the original ones. *)
Definition permuted_upto {A} (ri perm : list nat) (rows0 : list A)
  (done : list nat) (rows : list A) (perm_idx : list nat) : Prop :=
  length rows = length ri /\ length perm_idx = length ri /\
  forall r,
    (In r done ->
       take (rows_of_replication ri r rows0) perm
       = Ok (rows_of_replication ri r rows) /\
       rows_of_replication ri r perm_idx = perm) /\
    (~ In r done ->
       rows_of_replication ri r rows = rows_of_replication ri r rows0).

(** Column [j] of a list of rows. *)
Definition column_of (rows : list (list V)) (j : nat) : list V :=
  map (fun row => nth j row garbage) rows.

(** Realisations per replication, counted the way [permute_samples] does. *)
Definition n_per_repl (n n_r : nat) : nat :=
  count_occ Nat.eq_dec (replication_index n (arange n_r)) 0.

(** The values [perm_range] may take for a call that goes through. *)
Definition valid_perm_range (n n_r : nat) (pr : perm_range_arg) : Prop :=
  match pr with
  | PermStr s => s = "max"%string
  | PermInt b => (1 < b <= Z.of_nat (n_per_repl n n_r))%Z
  end.




(** An axis-order string that describes an array: distinct symbols out of
    'p', 's', 'r'. *)
Definition valid_dim_order (dim_order : str) : Prop :=
  NoDup dim_order /\ Forall (fun c => In c psr) dim_order.

(** The size of the array along the axis that [dim_order] declares as [c],
    1 if the symbol is absent. *)
Definition declared_size (a : ndarray V) (dim_order : str) (c : ascii) : nat :=
  match str_index dim_order c with
  | Some i => nth i (shape a) 0
  | None => 1
  end.

End Vocabulary.

(** ** Vocabulary for storage and normalisation *)

Section StorageVocabulary.
Context {V : Type} {scalar : Scalar V} {std : Standardise V}.

(** The index into the array handed to [set_data] at which the entry for
    process [i_p], sample [i_s] and replication [i_r] is found: each axis
    takes the index of the symbol [dim_order] declares for it. *)
Definition source_index (dim_order : str) (i_p i_s i_r : nat) : list nat :=
  map (fun c => if Ascii.eqb c "p" then i_p
                else if Ascii.eqb c "s" then i_s else i_r)
      dim_order.

(** The values of one process of a canonical array, sample after sample and
    within a sample replication after replication, standardised. *)
Definition standardised_process (d : ndarray V) (n_s n_r process : nat)
  : list V :=
  standardise (map (fun k => item d [process; k / n_r; k mod n_r])
                   (seq 0 (n_s * n_r))).

(** What one turn of the loop of [_normalise_data] writes. *)
Definition write_process (d : ndarray V) (n_s n_r : nat)
  (d_standardised : ndarray V) (process : nat) : ndarray V :=
  {| shape := shape d_standardised;
     item := fun idx =>
       match idx with
       | [p; k; r] =>
           if p =? process
           then nth (k * n_r + r) (standardised_process d n_s n_r process)
                    garbage
           else item d_standardised idx
       | _ => item d_standardised idx
       end |}.

(** The array [_normalise_data] returns for a canonical array [d]. *)
Definition normalised (d : ndarray V) (n_p n_s n_r : nat) : ndarray V :=
  fold_left (write_process d n_s n_r) (arange n_p)
            {| shape := [n_p; n_s; n_r]; item := fun _ => garbage |}.

(** The array [set_data] stores for a canonical array [d]. *)
Definition stored (nrm : bool) (d : ndarray V) (n_p n_s n_r : nat)
  : ndarray V :=
  if nrm then normalised d n_p n_s n_r else d.

End StorageVocabulary.

(** * Properties *)

Unset Implicit Arguments.

(** ** The float64 cast on integers *)

(** Integers of at most 53 bits go through the cast unchanged. *)
Lemma Z_float64_exact (z : Z) :
  (Z.abs z <= 2 ^ 53)%Z -> Z_float64 z = z.
Proof.
  intros Hz. unfold Z_float64.
  destruct (Z.leb_spec (Z.log2 (Z.abs z) - 52) 0) as [|He]; [reflexivity|].
  assert (Hm : Z.abs z = (2 ^ 53)%Z).
  { destruct (Z.lt_ge_cases (Z.abs z) (2 ^ 53)) as [Hlt|Hge]; [|lia].
    assert (Hpos : (0 < Z.abs z)%Z).
    { destruct (Z.eq_dec (Z.abs z) 0) as [H0|H0]; [|lia].
      rewrite H0 in He. cbn in He. lia. }
    apply (Z.log2_lt_pow2 _ _ Hpos) in Hlt. lia. }
  destruct (Z.abs_spec z) as [[_ Habs]|[_ Habs]].
  - rewrite Habs in Hm. rewrite Hm. reflexivity.
  - assert (Hneg : z = (- 2 ^ 53)%Z) by lia. rewrite Hneg. reflexivity.
Qed.

(** A longer integer loses its low bits: 2^53 + 1 is stored as 2^53. *)
Lemma Z_float64_rounds : Z_float64 (2 ^ 53 + 1)%Z = (2 ^ 53)%Z.
Proof. reflexivity. Qed.

(** ** The monad *)

Section MonadFacts.
Context {V : Type}.

Lemma bind_ok {A B} (m : Py V A) (k : A -> Py V B) w a w' :
  m w = (Ok a, w') -> bind m k w = k a w'.
Proof. intros H. unfold bind. now rewrite H. Qed.

Lemma bind_raise {A B} (m : Py V A) (k : A -> Py V B) w e w' :
  m w = (Raise e, w') -> bind m k w = (Raise e, w').
Proof. intros H. unfold bind. now rewrite H. Qed.

Lemma try_except_ok {A} (m : Py V A) c h w a w' :
  m w = (Ok a, w') -> try_except m c h w = (Ok a, w').
Proof. intros H. unfold try_except. now rewrite H. Qed.

Lemma getattr_some {A} (field : Data V -> option A) name w a :
  field (self w) = Some a -> getattr field name w = (Ok a, w).
Proof. intros H. unfold getattr. now rewrite H. Qed.

Lemma getattr_none {A} (field : Data V -> option A) name w :
  field (self w) = None -> getattr field name w = (Raise (AttributeError name), w).
Proof. intros H. unfold getattr. now rewrite H. Qed.

(** A loop whose body succeeds on every element without touching the world
    computes a left fold. *)
Lemma for_each_pure {A S} (body : A -> S -> Py V S) (f : S -> A -> S)
  (I : S -> Prop) (P : A -> Prop) w :
  (forall x s, P x -> I s -> body x s w = (Ok (f s x), w) /\ I (f s x)) ->
  forall l s, Forall P l -> I s ->
    for_each l body s w = (Ok (fold_left f l s), w) /\ I (fold_left f l s).
Proof.
  intros Hbody l. induction l as [|x l IH]; intros s Hl Hs; cbn.
  - split; [reflexivity | assumption].
  - inversion Hl; subst.
    destruct (Hbody x s) as [Hx Hs']; try assumption.
    rewrite (bind_ok _ _ _ _ _ Hx). now apply IH.
Qed.

End MonadFacts.

(** ** Computations that do not write to the instance *)

Section Frame.
Context {V : Type}.











End Frame.


Section FrameMethods.
Context {V : Type} {scalar : Scalar V}.







End FrameMethods.

(** ** Slices *)

Lemma slice_bound_inside len x :
  (0 <= x <= Z.of_nat len)%Z -> slice_bound len x = Z.to_nat x.
Proof.
  intros H. unfold slice_bound.
  destruct (Z.ltb_spec x 0); [lia|]. f_equal. lia.
Qed.

(** The window [idx[1] : last_sample] of [_get_data]: for a sample offset
    between 0 and [t] it starts at the offset and has [n_s - t] entries. *)
Lemma slice_indices_window n_s t off :
  (0 <= off <= t)%Z -> (t <= Z.of_nat n_s)%Z ->
  slice_indices n_s (Some off)
    (if (off - t =? 0)%Z then None else Some (off - t)%Z)
  = (Z.to_nat off, Z.to_nat (Z.of_nat n_s - t)).
Proof.
  intros H1 H2. unfold slice_indices.
  rewrite slice_bound_inside by lia.
  destruct (Z.eqb_spec (off - t) 0) as [E|E].
  - f_equal. lia.
  - unfold slice_bound. destruct (Z.ltb_spec (off - t) 0); [|lia].
    f_equal. lia.
Qed.


Lemma slice_indices_rows len lo n :
  lo + n <= len ->
  slice_indices len (Some (Z.of_nat lo)) (Some (Z.of_nat lo + Z.of_nat n)%Z)
  = (lo, n).
Proof.
  intros H. unfold slice_indices.
  rewrite !slice_bound_inside by lia. f_equal; lia.
Qed.

Lemma map_seq_from {A} (f : nat -> A) lo n :
  map f (seq lo n) = map (fun k => f (lo + k)) (seq 0 n).
Proof.
  revert lo. induction n as [|n IH]; intros lo; cbn; trivial.
  f_equal; [f_equal; lia|].
  rewrite (IH (S lo)), <- (seq_shift n 0), map_map.
  apply map_ext. intros k. f_equal. lia.
Qed.

Lemma broadcast_to_same {A} (v : list A) n :
  length v = n -> broadcast_to n v = Ok v.
Proof. intros H. unfold broadcast_to. now rewrite H, Nat.eqb_refl. Qed.

(** ** Writing a column of the realisation matrix *)

Section WriteCol.
Context {V : Type}.

Lemma write_col_nothing (rows : list (list V)) lo i :
  write_col rows lo i [] = rows.
Proof.
  revert lo. induction rows as [|row rows IH]; intros [|lo]; cbn; trivial.
  now rewrite IH.
Qed.

Lemma length_write_col (rows : list (list V)) lo i v :
  length (write_col rows lo i v) = length rows.
Proof.
  revert lo v. induction rows as [|row rows IH]; intros lo v; cbn; trivial.
  destruct lo as [|lo]; [destruct v as [|x v]|]; cbn; auto.
Qed.

(** Two consecutive blocks written one after the other. *)
Lemma write_col_app (rows : list (list V)) lo i v1 v2 :
  write_col (write_col rows lo i v1) (lo + length v1) i v2
  = write_col rows lo i (v1 ++ v2).
Proof.
  revert lo v1. induction rows as [|row rows IH]; intros lo v1.
  - destruct lo, v1; reflexivity.
  - destruct lo as [|lo].
    + destruct v1 as [|x v1]; cbn [write_col app length Nat.add].
      * reflexivity.
      * f_equal. apply (IH 0 v1).
    + cbn [write_col Nat.add]. f_equal. apply IH.
Qed.

(** A block that covers all rows replaces entry [i] of each of them. *)
Lemma write_col_full (rows : list (list V)) i v :
  length v = length rows ->
  write_col rows 0 i v
  = map (fun rx => firstn i (fst rx) ++ snd rx :: skipn (S i) (fst rx))
        (combine rows v).
Proof.
  revert v. induction rows as [|row rows IH]; intros [|x v] H;
    try discriminate; cbn; trivial.
  f_equal. apply IH. now injection H.
Qed.

End WriteCol.

(** ** The random source *)

Lemma insert_at_perm {A} k (x : A) l : Permutation (insert_at k x l) (x :: l).
Proof.
  unfold insert_at. symmetry.
  rewrite <- (firstn_skipn k l) at 1. apply Permutation_middle.
Qed.

Lemma shuffle_perm l g : Permutation (fst (shuffle l g)) l.
Proof.
  induction l as [|x l IH]; cbn [shuffle].
  - constructor.
  - destruct (shuffle l g) as [p g1]. unfold next_draw. cbn [fst] in *.
    rewrite insert_at_perm. now constructor.
Qed.

(** [np.random.permutation(n)] returns a permutation of [range(n)]. *)
Lemma np_random_permutation_perm n g :
  Permutation (fst (np_random_permutation n g)) (arange n).
Proof. apply shuffle_perm. Qed.

Lemma perm_arange_lt p n : Permutation p (arange n) -> Forall (fun x => x < n) p.
Proof.
  intros H. apply Forall_forall. intros x Hx.
  apply (Permutation_in _ H), in_seq in Hx. lia.
Qed.

(** ** Slots, rows and replication indices *)

Lemma combine_map_same {A B C} (f : A -> B) (g : A -> C) l :
  combine (map f l) (map g l) = map (fun x => (f x, g x)) l.
Proof. induction l as [|x l IH]; cbn; [reflexivity | now rewrite IH]. Qed.

Lemma map_const_repeat {A B} (c : B) (l : list A) :
  map (fun _ => c) l = repeat c (length l).
Proof. induction l as [|x l IH]; cbn; [reflexivity | now rewrite IH]. Qed.

Lemma length_slots n order : length (slots n order) = n * length order.
Proof.
  unfold slots. induction order as [|rep order IH]; cbn; [lia|].
  rewrite length_app, length_map, length_seq, IH. lia.
Qed.

Lemma slots_cons n rep order :
  slots n (rep :: order) = map (fun k => (rep, k)) (seq 0 n) ++ slots n order.
Proof. reflexivity. Qed.

Lemma in_slots n order s :
  In s (slots n order) -> In (fst s) order /\ snd s < n.
Proof.
  unfold slots. rewrite in_flat_map. intros (rep & Hrep & Hs).
  apply in_map_iff in Hs. destruct Hs as (k & <- & Hk).
  apply in_seq in Hk. cbn. split; [assumption | lia].
Qed.

Lemma length_replication_index n order :
  length (replication_index n order) = n * length order.
Proof.
  unfold replication_index. induction order as [|rep order IH]; cbn; [lia|].
  rewrite length_app, repeat_length, IH. lia.
Qed.

Lemma replication_index_slots n order :
  replication_index n order = map fst (slots n order).
Proof.
  unfold replication_index, slots.
  induction order as [|rep order IH]; cbn; trivial.
  rewrite map_app, map_map, IH. cbn [fst].
  now rewrite map_const_repeat, length_seq.
Qed.

Lemma length_arange n : length (arange n) = n.
Proof. apply length_seq. Qed.

(** ** The extractor in closed form *)

Section Extractor.
Context {V : Type} {scalar : Scalar V}.

Variables (w : World V) (a : ndarray V) (n_p n_s n_r : nat).
Hypothesis Hholds : holds (self w) a n_p n_s n_r.
Variable cv : variable.
Hypothesis Ht : (0 <= snd cv <= Z.of_nat n_s)%Z.

Variable n : nat.
Hypothesis Hn : n = available n_s cv.

Lemma data_holds : data w = (Ok a, w).
Proof. apply getattr_some, Hholds. Qed.

(** One window of the stored array. *)
Lemma getitem3_window v rep :
  valid_variable n_p (snd cv) v -> rep < n_r ->
  getitem3 a (fst v) (Some (snd v))
    (if (snd v - snd cv =? 0)%Z then None else Some (snd v - snd cv)%Z) rep
  = Ok (map (fun k => stored_value a n_p v rep k) (seq 0 n)).
Proof.
  intros [Hp Hoff] Hrep. unfold getitem3.
  destruct Hholds as (_ & -> & _).
  unfold stored_value, process_of.
  destruct (py_index n_p (fst v)) as [p'|]; [|congruence].
  destruct (Nat.ltb_spec rep n_r); [|lia].
  rewrite slice_indices_window by lia. fold (available n_s cv). rewrite <- Hn.
  f_equal. apply (map_seq_from (fun k => item a [p'; k; rep])).
Qed.


Lemma retrieve_replication_ok v i rep lo (M : matrix V) :
  valid_variable n_p (snd cv) v -> rep < n_r ->
  i < ncols M -> lo + n <= nrows M ->
  retrieve_replication v cv (Z.of_nat n_s - snd cv) i rep (Z.of_nat lo, M) w
  = (Ok (Z.of_nat (lo + n),
         {| mshape := mshape M;
            mrows := write_col (mrows M) lo i
                       (map (fun k => realisation a n_p v rep k) (seq 0 n)) |}),
     w).
Proof.
  intros Hv Hrep Hi Hlo. unfold retrieve_replication.
  erewrite bind_ok; cycle 1.
  - apply try_except_ok.
    rewrite (bind_ok _ _ _ _ _ data_holds).
    unfold lift at 1. erewrite bind_ok by (rewrite getitem3_window; eauto).
    unfold lift, setitem_col.
    destruct (Nat.ltb_spec i (ncols M)); [|lia].
    replace (Z.of_nat n_s - snd cv)%Z with (Z.of_nat n) by (rewrite Hn; unfold available; lia).
    rewrite slice_indices_rows by assumption. rewrite map_map.
    rewrite broadcast_to_same by now rewrite length_map, length_seq.
    reflexivity.
  - unfold ret. do 3 f_equal. rewrite Hn. unfold available. lia.
Qed.

(** The inner loop writes the realisations of one variable, replication
    after replication, into column [i]. *)
Lemma retrieve_replications_ok v i order :
  valid_variable n_p (snd cv) v -> Forall (fun rep => rep < n_r) order ->
  forall lo (M : matrix V),
  i < ncols M -> lo + n * length order <= nrows M ->
  for_each order (retrieve_replication v cv (Z.of_nat n_s - snd cv) i)
           (Z.of_nat lo, M) w
  = (Ok (Z.of_nat (lo + n * length order),
         {| mshape := mshape M;
            mrows := write_col (mrows M) lo i
                       (map (fun s => realisation a n_p v (fst s) (snd s))
                            (slots n order)) |}),
     w).
Proof.
  intros Hv Horder. induction Horder as [|rep order Hrep Horder IH];
    intros lo M Hi Hlo.
  - cbn. rewrite write_col_nothing. destruct M. unfold ret. cbn.
    do 3 f_equal. lia.
  - cbn [for_each length] in *.
    assert (Hlo' : lo + n <= nrows M) by lia.
    rewrite (bind_ok _ _ _ _ _ (retrieve_replication_ok v i rep lo M Hv Hrep Hi Hlo')).
    rewrite IH by (unfold nrows, ncols in *; cbn [mshape]; lia).
    cbn [mshape mrows]. do 3 f_equal; [lia|].
    rewrite slots_cons, map_app, map_map. cbn [fst snd].
    rewrite <- write_col_app. now rewrite length_map, length_seq.
Qed.


Lemma partial_rows_nil k order :
  partial_rows a n_p n k [] order = repeat (repeat garbage k) (n * length order).
Proof.
  unfold partial_rows. cbn. rewrite Nat.sub_0_r.
  now rewrite map_const_repeat, length_slots.
Qed.

Lemma partial_rows_all idx order :
  partial_rows a n_p n (length idx) idx order
  = realisation_rows a n_p n idx order.
Proof.
  unfold partial_rows, realisation_rows. apply map_ext. intros s.
  rewrite Nat.sub_diag. apply app_nil_r.
Qed.

(** Filling the next column. *)
Lemma write_col_partial_rows k pre v order :
  length pre < k ->
  write_col (partial_rows a n_p n k pre order) 0 (length pre)
            (map (fun s => realisation a n_p v (fst s) (snd s)) (slots n order))
  = partial_rows a n_p n k (pre ++ [v]) order.
Proof.
  intros Hk. unfold partial_rows.
  rewrite write_col_full by now rewrite !length_map.
  rewrite combine_map_same, map_map. apply map_ext. intros s. cbn [fst snd].
  rewrite firstn_app, firstn_all2 by (rewrite length_map; lia).
  rewrite length_map, Nat.sub_diag, firstn_0, app_nil_r.
  rewrite skipn_app, skipn_all2 by (rewrite length_map; lia).
  rewrite length_map. replace (S (length pre) - length pre) with 1 by lia.
  rewrite map_app, <- app_assoc, length_app. cbn [map app length].
  do 2 f_equal.
  replace (k - length pre) with (S (k - (length pre + 1))) by lia.
  reflexivity.
Qed.

Lemma column_partial_rows k pre v order shp :
  column garbage {| mshape := shp;
                    mrows := partial_rows a n_p n k (pre ++ [v]) order |}
         (length pre)
  = map (fun s => realisation a n_p v (fst s) (snd s)) (slots n order).
Proof.
  unfold column, partial_rows. cbn [mrows]. rewrite map_map.
  apply map_ext. intros s.
  rewrite map_app, <- app_assoc, app_nth2 by (rewrite length_map; lia).
  now rewrite length_map, Nat.sub_diag.
Qed.

Lemma existsb_nowhere {A} (f : A -> bool) l :
  (forall x, In x l -> f x = false) -> existsb f l = false.
Proof.
  intros H. induction l as [|x l IH]; cbn; trivial.
  rewrite H by now left. apply IH. intros y Hy. apply H. now right.
Qed.

(** The outer loop body fills column [length pre] with variable [v]. *)
Lemma retrieve_variable_ok k pre v order :
  valid_variable n_p (snd cv) v -> Forall (fun rep => rep < n_r) order ->
  free_of_nan a n_p n n_r [v] -> length pre < k ->
  retrieve_variable cv (Z.of_nat n_s - snd cv) order v
    (length pre, {| mshape := (n * length order, k);
                    mrows := partial_rows a n_p n k pre order |}) w
  = (Ok (S (length pre),
         {| mshape := (n * length order, k);
            mrows := partial_rows a n_p n k (pre ++ [v]) order |}), w).
Proof.
  intros Hv Horder Hnan Hk. unfold retrieve_variable.
  erewrite bind_ok; cycle 1.
  { apply (retrieve_replications_ok v (length pre) order Hv Horder 0).
    - exact Hk.
    - cbn. lia. }
  cbn [mshape mrows]. rewrite write_col_partial_rows by assumption.
  rewrite column_partial_rows.
  rewrite existsb_nowhere; [reflexivity|].
  intros x Hx. apply in_map_iff in Hx. destruct Hx as (s & <- & Hs).
  apply in_slots in Hs. destruct Hs as [Hs1 Hs2].
  apply Hnan; [now left | | assumption].
  rewrite Forall_forall in Horder. now apply Horder.
Qed.

(** The outer loop fills the remaining columns from left to right. *)
Lemma retrieve_variables_ok k order rest :
  Forall (valid_variable n_p (snd cv)) rest ->
  Forall (fun rep => rep < n_r) order ->
  free_of_nan a n_p n n_r rest ->
  forall pre, length pre + length rest = k ->
  for_each rest (retrieve_variable cv (Z.of_nat n_s - snd cv) order)
    (length pre, {| mshape := (n * length order, k);
                    mrows := partial_rows a n_p n k pre order |}) w
  = (Ok (k, {| mshape := (n * length order, k);
               mrows := partial_rows a n_p n k (pre ++ rest) order |}), w).
Proof.
  intros Hrest Horder. induction Hrest as [|v rest Hv Hrest IH];
    intros Hnan pre Hk.
  - cbn in *. rewrite app_nil_r. unfold ret. do 3 f_equal. lia.
  - cbn [for_each length] in *.
    rewrite (bind_ok _ _ _ _ _
               (retrieve_variable_ok k pre v order Hv Horder
                  ltac:(intros x rep j [<-|[]]; apply Hnan; now left)
                  ltac:(lia))).
    replace (S (length pre)) with (length (pre ++ [v]))
      by (rewrite length_app; cbn; lia).
    rewrite IH.
    + now rewrite <- app_assoc.
    + intros x rep j Hx. apply Hnan. now right.
    + rewrite length_app. cbn. lia.
Qed.

End Extractor.

Section GetData.
Context {V : Type} {scalar : Scalar V}.

Lemma forallb_offsets n_p (cv : variable) (idx : list variable) :
  Forall (valid_variable n_p (snd cv)) idx ->
  forallb (fun x => (snd x <=? snd cv)%Z) idx = true.
Proof.
  intros H. apply forallb_forall. intros v Hv.
  rewrite Forall_forall in H. destruct (H v Hv) as [_ Hoff].
  apply Z.leb_le. lia.
Qed.

(** What is left of [_get_data] once the order of the replications has
    been chosen. *)
Lemma get_data_tail (w : World V) a n_p n_s n_r (cv : variable) idx order :
  holds (self w) a n_p n_s n_r ->
  (0 <= snd cv <= Z.of_nat n_s)%Z ->
  Forall (valid_variable n_p (snd cv)) idx ->
  free_of_nan a n_p (available n_s cv) n_r idx ->
  Forall (fun rep => rep < n_r) order -> length order = n_r ->
  ('(_, realisations) <-
     for_each idx
       (retrieve_variable cv (Z.of_nat n_s - snd cv) order)
       (0, {| mshape := (Z.to_nat ((Z.of_nat n_s - snd cv) * Z.of_nat n_r),
                         length idx);
              mrows := repeat (repeat garbage (length idx))
                         (Z.to_nat ((Z.of_nat n_s - snd cv) * Z.of_nat n_r)) |}) ;;
   replications_index <- lift (np_repeat order (Z.of_nat n_s - snd cv)) ;;
   assert (length replications_index =? nrows realisations) msg_repl_index ;;
   ret (realisations, replications_index)) w
  = (Ok (realisation_matrix a n_p (available n_s cv) idx order,
         replication_index (available n_s cv) order), w).
Proof.
  intros Hholds Ht Hidx Hnan Horder Hlen.
  assert (HN : Z.to_nat ((Z.of_nat n_s - snd cv) * Z.of_nat n_r)
               = available n_s cv * length order).
  { rewrite Hlen. unfold available. nia. }
  rewrite HN, <- (partial_rows_nil a n_p (available n_s cv) (length idx) order).
  erewrite bind_ok; cycle 1.
  { apply (retrieve_variables_ok w a n_p n_s n_r Hholds cv Ht
             (available n_s cv) eq_refl (length idx) order idx Hidx Horder
             Hnan []). reflexivity. }
  cbn [app]. rewrite partial_rows_all.
  unfold lift at 1, np_repeat.
  destruct (Z.ltb_spec (Z.of_nat n_s - snd cv) 0); [lia|].
  erewrite bind_ok by reflexivity.
  fold (available n_s cv). fold (replication_index (available n_s cv) order).
  rewrite length_replication_index. unfold nrows. cbn [mshape fst].
  rewrite Nat.eqb_refl. reflexivity.
Qed.

(** [_get_data] on a valid request, in closed form. *)
Lemma get_data_closed (w : World V) a n_p n_s n_r (cv : variable) idx shuffle :
  holds (self w) a n_p n_s n_r ->
  (0 <= snd cv <= Z.of_nat n_s)%Z ->
  Forall (valid_variable n_p (snd cv)) idx ->
  free_of_nan a n_p (available n_s cv) n_r idx ->
  _get_data idx cv shuffle w
  = if shuffle then
      (Ok (realisation_matrix a n_p (available n_s cv) idx
             (fst (np_random_permutation n_r (random w))),
           replication_index (available n_s cv)
             (fst (np_random_permutation n_r (random w)))),
       mkWorld (self w) (stdout w) (snd (np_random_permutation n_r (random w))))
    else
      (Ok (realisation_matrix a n_p (available n_s cv) idx (arange n_r),
           replication_index (available n_s cv) (arange n_r)), w).
Proof.
  intros Hholds Ht Hidx Hnan. unfold _get_data.
  rewrite (forallb_offsets n_p cv idx Hidx). cbn [negb].
  pose proof Hholds as (Hd & Hshape & Hp & Hs & Hr).
  unfold n_realisations_samples, n_realisations_repl.
  erewrite bind_ok; cycle 1.
  { rewrite (bind_ok _ _ _ _ _ (getattr_some _ _ w n_s Hs)). reflexivity. }
  rewrite (bind_ok _ _ _ _ _ (getattr_some _ _ w n_r Hr)).
  unfold lift at 1, np_empty2.
  destruct (Z.ltb_spec ((Z.of_nat n_s - snd cv) * Z.of_nat n_r) 0); [nia|].
  erewrite bind_ok by reflexivity.
  destruct shuffle.
  - erewrite bind_ok; cycle 1.
    { rewrite (bind_ok _ _ _ _ _ (getattr_some _ _ w n_r Hr)).
      unfold random_permutation.
      rewrite (surjective_pairing (np_random_permutation n_r (random w))).
      reflexivity. }
    apply get_data_tail; try assumption.
    + apply perm_arange_lt, np_random_permutation_perm.
    + rewrite (Permutation_length (np_random_permutation_perm _ _)).
      apply length_arange.
  - erewrite bind_ok; cycle 1.
    { rewrite (bind_ok _ _ _ _ _ (getattr_some _ _ w n_r Hr)). reflexivity. }
    apply get_data_tail; try assumption.
    + apply perm_arange_lt. reflexivity.
    + apply length_arange.
Qed.

End GetData.

(** ** Shape of the realisation matrix *)

Section Realisations.
Context {V : Type} {scalar : Scalar V}.

Lemma length_realisation_rows (a : ndarray V) n_p n idx order :
  length (realisation_rows a n_p n idx order) = n * length order.
Proof. unfold realisation_rows. now rewrite length_map, length_slots. Qed.

Lemma width_realisation_rows (a : ndarray V) n_p n idx order :
  Forall (fun row => length row = length idx)
         (realisation_rows a n_p n idx order).
Proof.
  unfold realisation_rows. apply Forall_forall. intros row Hrow.
  apply in_map_iff in Hrow. destruct Hrow as (s & <- & _).
  apply length_map.
Qed.

(** C1, as the code has it: on a Dataset with [n_s] samples and [n_r]
    replications, for a current value at sample [t] with [0 <= t <= n_s] and
    a list of variables that address existing processes at samples between
    0 and [t], over stored values that are not NaN, [get_realisations]
    returns a matrix of [(n_s - t) * n_r] rows with one column per variable
    and a replication index of as many entries; the world is left as it
    was. *)
Theorem get_realisations_shape (w : World V) a n_p n_s n_r
  (cv : variable) (idx : list variable) :
  holds (self w) a n_p n_s n_r ->
  (0 <= snd cv <= Z.of_nat n_s)%Z ->
  Forall (valid_variable n_p (snd cv)) idx ->
  free_of_nan a n_p (available n_s cv) n_r idx ->
  exists M ri,
    get_realisations cv (PyList idx) w = (Ok (M, ri), w) /\
    Z.of_nat (nrows M) = ((Z.of_nat n_s - snd cv) * Z.of_nat n_r)%Z /\
    ncols M = length idx /\
    length (mrows M) = nrows M /\
    Forall (fun row => length row = ncols M) (mrows M) /\
    length ri = nrows M.
Proof.
  intros Hholds Ht Hidx Hnan.
  exists (realisation_matrix a n_p (available n_s cv) idx (arange n_r)),
         (replication_index (available n_s cv) (arange n_r)).
  split; [|unfold nrows, ncols, realisation_matrix; cbn [mshape mrows fst snd];
           rewrite length_arange; repeat split].
  - cbn [get_realisations].
    now rewrite (get_data_closed w a n_p n_s n_r cv idx false).
  - unfold available. nia.
  - now rewrite length_realisation_rows, length_arange.
  - apply width_realisation_rows.
  - now rewrite length_replication_index, length_arange.
Qed.

(** C10: with the empty variable list [get_realisations] goes through and
    returns a matrix of [(n_s - t) * n_r] rows without columns, together
    with the natural replication index: every replication 0 .. n_r - 1 in
    ascending order, each repeated [n_s - t] times. *)
Theorem get_realisations_empty_list (w : World V) n_s n_r (cv : variable) :
  n_samples (self w) = Some n_s ->
  n_replications (self w) = Some n_r ->
  (0 <= snd cv <= Z.of_nat n_s)%Z ->
  get_realisations cv (PyList []) w
  = (Ok ({| mshape := (available n_s cv * n_r, 0);
            mrows := repeat [] (available n_s cv * n_r) |},
         flat_map (fun rep => repeat rep (available n_s cv)) (seq 0 n_r)), w)
  /\ Z.of_nat (available n_s cv * n_r)
     = ((Z.of_nat n_s - snd cv) * Z.of_nat n_r)%Z.
Proof.
  intros Hs Hr Ht. split; [|unfold available; nia].
  cbn [get_realisations]. unfold _get_data. cbn [forallb negb length].
  unfold n_realisations_samples, n_realisations_repl.
  erewrite bind_ok; cycle 1.
  { rewrite (bind_ok _ _ _ _ _ (getattr_some _ _ w n_s Hs)). reflexivity. }
  rewrite (bind_ok _ _ _ _ _ (getattr_some _ _ w n_r Hr)).
  unfold lift at 1, np_empty2.
  destruct (Z.ltb_spec ((Z.of_nat n_s - snd cv) * Z.of_nat n_r) 0); [nia|].
  erewrite bind_ok by reflexivity.
  erewrite bind_ok; cycle 1.
  { rewrite (bind_ok _ _ _ _ _ (getattr_some _ _ w n_r Hr)). reflexivity. }
  cbn [for_each]. erewrite bind_ok by reflexivity.
  unfold lift, np_repeat.
  destruct (Z.ltb_spec (Z.of_nat n_s - snd cv) 0); [lia|].
  erewrite bind_ok by reflexivity.
  replace (Z.to_nat ((Z.of_nat n_s - snd cv) * Z.of_nat n_r))
    with (available n_s cv * n_r) by (unfold available; nia).
  fold (available n_s cv).
  fold (replication_index (available n_s cv) (arange n_r)).
  rewrite length_replication_index, length_arange.
  unfold nrows. cbn [mshape fst]. rewrite Nat.eqb_refl. reflexivity.
Qed.

(** C4: a variable whose sample offset exceeds that of the current value
    makes [get_realisations] and [permute_replications] print the index list
    and the current value and raise; nothing is extracted, no random number
    is drawn, and the instance keeps its array and its counts. *)
Theorem offset_beyond_current_value_rejected (w : World V)
  (cv : variable) (idx : list variable) :
  Exists (fun v => (snd cv < snd v)%Z) idx ->
  get_realisations cv (PyList idx) w
  = (Raise (RuntimeError msg_smaller),
     mkWorld (self w) (stdout w ++ [PrintIndexList idx cv]) (random w)) /\
  permute_replications cv (PyList idx) w
  = (Raise (RuntimeError msg_smaller),
     mkWorld (self w) (stdout w ++ [PrintIndexList idx cv]) (random w)).
Proof.
  intros Hex.
  assert (Hcheck : forallb (fun x => (snd x <=? snd cv)%Z) idx = false).
  { apply not_true_is_false. intros Hall.
    rewrite forallb_forall in Hall. apply Exists_exists in Hex.
    destruct Hex as (v & Hv & Hlt). specialize (Hall v Hv).
    apply Z.leb_le in Hall. lia. }
  cbn [get_realisations permute_replications]. unfold _get_data.
  rewrite Hcheck. cbn [negb]. split; reflexivity.
Qed.

End Realisations.

(** ** Permuting replications *)

Section PermuteReplications.
Context {V : Type} {scalar : Scalar V}.

(** The [j]-th block of rows belongs to the [j]-th replication of the
    traversal order. *)
Lemma block_map_slots {B} (f : nat * nat -> B) n order j :
  j < length order ->
  block n j (map f (slots n order))
  = map (fun k => f (nth j order 0, k)) (seq 0 n).
Proof.
  unfold block. revert j. induction order as [|rep order IH]; intros j Hj.
  - cbn in Hj. lia.
  - rewrite slots_cons, map_app, map_map.
    destruct j as [|j].
    + cbn [Nat.mul skipn nth].
      rewrite firstn_app, firstn_all2 by (rewrite length_map, length_seq; lia).
      rewrite length_map, length_seq, Nat.sub_diag, firstn_0. apply app_nil_r.
    + cbn [nth]. rewrite skipn_app, length_map, length_seq.
      rewrite skipn_all2 by (rewrite length_map, length_seq; cbn; lia).
      replace (S j * n - n) with (j * n) by (cbn; lia).
      cbn [app]. apply IH. cbn in Hj. lia.
Qed.

Lemma nth_arange n j : j < n -> nth j (arange n) 0 = j.
Proof. intros H. unfold arange. now rewrite seq_nth. Qed.

Lemma count_occ_repeat_same n (x : nat) : count_occ Nat.eq_dec (repeat x n) x = n.
Proof.
  induction n as [|n IH]; cbn; trivial.
  destruct (Nat.eq_dec x x); [now rewrite IH | congruence].
Qed.

Lemma count_occ_repeat_other n (x y : nat) :
  x <> y -> count_occ Nat.eq_dec (repeat x n) y = 0.
Proof.
  intros H. induction n as [|n IH]; cbn; trivial.
  destruct (Nat.eq_dec x y); [congruence | assumption].
Qed.

Lemma count_occ_replication_index n order r :
  count_occ Nat.eq_dec (replication_index n order) r
  = n * count_occ Nat.eq_dec order r.
Proof.
  unfold replication_index. induction order as [|x order IH]; cbn; [lia|].
  rewrite count_occ_app, IH.
  destruct (Nat.eq_dec x r) as [->|Hne].
  - rewrite count_occ_repeat_same. lia.
  - rewrite count_occ_repeat_other by assumption. lia.
Qed.

Lemma count_occ_arange n r : r < n -> count_occ Nat.eq_dec (arange n) r = 1.
Proof.
  intros H. apply NoDup_count_occ'; [apply seq_NoDup | apply in_seq; lia].
Qed.

(** C2: on a valid call [permute_replications] returns the rows of
    [get_realisations] permuted block by block.  There is a permutation [pi]
    of the replications such that block [j] of the result is the block of
    replication [pi j] of [get_realisations], in unchanged order, the
    replication index lists [pi j] once for each row of block [j], and every
    replication occurs in it as often as it has realisations over time.
    The instance is left as it was. *)
Theorem permute_replications_blocks (w : World V) a n_p n_s n_r
  (cv : variable) (idx : list variable) :
  holds (self w) a n_p n_s n_r ->
  (0 <= snd cv <= Z.of_nat n_s)%Z ->
  Forall (valid_variable n_p (snd cv)) idx ->
  free_of_nan a n_p (available n_s cv) n_r idx ->
  exists M ri M0 ri0 pi w',
    permute_replications cv (PyList idx) w = (Ok (M, ri), w') /\
    get_realisations cv (PyList idx) w = (Ok (M0, ri0), w) /\
    self w' = self w /\
    Permutation pi (arange n_r) /\
    mshape M = mshape M0 /\
    (forall j, j < n_r ->
       block (available n_s cv) j (mrows M)
       = block (available n_s cv) (nth j pi 0) (mrows M0)) /\
    ri = flat_map (fun r => repeat r (available n_s cv)) pi /\
    (forall r, r < n_r -> count_occ Nat.eq_dec ri r = available n_s cv).
Proof.
  intros Hholds Ht Hidx Hnan.
  pose proof (np_random_permutation_perm n_r (random w)) as Hperm.
  set (pi := fst (np_random_permutation n_r (random w))) in *.
  exists (realisation_matrix a n_p (available n_s cv) idx pi),
         (replication_index (available n_s cv) pi),
         (realisation_matrix a n_p (available n_s cv) idx (arange n_r)),
         (replication_index (available n_s cv) (arange n_r)),
         pi,
         (mkWorld (self w) (stdout w)
                  (snd (np_random_permutation n_r (random w)))).
  assert (Hlen : length pi = n_r).
  { rewrite (Permutation_length Hperm). apply length_arange. }
  repeat split.
  - cbn [permute_replications].
    now rewrite (get_data_closed w a n_p n_s n_r cv idx true).
  - cbn [get_realisations].
    now rewrite (get_data_closed w a n_p n_s n_r cv idx false).
  - assumption.
  - unfold realisation_matrix. cbn [mshape]. now rewrite Hlen, length_arange.
  - intros j Hj. unfold realisation_matrix, realisation_rows. cbn [mrows].
    assert (Hpj : nth j pi 0 < n_r).
    { apply (proj1 (Forall_forall _ _) (perm_arange_lt pi n_r Hperm)).
      apply nth_In. lia. }
    rewrite !block_map_slots by (rewrite ?length_arange; lia).
    now rewrite nth_arange.
  - intros r Hr. rewrite count_occ_replication_index.
    rewrite (Permutation_count_occ Nat.eq_dec pi (arange n_r)) in Hperm.
    rewrite Hperm, count_occ_arange by assumption. lia.
Qed.

End PermuteReplications.

(** ** Canonical storage *)

Section SetData.
Context {V : Type} {scalar : Scalar V} {std : Standardise V}.

Ltac split_symbols :=
  repeat match goal with
         | H : Forall _ (_ :: _) |- _ => inversion H; clear H; subst
         | H : Forall _ [] |- _ => clear H
         end;
  cbn [In psr list_ascii_of_string] in *;
  repeat match goal with
         | H : _ \/ _ |- _ => destruct H; subst
         | H : False |- _ => destruct H
         end.

Ltac repeated_symbol :=
  exfalso;
  match goal with
  | H : NoDup _ |- _ =>
      repeat (apply NoDup_cons_iff in H; destruct H as [? H]);
      cbn [In] in *; tauto
  end.

(** The canonicalizer puts the axis declared as 'p' first, the one declared
    as 's' second and the one declared as 'r' last; an axis that is not
    declared has length 1. *)
Lemma reorder_data_shape (arr : ndarray V) (dim_order : str) :
  valid_dim_order dim_order ->
  length dim_order = ndim arr -> 1 <= ndim arr <= 3 ->
  exists a',
    _reorder_data arr dim_order = Ok a' /\
    shape a' = [declared_size arr dim_order "p";
                declared_size arr dim_order "s";
                declared_size arr dim_order "r"].
Proof.
  intros [Hnodup Hsym] Hlen Hrank. destruct arr as [shp f].
  unfold ndim in *. cbn [shape] in *.
  destruct shp as [|n1 [|n2 [|n3 [|n4 shp]]]]; cbn [length] in *; try lia;
    destruct dim_order as [|c1 [|c2 [|c3 [|c4 dim_order]]]];
    try discriminate Hlen;
    split_symbols;
    first [ repeated_symbol | eexists; split; reflexivity ].
Qed.

(** The loop of [_normalise_data] goes through when the counts of the
    instance are those of the array. *)
Lemma normalise_data_ok (w : World V) (d : ndarray V) n_p n_s n_r :
  shape d = [n_p; n_s; n_r] ->
  n_processes (self w) = Some n_p -> n_samples (self w) = Some n_s ->
  n_replications (self w) = Some n_r ->
  exists d', _normalise_data d w = (Ok d', w) /\ shape d' = [n_p; n_s; n_r].
Proof.
  intros Hshape Hp Hs Hr. unfold _normalise_data. rewrite Hshape.
  rewrite (bind_ok _ _ _ _ _ (getattr_some _ _ w n_p Hp)).
  pose proof (for_each_pure (V := V)
               (standardise_process d n_p n_s n_r)
               (fun d_standardised process =>
                  {| shape := shape d_standardised;
                     item := fun idx =>
                       match idx with
                       | [p; k; r] =>
                           if p =? process
                           then nth (k * n_r + r)
                                  (standardise
                                     (map (fun k => item d [process; k / n_r; k mod n_r])
                                          (seq 0 (n_s * n_r)))) garbage
                           else item d_standardised idx
                       | _ => item d_standardised idx
                       end |})
               (fun s => shape s = [n_p; n_s; n_r])
               (fun process => process < n_p) w) as Hloop.
  destruct Hloop
    with (l := arange n_p)
         (s := {| shape := [n_p; n_s; n_r]; item := fun _ : list nat => garbage |})
    as [Hrun Hinv].
  - intros process s Hproc Hinv. split; [|exact Hinv].
    unfold standardise_process, n_realisations, n_realisations_samples,
      n_realisations_repl.
    erewrite bind_ok; cycle 1.
    { erewrite bind_ok; cycle 1.
      { rewrite (bind_ok _ _ _ _ _ (getattr_some _ _ w n_s Hs)). reflexivity. }
      rewrite (bind_ok _ _ _ _ _ (getattr_some _ _ w n_r Hr)). reflexivity. }
    destruct (Nat.ltb_spec process n_p); [|lia]. cbn [negb].
    replace (Z.of_nat (n_s * n_r) =? Z.of_nat n_s * Z.of_nat n_r)%Z with true
      by (symmetry; apply Z.eqb_eq; lia).
    cbn [negb].
    rewrite (bind_ok _ _ _ _ _ (getattr_some _ _ w n_s Hs)).
    rewrite (bind_ok _ _ _ _ _ (getattr_some _ _ w n_r Hr)).
    rewrite standardise_length, length_map, length_seq, !Nat.eqb_refl.
    reflexivity.
  - apply perm_arange_lt. reflexivity.
  - reflexivity.
  - eexists. split; [exact Hrun | exact Hinv].
Qed.

(** [set_data] on an array whose canonical form is [a']. *)
Lemma set_data_run (w : World V) (arr a' : ndarray V) dim_order n_p n_s n_r :
  length dim_order = ndim arr -> length dim_order <= 3 ->
  _reorder_data arr dim_order = Ok a' ->
  shape a' = [n_p; n_s; n_r] ->
  exists d,
    set_data arr dim_order w
    = (Ok tt, mkWorld (mkData (normalise (self w)) (Some d)
                              (Some n_p) (Some n_s) (Some n_r))
                      ((stdout w ++ [PrintAdding n_p n_s n_r])
                       ++ [PrintOverwriting]) (random w))
    /\ shape d = [n_p; n_s; n_r]
    /\ (normalise (self w) = false -> d = a').
Proof.
  intros Hlen Hlen3 Hreorder Hshape.
  destruct w as [[nrm d0 np0 ns0 nr0] out g]. unfold set_data.
  destruct (Nat.ltb_spec 3 (length dim_order)); [lia|].
  rewrite Hlen, Nat.eqb_refl. cbn [negb].
  unfold lift at 1. rewrite Hreorder.
  unfold _set_data_size, shape_at, bind, lift, update_self, getattr, print,
    try_except, data_deleter, get_normalise.
  rewrite Hshape. cbn -[_normalise_data data_setter].
  destruct d0 as [d0|], nrm; cbn -[_normalise_data].
  all: try (eexists; split; [reflexivity | split; [assumption | congruence]]).
  all: match goal with
       | Hs : shape ?x = _ |- context [_normalise_data ?x ?w1] =>
           destruct (normalise_data_ok w1 x _ _ _ Hs
                       eq_refl eq_refl eq_refl) as (d' & -> & Hd')
       end;
       eexists; split; [reflexivity | split; [assumption | discriminate]].
Qed.

(** C5: after [set_data] on an array of rank 1 to 3 with an axis-order
    string that describes it, [n_processes], [n_samples] and
    [n_replications] are the sizes of the array along the axes declared as
    'p', 's' and 'r', and 1 for a symbol that is not declared; the stored
    array has these three axes. *)
Theorem set_data_sizes (w : World V) (arr : ndarray V) (dim_order : str) :
  valid_dim_order dim_order ->
  length dim_order = ndim arr -> 1 <= ndim arr <= 3 ->
  exists a',
    fst (set_data arr dim_order w) = Ok tt /\
    holds (self (snd (set_data arr dim_order w))) a'
          (declared_size arr dim_order "p") (declared_size arr dim_order "s")
          (declared_size arr dim_order "r") /\
    n_processes (self (snd (set_data arr dim_order w)))
    = Some (declared_size arr dim_order "p") /\
    n_samples (self (snd (set_data arr dim_order w)))
    = Some (declared_size arr dim_order "s") /\
    n_replications (self (snd (set_data arr dim_order w)))
    = Some (declared_size arr dim_order "r").
Proof.
  intros Hvalid Hlen Hrank.
  destruct (reorder_data_shape arr dim_order Hvalid Hlen Hrank)
    as (a' & Hreorder & Hshape).
  destruct (set_data_run w arr a' dim_order _ _ _ Hlen ltac:(lia)
              Hreorder Hshape) as (d & -> & Hd & _).
  exists d. cbn [fst snd self]. unfold holds.
  cbn [_data n_processes n_samples n_replications]. auto 10.
Qed.


End SetData.

(** ** Masks and integer-array indexing *)

Section Masks.
Context {A : Type}.

Lemma length_mask_select (f : nat -> bool) ri (l : list A) :
  length l = length ri ->
  length (mask_select (map f ri) l) = mask_count (map f ri).
Proof.
  unfold mask_count. revert l.
  induction ri as [|x ri IH]; intros [|y l] H; try discriminate; cbn; trivial.
  injection H as H. destruct (f x); cbn; now rewrite IH.
Qed.

Lemma length_mask_fill mask (l v : list A) :
  length (mask_fill mask l v) = length l.
Proof.
  revert l v. induction mask as [|b mask IH]; intros [|y l] v; cbn; trivial.
  destruct b; [destruct v|]; cbn; now rewrite IH.
Qed.

(** Reading back what was assigned. *)
Lemma mask_select_fill_same (f : nat -> bool) ri (l v : list A) :
  length l = length ri -> length v = mask_count (map f ri) ->
  mask_select (map f ri) (mask_fill (map f ri) l v) = v.
Proof.
  unfold mask_count. revert l v.
  induction ri as [|x ri IH]; intros [|y l] v Hl Hv; try discriminate;
    cbn in *.
  - now destruct v.
  - injection Hl as Hl. destruct (f x); cbn in *.
    + destruct v as [|z v]; [discriminate|]. cbn. f_equal.
      apply IH; [assumption | now injection Hv].
    + now apply IH.
Qed.

(** An assignment does not touch the cells of a disjoint mask. *)
Lemma mask_select_fill_other (f f' : nat -> bool) ri (l v : list A) :
  (forall x, f x = true -> f' x = false) ->
  length l = length ri -> length v = mask_count (map f ri) ->
  mask_select (map f' ri) (mask_fill (map f ri) l v)
  = mask_select (map f' ri) l.
Proof.
  intros Hdisj. unfold mask_count. revert l v.
  induction ri as [|x ri IH]; intros [|y l] v Hl Hv; try discriminate;
    cbn in *; trivial.
  injection Hl as Hl. destruct (f x) eqn:Hfx; cbn in *.
  - rewrite (Hdisj x Hfx). destruct v as [|z v]; [discriminate|]. cbn.
    apply IH; [assumption | now injection Hv].
  - destruct (f' x); [f_equal|]; now apply IH.
Qed.

Lemma take_of_lookups (d : list A) perm dp :
  map (nth_error d) perm = map Some dp -> take d perm = Ok dp.
Proof.
  revert dp. induction perm as [|k perm IH]; intros [|x dp] H;
    try discriminate; cbn in *; trivial.
  injection H as Hk H. rewrite Hk, (IH dp H). reflexivity.
Qed.

Lemma lookups_of_take (d : list A) perm dp :
  take d perm = Ok dp -> map (nth_error d) perm = map Some dp.
Proof.
  revert dp. induction perm as [|k perm IH]; intros dp H; cbn in *.
  - now injection H as <-.
  - destruct (nth_error d k) as [x|]; [|discriminate].
    destruct (take d perm) as [r|]; [|discriminate].
    injection H as <-. cbn. now rewrite (IH r).
Qed.

Lemma lookups_identity (d : list A) :
  map (nth_error d) (seq 0 (length d)) = map Some d.
Proof.
  induction d as [|x d IH]; cbn; trivial.
  now rewrite <- seq_shift, map_map, <- IH.
Qed.

(** Indexing with a permutation of the positions reorders the list. *)
Lemma take_permutation (d : list A) perm :
  Permutation perm (arange (length d)) ->
  exists dp, take d perm = Ok dp /\ Permutation dp d.
Proof.
  intros Hperm.
  apply (Permutation_map (nth_error d)) in Hperm.
  unfold arange in Hperm. rewrite lookups_identity in Hperm.
  apply Permutation_map_inv in Hperm.
  destruct Hperm as (dp & Hdp & Hp).
  exists dp. split; [now apply take_of_lookups | now symmetry].
Qed.

Lemma length_take (d : list A) perm dp :
  take d perm = Ok dp -> length dp = length perm.
Proof.
  intros H. apply lookups_of_take in H.
  apply (f_equal (@length _)) in H. now rewrite !length_map in H.
Qed.

End Masks.

Lemma mask_count_replication n order r :
  mask_count (map (fun x => x =? r) (replication_index n order))
  = n * count_occ Nat.eq_dec order r.
Proof.
  rewrite <- count_occ_replication_index. unfold mask_count.
  induction (replication_index n order) as [|x l IH]; cbn; trivial.
  destruct (Nat.eqb_spec x r), (Nat.eq_dec x r); try congruence; cbn.
  - now rewrite IH.
  - assumption.
Qed.

Lemma n_per_repl_some n n_r : 0 < n_r -> n_per_repl n n_r = n.
Proof.
  intros H. unfold n_per_repl.
  rewrite count_occ_replication_index, count_occ_arange by assumption. lia.
Qed.

Lemma n_per_repl_none n : n_per_repl n 0 = 0.
Proof. reflexivity. Qed.

Lemma n_per_repl_le n n_r : n_per_repl n n_r <= n.
Proof.
  destruct n_r as [|n_r]; [cbn; lia|]. rewrite n_per_repl_some; lia.
Qed.

(** ** The permutation of the samples *)

Section SamplePerm.
Context {V : Type} {scalar : Scalar V}.

Lemma random_permutation_run (w : World V) n :
  random_permutation n w
  = (Ok (fst (np_random_permutation n (random w))),
     mkWorld (self w) (stdout w) (snd (np_random_permutation n (random w)))).
Proof.
  unfold random_permutation.
  now rewrite (surjective_pairing (np_random_permutation n (random w))).
Qed.

Lemma skipn_repeat {B} (x : B) k m : skipn k (repeat x m) = repeat x (m - k).
Proof.
  revert k. induction m as [|m IH]; intros [|k]; cbn; trivial.
Qed.

Lemma shifted_arange lo c : map (fun x => x + lo) (arange c) = seq lo c.
Proof.
  unfold arange. rewrite <- (map_id (seq lo c)), (map_seq_from (fun x => x) lo c).
  apply map_ext. intros x. lia.
Qed.

(** Appending a shuffled block keeps a permutation block-local. *)
Lemma block_local_app b j done p :
  0 < b -> length done = j * b -> block_local b done ->
  Permutation p (arange (length p)) -> length p <= b ->
  block_local b (done ++ map (fun x => x + j * b) p).
Proof.
  intros Hb Hlen Hdone Hp Hpb k Hk.
  rewrite length_app, length_map in Hk.
  destruct (Nat.lt_ge_cases k (length done)) as [Hlt|Hge].
  - rewrite app_nth1 by assumption. now apply Hdone.
  - rewrite app_nth2 by assumption.
    assert (Hk' : k - length done < length p) by lia.
    rewrite (nth_indep _ 0 (0 + j * b)) by now rewrite length_map.
    rewrite (map_nth (fun x => x + j * b)). cbv beta.
    assert (Hin : nth (k - length done) p 0 < length p).
    { apply (proj1 (Forall_forall _ _) (perm_arange_lt p _ Hp)).
      now apply nth_In. }
    rewrite Nat.div_add by lia.
    rewrite Nat.div_small by lia.
    replace (k / b) with (((k - length done) + j * b) / b) by (f_equal; lia).
    rewrite Nat.div_add by lia. rewrite Nat.div_small by lia. reflexivity.
Qed.

Lemma permutation_app_block lo done p :
  Permutation done (arange lo) -> Permutation p (arange (length p)) ->
  Permutation (done ++ map (fun x => x + lo) p) (arange (lo + length p)).
Proof.
  intros Hdone Hp. unfold arange. rewrite seq_app. cbn [Nat.add].
  apply Permutation_app; [exact Hdone|].
  rewrite <- shifted_arange. now apply Permutation_map.
Qed.

Lemma length_random_permutation n g :
  length (fst (np_random_permutation n g)) = n.
Proof.
  rewrite (Permutation_length (np_random_permutation_perm n g)).
  apply length_arange.
Qed.

(** One turn of the loop over the blocks. *)
Lemma permute_block_ok (w : World V) b n x j done :
  0 < b -> (j + 1) * b <= n -> length done = j * b ->
  permute_block (Z.of_nat b) x
    (Z.of_nat (j * b), done ++ repeat garbage_index (n - j * b)) w
  = (Ok (Z.of_nat ((j + 1) * b),
         (done ++ map (fun x => x + j * b)
                      (fst (np_random_permutation b (random w))))
         ++ repeat garbage_index (n - (j + 1) * b)),
     mkWorld (self w) (stdout w) (snd (np_random_permutation b (random w)))).
Proof.
  intros Hb Hn Hlen. unfold permute_block.
  rewrite Nat2Z.id.
  rewrite (bind_ok _ _ _ _ _ (random_permutation_run w b)).
  unfold lift at 1, setslice.
  rewrite length_app, repeat_length, Hlen.
  replace (j * b + (n - j * b)) with n by lia.
  rewrite slice_indices_rows by lia.
  rewrite broadcast_to_same by now rewrite length_map, length_random_permutation.
  cbn [obind]. unfold bind, ret. rewrite Nat2Z.id. do 3 f_equal; [nia|].
  rewrite firstn_app, firstn_all2 by lia.
  rewrite Hlen, Nat.sub_diag, firstn_0, app_nil_r.
  rewrite skipn_app, skipn_all2 by lia.
  rewrite Hlen. cbn [app].
  rewrite <- app_assoc. do 2 f_equal.
  replace (j * b + b - j * b) with b by lia. rewrite skipn_repeat. f_equal. nia.
Qed.

(** The loop over the blocks. *)
Lemma permute_blocks_ok b n :
  0 < b ->
  forall m j done (w : World V),
  (j + m) * b <= n -> length done = j * b ->
  Permutation done (arange (j * b)) -> block_local b done ->
  exists done' w',
    for_each (seq j m) (permute_block (Z.of_nat b))
      (Z.of_nat (j * b), done ++ repeat garbage_index (n - j * b)) w
    = (Ok (Z.of_nat ((j + m) * b),
           done' ++ repeat garbage_index (n - (j + m) * b)), w') /\
    self w' = self w /\ stdout w' = stdout w /\
    length done' = (j + m) * b /\
    Permutation done' (arange ((j + m) * b)) /\ block_local b done'.
Proof.
  intros Hb m. induction m as [|m IH]; intros j done w Hn Hlen Hperm Hloc.
  - exists done, w. rewrite Nat.add_0_r. cbn [seq for_each]. unfold ret.
    repeat split; assumption.
  - cbn [seq for_each].
    rewrite (bind_ok _ _ _ _ _
               (permute_block_ok w b n j j done Hb ltac:(lia) Hlen)).
    pose proof (np_random_permutation_perm b (random w)) as Hp.
    pose proof (length_random_permutation b (random w)) as Hpl.
    set (p := fst (np_random_permutation b (random w))) in *.
    replace (j + 1) with (S j) by lia.
    destruct (IH (S j) (done ++ map (fun x => x + j * b) p)
                 (mkWorld (self w) (stdout w)
                          (snd (np_random_permutation b (random w)))))
      as (done' & w' & Hrun & Hself & Hout & Hlen' & Hperm' & Hloc').
    + lia.
    + rewrite length_app, length_map, Hpl, Hlen. cbn. lia.
    + replace (S j * b) with (j * b + length p) by (rewrite Hpl; cbn; lia).
      apply permutation_app_block; [assumption | now rewrite Hpl].
    + apply block_local_app; try assumption; rewrite Hpl; [assumption | lia].
    + exists done', w'. rewrite Hrun.
      replace (S j + m) with (j + S m) in * by lia. auto 10.
Qed.

(** [sample_perm] returns a permutation of the positions of one
    replication; for a block length below the number of positions it is
    block-local. *)
Lemma sample_perm_ok (w : World V) n (b : Z) :
  (b = Z.of_nat n \/ (1 < b < Z.of_nat n)%Z) ->
  exists perm w',
    sample_perm n b w = (Ok perm, w') /\
    self w' = self w /\ stdout w' = stdout w /\
    Permutation perm (arange n) /\
    ((1 < b < Z.of_nat n)%Z -> block_local (Z.to_nat b) perm).
Proof.
  intros Hb. unfold sample_perm.
  destruct (Z.eqb_spec b (Z.of_nat n)) as [->|Hne].
  - rewrite random_permutation_run. eexists _, _.
    split; [reflexivity|]. cbn [self stdout].
    repeat split; [apply np_random_permutation_perm | lia].
  - destruct Hb as [Hb|Hb]; [contradiction|].
    assert (Hbz : b = Z.of_nat (Z.to_nat b)) by lia.
    set (b' := Z.to_nat b) in *. rewrite Hbz. clearbody b'. clear Hne.
    assert (Hb' : 1 < b' < n) by lia.
    rewrite <- Nat2Z.inj_div, <- Nat2Z.inj_mod, Nat2Z.id.
    pose proof (Nat.div_mod_eq n b') as Hdm.
    pose proof (Nat.mod_upper_bound n b' ltac:(lia)) as Hrem.
    destruct (permute_blocks_ok b' n ltac:(lia) (n / b') 0 [] w)
      as (done & w1 & Hrun & Hself & Hout & Hlen & Hperm & Hloc).
    + cbn. lia.
    + reflexivity.
    + constructor.
    + intros k Hk. cbn in Hk. lia.
    + cbn [Nat.add Nat.mul app] in Hrun. rewrite Nat.sub_0_r in Hrun.
      unfold arange at 1. rewrite (bind_ok _ _ _ _ _ Hrun).
      cbn [Nat.add] in *.
      destruct (Z.ltb_spec 0 (Z.of_nat (n mod b'))) as [Hpos|Hzero].
      * rewrite (bind_ok _ _ _ _ _ (random_permutation_run w1 _)).
        rewrite !Nat2Z.id.
        pose proof (np_random_permutation_perm (n mod b') (random w1)) as Hp.
        pose proof (length_random_permutation (n mod b') (random w1)) as Hpl.
        set (p := fst (np_random_permutation (n mod b') (random w1))) in *.
        unfold lift, setslice, slice_indices, slice_bound.
        rewrite length_app, repeat_length, Hlen.
        destruct (Z.ltb_spec (- Z.of_nat (n mod b')) 0); [|lia].
        replace (Z.to_nat (Z.max 0 (- Z.of_nat (n mod b')
                                    + Z.of_nat (n / b' * b' + (n - n / b' * b')))))
          with (n / b' * b') by lia.
        replace (n / b' * b' + (n - n / b' * b') - n / b' * b')
          with (n mod b') by lia.
        rewrite broadcast_to_same by now rewrite length_map.
        cbn [obind].
        rewrite firstn_app, firstn_all2 by lia.
        rewrite Hlen, Nat.sub_diag, firstn_0, app_nil_r.
        rewrite skipn_all2 by (rewrite length_app, repeat_length; lia).
        rewrite app_nil_r.
        eexists _, _. split; [reflexivity|]. cbn [self stdout].
        repeat split; try assumption.
        -- replace (arange n) with (arange (n / b' * b' + length p))
             by (f_equal; lia).
           apply permutation_app_block; [assumption | now rewrite Hpl].
        -- intros _. rewrite ?Nat2Z.id.
           apply block_local_app; try assumption; try lia.
           now rewrite Hpl.
      * replace (n - n / b' * b') with 0 by lia. cbn [repeat].
        rewrite app_nil_r. exists done, w1. unfold ret.
        repeat split; try assumption.
        -- replace (arange n) with (arange (n / b' * b')) by (f_equal; lia).
           assumption.
        -- intros _. now rewrite ?Nat2Z.id.
Qed.

End SamplePerm.

(** ** Permuting samples *)

Section PermuteSamples.
Context {V : Type} {scalar : Scalar V}.

(** One turn of the last loop of [permute_samples]. *)
Lemma permute_replication_rows_ok (w : World V) ri perm
  (rows0 : list (list V)) done r (M : matrix V) perm_idx :
  length rows0 = length ri ->
  Permutation perm (arange (length perm)) ->
  mask_count (map (fun x => x =? r) ri) = length perm ->
  ~ In r done ->
  permuted_upto ri perm rows0 done (mrows M) perm_idx ->
  exists M' perm_idx',
    permute_replication_rows ri perm r (M, perm_idx) w
    = (Ok (M', perm_idx'), w) /\
    mshape M' = mshape M /\
    permuted_upto ri perm rows0 (r :: done) (mrows M') perm_idx'.
Proof.
  intros Hlen0 Hperm Hcount Hfresh (Hlen & Hlenp & Hinv).
  unfold permute_replication_rows, mask_getitem.
  rewrite length_map, Hlen, Nat.eqb_refl.
  unfold lift at 1. erewrite bind_ok by reflexivity.
  fold (rows_of_replication ri r (mrows M)).
  rewrite (proj2 (Hinv r) Hfresh).
  assert (Hd0 : length (rows_of_replication ri r rows0) = length perm).
  { unfold rows_of_replication. now rewrite length_mask_select. }
  destruct (take_permutation (rows_of_replication ri r rows0) perm)
    as (dp & Htake & Hdp); [now rewrite Hd0|].
  pose proof (length_take _ _ _ Htake) as Hldp.
  unfold lift at 1. rewrite Htake. erewrite bind_ok by reflexivity.
  unfold lift, mask_assign.
  rewrite !length_map, Hlen, Hlenp, Nat.eqb_refl. cbn [negb].
  rewrite !broadcast_to_same by congruence. cbn [obind].
  erewrite bind_ok by reflexivity. erewrite bind_ok by reflexivity.
  eexists _, _. split; [reflexivity|]. split; [reflexivity|].
  cbn [mrows]. repeat split.
  - now rewrite length_mask_fill.
  - now rewrite length_mask_fill.
  - destruct H as [<-|Hin].
    + unfold rows_of_replication at 2.
      rewrite mask_select_fill_same by congruence. exact Htake.
    + assert (Hne : r <> r0) by (intros ->; contradiction).
      unfold rows_of_replication at 2.
      rewrite mask_select_fill_other; try congruence.
      * apply (proj1 (Hinv r0) Hin).
      * intros x Hx. apply Nat.eqb_eq in Hx. apply Nat.eqb_neq. congruence.
  - destruct H as [<-|Hin].
    + unfold rows_of_replication.
      now rewrite mask_select_fill_same by congruence.
    + assert (Hne : r <> r0) by (intros ->; contradiction).
      unfold rows_of_replication.
      rewrite mask_select_fill_other; try congruence.
      * apply (proj1 (Hinv r0) Hin).
      * intros x Hx. apply Nat.eqb_eq in Hx. apply Nat.eqb_neq. congruence.
  - intros Hnot. unfold rows_of_replication at 1.
    rewrite mask_select_fill_other; try congruence.
    + apply (proj2 (Hinv r0)). intros Hin. apply Hnot. now right.
    + intros x Hx. apply Nat.eqb_eq in Hx. apply Nat.eqb_neq.
      intros ->. apply Hnot. now left.
Qed.

(** The last loop of [permute_samples]. *)
Lemma permute_replications_rows_ok (w : World V) ri perm
  (rows0 : list (list V)) todo :
  length rows0 = length ri ->
  Permutation perm (arange (length perm)) ->
  (forall r, In r todo ->
             mask_count (map (fun x => x =? r) ri) = length perm) ->
  NoDup todo ->
  forall done (M : matrix V) perm_idx,
  (forall r, In r todo -> ~ In r done) ->
  permuted_upto ri perm rows0 done (mrows M) perm_idx ->
  exists M' perm_idx',
    for_each todo (permute_replication_rows ri perm) (M, perm_idx) w
    = (Ok (M', perm_idx'), w) /\
    mshape M' = mshape M /\
    permuted_upto ri perm rows0 (rev todo ++ done) (mrows M') perm_idx'.
Proof.
  intros Hlen0 Hperm Hcount Hnodup.
  induction Hnodup as [|r todo Hr Hnodup IH]; intros done M perm_idx Hd Hinv.
  - exists M, perm_idx. cbn. auto.
  - cbn [for_each rev].
    destruct (permute_replication_rows_ok w ri perm rows0 done r M perm_idx)
      as (M1 & p1 & Hrun & Hshape & Hinv1); auto.
    { apply Hcount. now left. }
    { apply Hd. now left. }
    rewrite (bind_ok _ _ _ _ _ Hrun).
    destruct (IH ltac:(intros; apply Hcount; now right) (r :: done) M1 p1)
      as (M2 & p2 & Hrun2 & Hshape2 & Hinv2).
    + intros r' Hr' [<-|Hin]; [contradiction|].
      apply (Hd r'); [now right | assumption].
    + assumption.
    + exists M2, p2. rewrite Hrun2, <- app_assoc. cbn [app].
      split; [reflexivity|]. split; [congruence | exact Hinv2].
Qed.

(** [permute_samples] on a valid call: it returns, and each replication of
    the result is the same replication of [get_realisations] taken in the
    order of one permutation [perm]. *)
Lemma permute_samples_run (w : World V) a n_p n_s n_r
  (cv : variable) (idx : list variable) (pr : perm_range_arg) :
  holds (self w) a n_p n_s n_r ->
  (0 <= snd cv <= Z.of_nat n_s)%Z ->
  Forall (valid_variable n_p (snd cv)) idx ->
  free_of_nan a n_p (available n_s cv) n_r idx ->
  valid_perm_range (available n_s cv) n_r pr ->
  exists M perm_idx perm w',
    permute_samples cv (PyList idx) pr w = (Ok (M, perm_idx), w') /\
    self w' = self w /\
    mshape M = (available n_s cv * n_r, length idx) /\
    Permutation perm (arange (n_per_repl (available n_s cv) n_r)) /\
    (forall b, pr = PermInt b ->
               (b < Z.of_nat (n_per_repl (available n_s cv) n_r))%Z ->
               block_local (Z.to_nat b) perm) /\
    permuted_upto (replication_index (available n_s cv) (arange n_r)) perm
      (realisation_rows a n_p (available n_s cv) idx (arange n_r))
      (rev (arange n_r)) (mrows M) perm_idx.
Proof.
  intros Hholds Ht Hidx Hnan Hpr.
  set (n := available n_s cv) in *.
  set (ri := replication_index n (arange n_r)).
  set (rows0 := realisation_rows a n_p n idx (arange n_r)).
  unfold permute_samples. cbn [get_realisations].
  rewrite (bind_ok _ _ _ _ _
             (get_data_closed w a n_p n_s n_r cv idx false Hholds Ht Hidx Hnan)).
  fold n. fold ri.
  change (count_occ Nat.eq_dec ri 0) with (n_per_repl n n_r).
  assert (Hb : exists b : Z,
             (match pr with
              | PermInt b => assert (V := V) (1 <? b)%Z msg_perm_range ;; ret b
              | PermStr s =>
                  if String.eqb s "max" then ret (Z.of_nat (n_per_repl n n_r))
                  else raise (ValueError msg_unknown)
              end) w = (Ok b, w) /\
             (b = Z.of_nat (n_per_repl n n_r)
              \/ (1 < b < Z.of_nat (n_per_repl n n_r))%Z) /\
             (forall b', pr = PermInt b' -> b' = b)).
  { destruct pr as [b|s]; cbn in Hpr.
    - exists b. destruct (Z.ltb_spec 1 b); [|lia].
      split; [reflexivity|]. split; [lia | congruence].
    - subst s. exists (Z.of_nat (n_per_repl n n_r)).
      split; [reflexivity|]. split; [now left | discriminate]. }
  destruct Hb as (b & Hrun & Hrange & Hint).
  rewrite (bind_ok _ _ _ _ _ Hrun).
  unfold realisation_matrix, nrows. cbn [mshape fst].
  unfold ri at 1. rewrite length_replication_index, Nat.eqb_refl.
  unfold assert at 1. erewrite bind_ok by reflexivity.
  destruct (Z.leb_spec b (Z.of_nat (n_per_repl n n_r))); [|lia].
  unfold assert at 1. erewrite bind_ok by reflexivity.
  destruct (sample_perm_ok w (n_per_repl n n_r) b Hrange)
    as (perm & w1 & Hsp & Hself & Hout & Hperm & Hloc).
  rewrite (bind_ok _ _ _ _ _ Hsp).
  pose proof Hholds as (_ & _ & _ & _ & Hr). rewrite <- Hself in Hr.
  rewrite (bind_ok _ _ _ _ _ (getattr_some _ _ w1 n_r Hr)).
  assert (Hlp : length perm = n_per_repl n n_r).
  { rewrite (Permutation_length Hperm). apply length_arange. }
  destruct (permute_replications_rows_ok w1 ri perm rows0 (arange n_r))
    with (done := @nil nat)
         (M := {| mshape := (n * length (arange n_r), length idx);
                  mrows := rows0 |})
         (perm_idx := repeat garbage_index (n * length (arange n_r)))
    as (M' & pidx' & Hloop & Hshape & Hinv).
  - unfold rows0, ri.
    now rewrite length_realisation_rows, length_replication_index.
  - now rewrite Hlp.
  - intros r Hr'. apply in_seq in Hr'. unfold ri.
    rewrite mask_count_replication, count_occ_arange by lia.
    rewrite Hlp, n_per_repl_some by lia. lia.
  - apply seq_NoDup.
  - intros r _ [].
  - cbn [mrows]. split; [|split].
    + unfold rows0, ri.
      now rewrite length_realisation_rows, length_replication_index.
    + unfold ri. now rewrite repeat_length, length_replication_index.
    + intros r. split; [intros [] | reflexivity].
  - exists M', pidx', perm, w1.
    rewrite app_nil_r in Hinv. cbn [mshape] in Hshape.
    rewrite length_arange in Hshape.
    split; [exact Hloop|]. split; [assumption|]. split; [assumption|].
    split; [assumption|]. split; [|exact Hinv].
    intros b' Hb' Hlt. rewrite (Hint b' Hb') in *. apply Hloc.
    destruct Hrange; lia.
Qed.

End PermuteSamples.

Section Surrogates.
Context {V : Type} {scalar : Scalar V}.

Lemma take_ok_permutation {A} (d dp : list A) perm :
  take d perm = Ok dp -> Permutation perm (arange (length d)) ->
  Permutation dp d.
Proof.
  intros Htake Hperm.
  destruct (take_permutation d perm Hperm) as (dp' & Htake' & Hdp).
  congruence.
Qed.

Lemma length_rows_of_replication {A} n n_r r (rows : list A) :
  length rows = length (replication_index n (arange n_r)) -> r < n_r ->
  length (rows_of_replication (replication_index n (arange n_r)) r rows) = n.
Proof.
  intros Hlen Hr. unfold rows_of_replication.
  rewrite length_mask_select by assumption.
  rewrite mask_count_replication, count_occ_arange by assumption. lia.
Qed.

(** C3: on a valid call of [permute_samples], for every replication and
    every column, the values of the permuted matrix in the rows of that
    replication are a rearrangement of the values that [get_realisations]
    has in the same rows and column: nothing is invented, dropped or
    duplicated. *)
Theorem permute_samples_preserves_values (w : World V) a n_p n_s n_r
  (cv : variable) (idx : list variable) (pr : perm_range_arg) :
  holds (self w) a n_p n_s n_r ->
  (0 <= snd cv <= Z.of_nat n_s)%Z ->
  Forall (valid_variable n_p (snd cv)) idx ->
  free_of_nan a n_p (available n_s cv) n_r idx ->
  valid_perm_range (available n_s cv) n_r pr ->
  exists M perm_idx M0 ri w',
    permute_samples cv (PyList idx) pr w = (Ok (M, perm_idx), w') /\
    get_realisations cv (PyList idx) w = (Ok (M0, ri), w) /\
    self w' = self w /\
    mshape M = mshape M0 /\
    forall r j,
      Permutation (column_of (rows_of_replication ri r (mrows M)) j)
                  (column_of (rows_of_replication ri r (mrows M0)) j).
Proof.
  intros Hholds Ht Hidx Hnan Hpr.
  destruct (permute_samples_run w a n_p n_s n_r cv idx pr
              Hholds Ht Hidx Hnan Hpr)
    as (M & pidx & perm & w' & Hrun & Hself & Hshape & Hperm & _ & Hinv).
  exists M, pidx,
    (realisation_matrix a n_p (available n_s cv) idx (arange n_r)),
    (replication_index (available n_s cv) (arange n_r)), w'.
  split; [exact Hrun|]. split.
  { cbn [get_realisations].
    now rewrite (get_data_closed w a n_p n_s n_r cv idx false). }
  split; [exact Hself|]. split.
  { rewrite Hshape. unfold realisation_matrix. cbn [mshape].
    now rewrite length_arange. }
  intros r j. unfold column_of. apply Permutation_map.
  unfold realisation_matrix. cbn [mrows].
  destruct Hinv as (_ & _ & Hinv).
  destruct (in_dec Nat.eq_dec r (rev (arange n_r))) as [Hin|Hout].
  - destruct (proj1 (Hinv r) Hin) as [Htake _].
    apply (take_ok_permutation _ _ _ Htake).
    apply in_rev, in_seq in Hin.
    rewrite length_rows_of_replication
      by (rewrite ?length_realisation_rows, ?length_replication_index; lia).
    now rewrite n_per_repl_some in Hperm by lia.
  - now rewrite (proj2 (Hinv r) Hout).
Qed.

(** C7: for an integer [perm_range] [b] with [2 <= b < n_per_repl],
    [permute_samples] applies one permutation [perm] of the positions of a
    replication to every replication, and [perm] sends each position [k]
    to a position of the block [k] lies in: blocks [0, b), [b, 2b), ...
    and a last, shorter one that ends at [n_per_repl]. *)
Theorem permute_samples_block_range (w : World V) a n_p n_s n_r
  (cv : variable) (idx : list variable) (b : Z) :
  holds (self w) a n_p n_s n_r ->
  (0 <= snd cv <= Z.of_nat n_s)%Z ->
  Forall (valid_variable n_p (snd cv)) idx ->
  free_of_nan a n_p (available n_s cv) n_r idx ->
  (2 <= b < Z.of_nat (n_per_repl (available n_s cv) n_r))%Z ->
  exists M perm_idx M0 ri perm w',
    permute_samples cv (PyList idx) (PermInt b) w = (Ok (M, perm_idx), w') /\
    get_realisations cv (PyList idx) w = (Ok (M0, ri), w) /\
    n_per_repl (available n_s cv) n_r = available n_s cv /\
    Permutation perm (arange (available n_s cv)) /\
    (forall r, r < n_r ->
       take (rows_of_replication ri r (mrows M0)) perm
       = Ok (rows_of_replication ri r (mrows M)) /\
       rows_of_replication ri r perm_idx = perm) /\
    (forall k, k < available n_s cv ->
       nth k perm 0 / Z.to_nat b = k / Z.to_nat b /\
       Z.to_nat b * (k / Z.to_nat b) <= nth k perm 0
         < Nat.min (Z.to_nat b * (k / Z.to_nat b) + Z.to_nat b)
                   (available n_s cv)).
Proof.
  intros Hholds Ht Hidx Hnan Hb.
  assert (Hnr : 0 < n_r).
  { destruct n_r; [rewrite n_per_repl_none in Hb|]; lia. }
  pose proof (n_per_repl_some (available n_s cv) n_r Hnr) as Hn.
  destruct (permute_samples_run w a n_p n_s n_r cv idx (PermInt b)
              Hholds Ht Hidx Hnan ltac:(cbn; lia))
    as (M & pidx & perm & w' & Hrun & Hself & Hshape & Hperm & Hloc & Hinv).
  exists M, pidx,
    (realisation_matrix a n_p (available n_s cv) idx (arange n_r)),
    (replication_index (available n_s cv) (arange n_r)), perm, w'.
  split; [exact Hrun|]. split.
  { cbn [get_realisations].
    now rewrite (get_data_closed w a n_p n_s n_r cv idx false). }
  rewrite Hn in *. split; [reflexivity|]. split; [exact Hperm|]. split.
  - intros r Hr. destruct Hinv as (_ & _ & Hinv).
    apply (proj1 (Hinv r)). apply -> in_rev. apply in_seq. lia.
  - intros k Hk.
    assert (Hlen : length perm = available n_s cv).
    { rewrite (Permutation_length Hperm). apply length_arange. }
    assert (Hdiv : nth k perm 0 / Z.to_nat b = k / Z.to_nat b).
    { apply (Hloc b eq_refl); lia. }
    assert (Hlt : nth k perm 0 < available n_s cv).
    { apply (proj1 (Forall_forall _ _) (perm_arange_lt perm _ Hperm)).
      apply nth_In. lia. }
    split; [exact Hdiv|].
    pose proof (Nat.div_mod_eq (nth k perm 0) (Z.to_nat b)) as Hdm.
    pose proof (Nat.mod_upper_bound (nth k perm 0) (Z.to_nat b) ltac:(lia)).
    rewrite Hdiv in Hdm. lia.
Qed.

(** What [get_realisations] returns, whatever the state of the instance:
    a replication index as long as the matrix, in which replication 0 has
    at most [n_samples - t] entries. *)
Lemma get_realisations_inv (w w' : World V) (cv : variable) idx M ri n_s :
  n_samples (self w) = Some n_s ->
  get_realisations cv idx w = (Ok (M, ri), w') ->
  length ri = nrows M /\
  (Z.of_nat (count_occ Nat.eq_dec ri 0%nat) <= Z.of_nat n_s - snd cv)%Z.
Proof.
  intros Hs. destruct idx as [l|l]; [|discriminate].
  cbn [get_realisations]. unfold _get_data.
  match goal with |- context [negb ?c] => destruct c end; cbn [negb];
    [|discriminate].
  unfold n_realisations_samples, n_realisations_repl.
  unfold bind at 1. unfold bind at 1, getattr at 1, ret at 1. rewrite Hs.
  unfold bind at 1, getattr at 1.
  destruct (n_replications (self w)) as [n_r|]; [|discriminate].
  unfold bind at 1, lift at 1, np_empty2.
  destruct (Z.ltb _ 0); [discriminate|].
  unfold bind at 1. unfold bind at 1, getattr at 1.
  destruct (n_replications (self w)) as [n_r'|]; [|discriminate].
  unfold ret at 1. unfold bind at 1.
  destruct (for_each l _ _ w) as [[[i M']|e] w1]; [|discriminate].
  unfold bind at 1, lift at 1, np_repeat.
  destruct (Z.ltb_spec (Z.of_nat n_s - snd cv) 0); [discriminate|].
  unfold bind at 1, assert.
  destruct (Nat.eqb_spec
              (length (flat_map (fun x => repeat x (Z.to_nat (Z.of_nat n_s - snd cv)))
                                (arange n_r'))) (nrows M')) as [E|E];
    [|discriminate].
  unfold ret. intros Heq. injection Heq as <- <- <-.
  split; [exact E|].
  fold (replication_index (Z.to_nat (Z.of_nat n_s - snd cv)) (arange n_r')).
  rewrite count_occ_replication_index.
  assert (count_occ Nat.eq_dec (arange n_r') 0 <= 1)
    by (apply NoDup_count_occ, seq_NoDup).
  nia.
Qed.

(** C8: an integer [perm_range] of 1 or less, or one above the number of
    realisations a replication has over time, makes [permute_samples] fail:
    it never returns permuted realisations, and when the extraction itself
    goes through it is one of the two assertions on [perm_range] that
    fails. *)
Theorem permute_samples_rejects_range (w : World V) n_s
  (cv : variable) (idx : idx_arg) (b : Z) :
  ((b <= 1)%Z \/
   (n_samples (self w) = Some n_s /\ (Z.of_nat n_s - snd cv < b)%Z)) ->
  is_ok (fst (permute_samples cv idx (PermInt b) w)) = false /\
  (forall M ri w',
     get_realisations cv idx w = (Ok (M, ri), w') ->
     exists msg,
       permute_samples cv idx (PermInt b) w = (Raise (AssertionError msg), w') /\
       (((b <= 1)%Z /\ msg = msg_perm_range) \/
        ((1 < b)%Z /\ msg = msg_not_enough))).
Proof.
  intros Hb.
  assert (Hmain : forall M ri w',
     get_realisations cv idx w = (Ok (M, ri), w') ->
     exists msg,
       permute_samples cv idx (PermInt b) w = (Raise (AssertionError msg), w') /\
       (((b <= 1)%Z /\ msg = msg_perm_range) \/
        ((1 < b)%Z /\ msg = msg_not_enough))).
  { intros M ri w' Hget. unfold permute_samples.
    rewrite (bind_ok _ _ _ _ _ Hget).
    destruct (Z.ltb_spec 1 b) as [Hgt|Hle].
    - destruct Hb as [Hb|[Hs Hb]]; [lia|].
      destruct (get_realisations_inv w w' cv idx M ri n_s Hs Hget) as [Hlen Hcnt].
      exists msg_not_enough. split; [|right; split; [lia | reflexivity]].
      unfold assert at 1. erewrite bind_ok by reflexivity.
      rewrite Hlen, Nat.eqb_refl.
      unfold assert at 1. erewrite bind_ok by reflexivity.
      destruct (Z.leb_spec b (Z.of_nat (count_occ Nat.eq_dec ri 0))); [lia|].
      reflexivity.
    - exists msg_perm_range. split; [reflexivity | left; split; [lia | reflexivity]]. }
  split; [|exact Hmain].
  destruct (get_realisations cv idx w) as [[[M ri]|e] w'] eqn:Hget.
  - destruct (Hmain M ri w' eq_refl) as (msg & -> & _). reflexivity.
  - unfold permute_samples. now rewrite (bind_raise _ _ _ _ _ Hget).
Qed.

End Surrogates.

(** ** The concrete scenario *)

(** C6, as the code has it: with normalisation switched off, a Dataset set
    from the 2 x 4 x 3 array of sequential integers with axis order 'psr'
    answers [get_realisations] for current value (1, 3) and variables
    (1,0), (1,1), (1,2) with a 3 x 3 matrix whose rows belong to the
    replications 0, 1, 2 in this order and whose entry in row [r] and column
    [j] is the array value at process 1, sample [j], replication [r]. *)
Theorem sequential_array_scenario (junk : Z) (junk_index : nat)
  (st : Standardise Z) (d0 : option (ndarray Z)) (np0 ns0 nr0 : option nat)
  (out : list Printed) (g : RandomState) :
  let scalar := Zscalar junk junk_index in
  let arr := arange_reshape [2; 4; 3] in
  let rows := [[12; 15; 18]; [13; 16; 19]; [14; 17; 20]]%Z in
  exists w1,
    set_data arr (str_of "psr")
             (mkWorld (mkData false d0 np0 ns0 nr0) out g) = (Ok tt, w1) /\
    get_realisations (1, 3)%Z (PyList [(1, 0); (1, 1); (1, 2)]%Z) w1
    = (Ok ({| mshape := (3, 3); mrows := rows |}, [0; 1; 2]), w1) /\
    forall r j, r < 3 -> j < 3 ->
                nth j (nth r rows []) 0%Z = item arr [1; j; r].
Proof.
  intros scalar arr rows.
  destruct d0 as [d0|]; (eexists; split; [reflexivity|]);
    (split; [reflexivity|]);
    intros r j Hr Hj;
    destruct r as [|[|[|r]]]; try lia;
    destruct j as [|[|[|j]]]; try lia; reflexivity.
Qed.

(** ** Counterexamples to the claims as stated *)

(** C1 as stated fails: the variable list [(5, 0)] is not empty and its
    offset 0 is below the sample 3 of the current value, yet on a Dataset
    with 2 processes [get_realisations] raises the IndexError of the guard
    around the data access instead of returning a matrix. *)
Lemma get_realisations_unknown_process :
  holds (self example_world) (arange_reshape [2; 4; 3]) 2 4 3 /\
  (0 <= 3 <= 4)%Z /\
  [(5, 0)%Z] <> [] /\
  Forall (fun v : variable => (snd v <= 3)%Z) [(5, 0)%Z] /\
  @get_realisations Z (Zscalar 0 0) (0, 3)%Z (PyList [(5, 0)%Z]) example_world
  = (Raise (IndexError msg_access), example_world).
Proof.
  repeat split; try reflexivity; try lia; try discriminate.
  repeat constructor. cbn. lia.
Qed.

(** The two other preconditions of the extractor.  A negative sample
    offset selects an empty window, which numpy cannot assign to the rows of
    a replication. *)
Lemma get_realisations_negative_offset :
  @get_realisations Z (Zscalar 0 0) (1, 2)%Z (PyList [(1, -1)%Z]) example_world
  = (Raise (ValueError "could not broadcast input array"), example_world).
Proof. reflexivity. Qed.

(** A retrieved value that [np.isnan] flags (here: the value 13 is declared
    to be NaN) trips the assertion after the column has been filled. *)
Lemma get_realisations_nan :
  @get_realisations Z
    {| float64 := Z_float64; isnan := fun z => (z =? 13)%Z;
       garbage := 0%Z; garbage_index := 0 |}
    (1, 3)%Z (PyList [(1, 0)%Z]) example_world
  = (Raise (AssertionError msg_nans), example_world).
Proof. reflexivity. Qed.

Lemma Rmean_sequential :
  Rmean [12; 13; 14; 15; 16; 17; 18; 19; 20; 21; 22; 23]%R = (35 / 2)%R.
Proof.
  unfold Rmean, Rsum. cbn [fold_right length]. rewrite INR_IZR_INZ.
  cbv -[IZR Rplus Rdiv Rmult Rinv]. lra.
Qed.

Lemma below_mean_not_positive (x m s : R) :
  (x < m)%R -> ((x - m) / sqrt s <= 0)%R.
Proof.
  intros H. unfold Rdiv.
  assert (0 <= / sqrt s)%R.
  { destruct (Req_dec (sqrt s) 0) as [->|Hne].
    - rewrite Rinv_0. lra.
    - left. apply Rinv_0_lt_compat.
      pose proof (sqrt_pos s). lra. }
  nra.
Qed.


(** C6 as stated fails: set with normalisation switched on (the default of
    [Data]), the same array comes back standardised, and the entry in row 0,
    column 0 is not the array value 12 at process 1, sample 0,
    replication 0. *)
Lemma normalised_scenario_differs :
  exists w1 M ri,
    @set_data R Rscalar Rstandardise (arange_reshape_R [2; 4; 3])
              (str_of "psr") (fresh_world true) = (Ok tt, w1) /\
    @get_realisations R Rscalar (1, 3)%Z (PyList [(1, 0); (1, 1); (1, 2)]%Z) w1
    = (Ok (M, ri), w1) /\
    mshape M = (3, 3) /\
    nth 0 (nth 0 (mrows M) []) 0%R <> item (arange_reshape_R [2; 4; 3]) [1; 0; 0].
Proof.
  eexists _, _, _. split; [reflexivity|].
  split; [cbv -[z_standardise IZR]; reflexivity|].
  split; [reflexivity|].
  cbv -[z_standardise IZR nth].
  unfold z_standardise. cbn [map nth].
  match goal with
  | |- ((_ - Rmean ?l) / sqrt ?s)%R = _ -> False =>
      pose proof (below_mean_not_positive 12 (Rmean l) s) as H
  end.
  rewrite Rmean_sequential in *.
  specialize (H ltac:(lra)). lra.
Qed.

(** ** The theorems at concrete inputs *)

Lemma example_world_holds :
  holds (self example_world) (arange_reshape [2; 4; 3]) 2 4 3.
Proof. repeat split. Defined.

Lemma example_variables_valid :
  Forall (valid_variable 2 3) [(1, 0); (1, 1); (1, 2)]%Z.
Proof.
  repeat constructor; cbn; try discriminate; lia.
Defined.

Lemma integers_free_of_nan junk junk_index a n_p n n_r idx :
  @free_of_nan Z (Zscalar junk junk_index) a n_p n n_r idx.
Proof. intros v rep k _ _ _. reflexivity. Defined.

Lemma get_realisations_shape_witness :
  holds (self example_world) (arange_reshape [2; 4; 3]) 2 4 3 /\
  (0 <= 3 <= Z.of_nat 4)%Z /\
  Forall (valid_variable 2 3) [(1, 0); (1, 1); (1, 2)]%Z /\
  exists M ri,
    @get_realisations Z (Zscalar 0 0) (1, 3)%Z
      (PyList [(1, 0); (1, 1); (1, 2)]%Z) example_world
    = (Ok (M, ri), example_world) /\
    Z.of_nat (nrows M) = ((Z.of_nat 4 - 3) * Z.of_nat 3)%Z /\
    ncols M = 3 /\
    length (mrows M) = nrows M /\
    Forall (fun row => length row = ncols M) (mrows M) /\
    length ri = nrows M.
Proof.
  split; [exact example_world_holds|].
  split; [cbn; lia|].
  split; [exact example_variables_valid|].
  apply (@get_realisations_shape Z (Zscalar 0 0) example_world
           (arange_reshape [2; 4; 3]) 2 4 3 (1, 3)%Z
           [(1, 0); (1, 1); (1, 2)]%Z).
  - exact example_world_holds.
  - cbn. lia.
  - exact example_variables_valid.
  - apply integers_free_of_nan.
Defined.

Lemma permute_replications_blocks_witness :
  exists M ri M0 ri0 pi w',
    @permute_replications Z (Zscalar 0 0) (1, 3)%Z
      (PyList [(1, 0); (1, 1); (1, 2)]%Z) example_world = (Ok (M, ri), w') /\
    @get_realisations Z (Zscalar 0 0) (1, 3)%Z
      (PyList [(1, 0); (1, 1); (1, 2)]%Z) example_world
    = (Ok (M0, ri0), example_world) /\
    self w' = self example_world /\
    Permutation pi (arange 3) /\
    mshape M = mshape M0 /\
    (forall j, j < 3 ->
       block (available 4 (1, 3)%Z) j (mrows M)
       = block (available 4 (1, 3)%Z) (nth j pi 0) (mrows M0)) /\
    ri = flat_map (fun r => repeat r (available 4 (1, 3)%Z)) pi /\
    (forall r, r < 3 -> count_occ Nat.eq_dec ri r = available 4 (1, 3)%Z).
Proof.
  apply (@permute_replications_blocks Z (Zscalar 0 0) example_world
           (arange_reshape [2; 4; 3]) 2 4 3 (1, 3)%Z
           [(1, 0); (1, 1); (1, 2)]%Z).
  - exact example_world_holds.
  - cbn. lia.
  - exact example_variables_valid.
  - apply integers_free_of_nan.
Defined.

Lemma example_variables_valid_0 :
  Forall (valid_variable 2 0) [(1, 0); (0, 0)]%Z.
Proof.
  repeat constructor; cbn; try discriminate; lia.
Defined.

Lemma permute_samples_preserves_values_witness :
  valid_perm_range (available 4 (1, 0)%Z) 3 (PermInt 3) /\
  exists M perm_idx M0 ri w',
    @permute_samples Z (Zscalar 0 0) (1, 0)%Z (PyList [(1, 0); (0, 0)]%Z)
      (PermInt 3) example_world = (Ok (M, perm_idx), w') /\
    @get_realisations Z (Zscalar 0 0) (1, 0)%Z (PyList [(1, 0); (0, 0)]%Z)
      example_world = (Ok (M0, ri), example_world) /\
    self w' = self example_world /\
    mshape M = mshape M0 /\
    forall r j,
      Permutation
        (@column_of Z (Zscalar 0 0) (rows_of_replication ri r (mrows M)) j)
        (@column_of Z (Zscalar 0 0) (rows_of_replication ri r (mrows M0)) j).
Proof.
  assert (Hpr : valid_perm_range (available 4 (1, 0)%Z) 3 (PermInt 3)).
  { change ((1 < 3 <= 4)%Z). lia. }
  split; [exact Hpr|].
  apply (@permute_samples_preserves_values Z (Zscalar 0 0) example_world
           (arange_reshape [2; 4; 3]) 2 4 3 (1, 0)%Z
           [(1, 0); (0, 0)]%Z (PermInt 3)).
  - exact example_world_holds.
  - cbn. lia.
  - exact example_variables_valid_0.
  - apply integers_free_of_nan.
  - exact Hpr.
Defined.

Lemma permute_samples_block_range_witness :
  (2 <= 3 < Z.of_nat (n_per_repl (available 4 (1, 0)%Z) 3))%Z /\
  exists M perm_idx M0 ri perm w',
    @permute_samples Z (Zscalar 0 0) (1, 0)%Z (PyList [(1, 0); (0, 0)]%Z)
      (PermInt 3) example_world = (Ok (M, perm_idx), w') /\
    @get_realisations Z (Zscalar 0 0) (1, 0)%Z (PyList [(1, 0); (0, 0)]%Z)
      example_world = (Ok (M0, ri), example_world) /\
    n_per_repl (available 4 (1, 0)%Z) 3 = available 4 (1, 0)%Z /\
    Permutation perm (arange (available 4 (1, 0)%Z)) /\
    (forall r, r < 3 ->
       take (rows_of_replication ri r (mrows M0)) perm
       = Ok (rows_of_replication ri r (mrows M)) /\
       rows_of_replication ri r perm_idx = perm) /\
    (forall k, k < available 4 (1, 0)%Z ->
       nth k perm 0 / Z.to_nat 3 = k / Z.to_nat 3 /\
       Z.to_nat 3 * (k / Z.to_nat 3) <= nth k perm 0
         < Nat.min (Z.to_nat 3 * (k / Z.to_nat 3) + Z.to_nat 3)
                   (available 4 (1, 0)%Z)).
Proof.
  assert (Hb : (2 <= 3 < Z.of_nat (n_per_repl (available 4 (1, 0)%Z) 3))%Z).
  { change ((2 <= 3 < 4)%Z). lia. }
  split; [exact Hb|].
  apply (@permute_samples_block_range Z (Zscalar 0 0) example_world
           (arange_reshape [2; 4; 3]) 2 4 3 (1, 0)%Z
           [(1, 0); (0, 0)]%Z 3%Z).
  - exact example_world_holds.
  - cbn. lia.
  - exact example_variables_valid_0.
  - apply integers_free_of_nan.
  - exact Hb.
Defined.

Lemma offset_beyond_current_value_rejected_witness :
  Exists (fun v : variable => (snd (0, 3)%Z < snd v)%Z) [(0, 5)%Z] /\
  @get_realisations Z (Zscalar 0 0) (0, 3)%Z (PyList [(0, 5)%Z]) example_world
  = (Raise (RuntimeError msg_smaller),
     mkWorld (self example_world)
             (stdout example_world ++ [PrintIndexList [(0, 5)%Z] (0, 3)%Z])
             (random example_world)) /\
  @permute_replications Z (Zscalar 0 0) (0, 3)%Z (PyList [(0, 5)%Z])
    example_world
  = (Raise (RuntimeError msg_smaller),
     mkWorld (self example_world)
             (stdout example_world ++ [PrintIndexList [(0, 5)%Z] (0, 3)%Z])
             (random example_world)).
Proof.
  assert (Hex : Exists (fun v : variable => (snd (0, 3)%Z < snd v)%Z)
                       [(0, 5)%Z]).
  { apply Exists_cons_hd. cbn. lia. }
  split; [exact Hex|].
  apply (@offset_beyond_current_value_rejected Z (Zscalar 0 0) example_world
           (0, 3)%Z [(0, 5)%Z] Hex).
Defined.

Lemma set_data_sizes_witness :
  valid_dim_order (str_of "sp") /\
  length (str_of "sp") = ndim (arange_reshape_R [4; 3]) /\
  1 <= ndim (arange_reshape_R [4; 3]) <= 3 /\
  exists a',
    fst (@set_data R Rscalar Rstandardise (arange_reshape_R [4; 3])
           (str_of "sp") (fresh_world true)) = Ok tt /\
    holds (self (snd (@set_data R Rscalar Rstandardise
                        (arange_reshape_R [4; 3]) (str_of "sp")
                        (fresh_world true)))) a' 3 4 1 /\
    n_processes (self (snd (@set_data R Rscalar Rstandardise
                        (arange_reshape_R [4; 3]) (str_of "sp")
                        (fresh_world true)))) = Some 3 /\
    n_samples (self (snd (@set_data R Rscalar Rstandardise
                        (arange_reshape_R [4; 3]) (str_of "sp")
                        (fresh_world true)))) = Some 4 /\
    n_replications (self (snd (@set_data R Rscalar Rstandardise
                        (arange_reshape_R [4; 3]) (str_of "sp")
                        (fresh_world true)))) = Some 1.
Proof.
  assert (Hvalid : valid_dim_order (str_of "sp")).
  { split.
    - apply NoDup_cons; [intros [H|[]]; discriminate H|].
      apply NoDup_cons; [intros [] | apply NoDup_nil].
    - apply Forall_cons; [cbn; auto|].
      apply Forall_cons; [cbn; auto | apply Forall_nil]. }
  split; [exact Hvalid|]. split; [reflexivity|]. split; [cbn; lia|].
  apply (@set_data_sizes R Rscalar Rstandardise (fresh_world true)
           (arange_reshape_R [4; 3]) (str_of "sp") Hvalid eq_refl).
  cbn. lia.
Defined.

Lemma permute_samples_rejects_range_witness :
  ((1 <= 1)%Z \/
   (n_samples (self example_world) = Some 4 /\ (Z.of_nat 4 - 0 < 1)%Z)) /\
  is_ok (fst (@permute_samples Z (Zscalar 0 0) (1, 0)%Z
                (PyList [(1, 0); (0, 0)]%Z) (PermInt 1) example_world))
  = false /\
  (forall M ri w',
     @get_realisations Z (Zscalar 0 0) (1, 0)%Z (PyList [(1, 0); (0, 0)]%Z)
       example_world = (Ok (M, ri), w') ->
     exists msg,
       @permute_samples Z (Zscalar 0 0) (1, 0)%Z (PyList [(1, 0); (0, 0)]%Z)
         (PermInt 1) example_world = (Raise (AssertionError msg), w') /\
       (((1 <= 1)%Z /\ msg = msg_perm_range) \/
        ((1 < 1)%Z /\ msg = msg_not_enough))).
Proof.
  assert (Hb : (1 <= 1)%Z \/
               (n_samples (self example_world) = Some 4 /\
                (Z.of_nat 4 - snd (1, 0)%Z < 1)%Z)).
  { left. lia. }
  split; [exact Hb|].
  apply (@permute_samples_rejects_range Z (Zscalar 0 0) example_world 4
           (1, 0)%Z (PyList [(1, 0); (0, 0)]%Z) 1%Z Hb).
Defined.


Lemma get_realisations_empty_list_witness :
  n_samples (self example_world) = Some 4 /\
  n_replications (self example_world) = Some 3 /\
  (0 <= 1 <= Z.of_nat 4)%Z /\
  @get_realisations Z (Zscalar 0 0) (0, 1)%Z (PyList []) example_world
  = (Ok ({| mshape := (available 4 (0, 1)%Z * 3, 0);
            mrows := repeat [] (available 4 (0, 1)%Z * 3) |},
         flat_map (fun rep => repeat rep (available 4 (0, 1)%Z)) (seq 0 3)),
     example_world) /\
  Z.of_nat (available 4 (0, 1)%Z * 3) = ((Z.of_nat 4 - 1) * Z.of_nat 3)%Z.
Proof.
  split; [reflexivity|]. split; [reflexivity|]. split; [cbn; lia|].
  apply (@get_realisations_empty_list Z (Zscalar 0 0) example_world 4 3
           (0, 1)%Z eq_refl eq_refl).
  cbn. lia.
Defined.

(** * Further properties of the module *)

(** ** What [set_data] stores *)

Section Storage.
Context {V : Type} {scalar : Scalar V} {std : Standardise V}.

Ltac split_symbols :=
  repeat match goal with
         | H : Forall _ (_ :: _) |- _ => inversion H; clear H; subst
         | H : Forall _ [] |- _ => clear H
         end;
  cbn [In psr list_ascii_of_string] in *;
  repeat match goal with
         | H : _ \/ _ |- _ => destruct H; subst
         | H : False |- _ => destruct H
         end.

Ltac repeated_symbol :=
  exfalso;
  match goal with
  | H : NoDup _ |- _ =>
      repeat (apply NoDup_cons_iff in H; destruct H as [? H]);
      cbn [In] in *; tauto
  end.

(** The canonical array: its axes are the declared ones, and its entry for
    process [i_p], sample [i_s], replication [i_r] is the entry of the input
    at the index that [dim_order] assigns to them. *)
Lemma reorder_data_canonical (arr : ndarray V) (dim_order : str) :
  valid_dim_order dim_order ->
  length dim_order = ndim arr -> 1 <= ndim arr <= 3 ->
  exists a',
    _reorder_data arr dim_order = Ok a' /\
    shape a' = [declared_size arr dim_order "p";
                declared_size arr dim_order "s";
                declared_size arr dim_order "r"] /\
    forall i_p i_s i_r,
      item a' [i_p; i_s; i_r] = item arr (source_index dim_order i_p i_s i_r).
Proof.
  intros [Hnodup Hsym] Hlen Hrank. destruct arr as [shp f].
  unfold ndim in *. cbn [shape] in *.
  destruct shp as [|n1 [|n2 [|n3 [|n4 shp]]]]; cbn [length] in *; try lia;
    destruct dim_order as [|c1 [|c2 [|c3 [|c4 dim_order]]]];
    try discriminate Hlen;
    split_symbols;
    first [ repeated_symbol
          | eexists; split; [reflexivity|]; split; [reflexivity|];
            intros i_p i_s i_r; reflexivity ].
Qed.

(** The loop of [_normalise_data] in closed form. *)
Lemma normalise_data_closed (w : World V) (d : ndarray V) n_p n_s n_r :
  shape d = [n_p; n_s; n_r] ->
  n_processes (self w) = Some n_p -> n_samples (self w) = Some n_s ->
  n_replications (self w) = Some n_r ->
  _normalise_data d w = (Ok (normalised d n_p n_s n_r), w).
Proof.
  intros Hshape Hp Hs Hr. unfold _normalise_data. rewrite Hshape.
  rewrite (bind_ok _ _ _ _ _ (getattr_some _ _ w n_p Hp)).
  apply (for_each_pure (V := V)
           (standardise_process d n_p n_s n_r) (write_process d n_s n_r)
           (fun _ => True) (fun process => process < n_p) w);
    [|apply perm_arange_lt; reflexivity | exact I].
  intros process s Hproc _. split; [|exact I].
  unfold standardise_process, n_realisations, n_realisations_samples,
    n_realisations_repl.
  erewrite bind_ok; cycle 1.
  { erewrite bind_ok; cycle 1.
    { rewrite (bind_ok _ _ _ _ _ (getattr_some _ _ w n_s Hs)). reflexivity. }
    rewrite (bind_ok _ _ _ _ _ (getattr_some _ _ w n_r Hr)). reflexivity. }
  destruct (Nat.ltb_spec process n_p); [|lia]. cbn [negb].
  replace (Z.of_nat (n_s * n_r) =? Z.of_nat n_s * Z.of_nat n_r)%Z with true
    by (symmetry; apply Z.eqb_eq; lia).
  cbn [negb].
  rewrite (bind_ok _ _ _ _ _ (getattr_some _ _ w n_s Hs)).
  rewrite (bind_ok _ _ _ _ _ (getattr_some _ _ w n_r Hr)).
  rewrite standardise_length, length_map, length_seq, !Nat.eqb_refl.
  reflexivity.
Qed.

Lemma shape_write_processes (d d0 : ndarray V) n_s n_r l :
  shape (fold_left (write_process d n_s n_r) l d0) = shape d0.
Proof.
  revert d0. induction l as [|x l IH]; intros d0; cbn; trivial.
  now rewrite IH.
Qed.

Lemma item_write_processes (d d0 : ndarray V) n_s n_r m p k r :
  item (fold_left (write_process d n_s n_r) (seq 0 m) d0) [p; k; r]
  = if p <? m
    then nth (k * n_r + r) (standardised_process d n_s n_r p) garbage
    else item d0 [p; k; r].
Proof.
  induction m as [|m IH]; [reflexivity|].
  rewrite seq_S, fold_left_app. cbn [fold_left write_process item Nat.add].
  destruct (Nat.eqb_spec p m) as [->|Hne].
  - destruct (Nat.ltb_spec m (S m)); [reflexivity | lia].
  - rewrite IH.
    destruct (Nat.ltb_spec p m), (Nat.ltb_spec p (S m)); try lia; reflexivity.
Qed.

(** [set_data] in closed form. *)
Lemma set_data_state (w : World V) (arr a' : ndarray V) dim_order n_p n_s n_r :
  length dim_order = ndim arr -> length dim_order <= 3 ->
  _reorder_data arr dim_order = Ok a' ->
  shape a' = [n_p; n_s; n_r] ->
  set_data arr dim_order w
  = (Ok tt,
     mkWorld (mkData (normalise (self w))
                     (Some (stored (normalise (self w)) a' n_p n_s n_r))
                     (Some n_p) (Some n_s) (Some n_r))
             ((stdout w ++ [PrintAdding n_p n_s n_r]) ++ [PrintOverwriting])
             (random w)).
Proof.
  intros Hlen Hlen3 Hreorder Hshape.
  destruct w as [[nrm d0 np0 ns0 nr0] out g]. unfold set_data.
  destruct (Nat.ltb_spec 3 (length dim_order)); [lia|].
  rewrite Hlen, Nat.eqb_refl. cbn [negb].
  unfold lift at 1. rewrite Hreorder.
  unfold _set_data_size, shape_at, bind, lift, update_self, getattr, print,
    try_except, data_deleter, get_normalise.
  rewrite Hshape. cbn -[_normalise_data data_setter normalised].
  destruct d0 as [d0|], nrm; cbn -[_normalise_data normalised];
    try reflexivity.
  all: match goal with
       | Hs : shape ?x = _ |- context [_normalise_data ?x ?w1] =>
           rewrite (normalise_data_closed w1 x _ _ _ Hs eq_refl eq_refl eq_refl)
       end; reflexivity.
Qed.

End Storage.

Section StorageTheorems.
Context {V : Type} {scalar : Scalar V} {std : Standardise V}.

(** [set_data] refuses an axis-order string of more than three symbols and
    one whose length is not the rank of the array; it raises before it
    prints or assigns anything, so the world is the one before the call. *)
Theorem set_data_rejects_dim_order (w : World V) (arr : ndarray V)
  (dim_order : str) :
  3 < length dim_order \/ length dim_order <> ndim arr ->
  exists msg, set_data arr dim_order w = (Raise (RuntimeError msg), w).
Proof.
  intros H. unfold set_data.
  destruct (Nat.ltb_spec 3 (length dim_order)) as [Hlong|Hshort].
  - eexists. reflexivity.
  - destruct H as [H|H]; [lia|].
    destruct (Nat.eqb_spec (length dim_order) (ndim arr)); [contradiction|].
    eexists. reflexivity.
Qed.

(** With normalisation switched off, reading [data] after [set_data] gives
    the canonical array: three axes of the declared sizes, and at process
    [i_p], sample [i_s], replication [i_r] the entry the input has at the
    index that puts each of them on the axis declared for it. *)
Theorem set_data_stores_canonical (w : World V) (arr : ndarray V)
  (dim_order : str) :
  valid_dim_order dim_order ->
  length dim_order = ndim arr -> 1 <= ndim arr <= 3 ->
  normalise (self w) = false ->
  exists d,
    (set_data arr dim_order ;; data) w
    = (Ok d, snd (set_data arr dim_order w)) /\
    shape d = [declared_size arr dim_order "p";
               declared_size arr dim_order "s";
               declared_size arr dim_order "r"] /\
    forall i_p i_s i_r,
      item d [i_p; i_s; i_r] = item arr (source_index dim_order i_p i_s i_r).
Proof.
  intros Hvalid Hlen Hrank Hnrm.
  destruct (reorder_data_canonical arr dim_order Hvalid Hlen Hrank)
    as (a' & Hreorder & Hshape & Hitem).
  exists a'. split; [|split; assumption].
  unfold bind.
  rewrite (set_data_state w arr a' dim_order _ _ _ Hlen ltac:(lia)
             Hreorder Hshape).
  rewrite Hnrm. reflexivity.
Qed.

(** [set_data] replaces the content of the instance wholesale: the
    attributes after the call are fixed by the array, the axis-order string
    and the flag [normalise], whatever array and counts the instance held
    before.  It prints the new counts and, on every call, also the message
    of the deleter; it draws no random number. *)
Theorem set_data_forgets_previous_state (w1 w2 : World V) (arr : ndarray V)
  (dim_order : str) :
  valid_dim_order dim_order ->
  length dim_order = ndim arr -> 1 <= ndim arr <= 3 ->
  normalise (self w1) = normalise (self w2) ->
  fst (set_data arr dim_order w1) = Ok tt /\
  self (snd (set_data arr dim_order w1)) = self (snd (set_data arr dim_order w2)) /\
  stdout (snd (set_data arr dim_order w1))
  = stdout w1 ++ [PrintAdding (declared_size arr dim_order "p")
                              (declared_size arr dim_order "s")
                              (declared_size arr dim_order "r");
                  PrintOverwriting] /\
  random (snd (set_data arr dim_order w1)) = random w1.
Proof.
  intros Hvalid Hlen Hrank Hnrm.
  destruct (reorder_data_canonical arr dim_order Hvalid Hlen Hrank)
    as (a' & Hreorder & Hshape & _).
  rewrite !(set_data_state _ arr a' dim_order _ _ _ Hlen ltac:(lia)
              Hreorder Hshape).
  cbn [fst snd self stdout random]. rewrite Hnrm, <- app_assoc.
  repeat split.
Qed.

(** The entries [set_data] stores when it normalises. *)
Lemma set_data_standardised_entries (w : World V) (arr : ndarray V)
  (dim_order : str) :
  valid_dim_order dim_order ->
  length dim_order = ndim arr -> 1 <= ndim arr <= 3 ->
  normalise (self w) = true ->
  exists d,
    (set_data arr dim_order ;; data) w
    = (Ok d, snd (set_data arr dim_order w)) /\
    shape d = [declared_size arr dim_order "p";
               declared_size arr dim_order "s";
               declared_size arr dim_order "r"] /\
    forall p k r,
      p < declared_size arr dim_order "p" ->
      item d [p; k; r]
      = nth (k * declared_size arr dim_order "r" + r)
            (standardise
               (map (fun i =>
                       item arr (source_index dim_order p
                                   (i / declared_size arr dim_order "r")
                                   (i mod declared_size arr dim_order "r")))
                    (seq 0 (declared_size arr dim_order "s"
                            * declared_size arr dim_order "r"))))
            garbage.
Proof.
  intros Hvalid Hlen Hrank Hnrm.
  destruct (reorder_data_canonical arr dim_order Hvalid Hlen Hrank)
    as (a' & Hreorder & Hshape & Hitem).
  set (n_p := declared_size arr dim_order "p") in *.
  set (n_s := declared_size arr dim_order "s") in *.
  set (n_r := declared_size arr dim_order "r") in *.
  exists (normalised a' n_p n_s n_r). split; [|split].
  - unfold bind.
    rewrite (set_data_state w arr a' dim_order _ _ _ Hlen ltac:(lia)
               Hreorder Hshape).
    rewrite Hnrm. reflexivity.
  - unfold normalised. apply shape_write_processes.
  - intros p k r Hp. unfold normalised, arange.
    rewrite item_write_processes.
    destruct (Nat.ltb_spec p n_p); [|lia].
    unfold standardised_process. do 2 f_equal.
    apply map_ext. intros i. apply Hitem.
Qed.


(** No statistics leak between processes: when two arrays of the same shape
    hold the same values for process [p], the normalised values stored for
    process [p] are the same. *)
Theorem normalisation_is_per_process (w1 w2 : World V)
  (arr1 arr2 : ndarray V) (dim_order : str) (p : nat) :
  valid_dim_order dim_order ->
  length dim_order = ndim arr1 -> 1 <= ndim arr1 <= 3 ->
  shape arr1 = shape arr2 ->
  normalise (self w1) = true -> normalise (self w2) = true ->
  p < declared_size arr1 dim_order "p" ->
  (forall i_s i_r,
     item arr1 (source_index dim_order p i_s i_r)
     = item arr2 (source_index dim_order p i_s i_r)) ->
  exists d1 d2,
    (set_data arr1 dim_order ;; data) w1
    = (Ok d1, snd (set_data arr1 dim_order w1)) /\
    (set_data arr2 dim_order ;; data) w2
    = (Ok d2, snd (set_data arr2 dim_order w2)) /\
    forall k r, item d1 [p; k; r] = item d2 [p; k; r].
Proof.
  intros Hvalid Hlen Hrank Hshape Hn1 Hn2 Hp Hsame.
  assert (Hsize : forall c, declared_size arr2 dim_order c
                            = declared_size arr1 dim_order c).
  { intros c. unfold declared_size. now rewrite Hshape. }
  assert (Hlen2 : length dim_order = ndim arr2)
    by (unfold ndim in *; now rewrite <- Hshape).
  assert (Hrank2 : 1 <= ndim arr2 <= 3)
    by (unfold ndim in *; now rewrite <- Hshape).
  destruct (set_data_standardised_entries w1 arr1 dim_order
              Hvalid Hlen Hrank Hn1) as (d1 & Hrun1 & _ & Hd1).
  destruct (set_data_standardised_entries w2 arr2 dim_order
              Hvalid Hlen2 Hrank2 Hn2) as (d2 & Hrun2 & _ & Hd2).
  exists d1, d2. split; [exact Hrun1|]. split; [exact Hrun2|].
  intros k r. rewrite Hd1 by assumption.
  rewrite Hd2 by (rewrite Hsize; assumption).
  rewrite !Hsize. do 2 f_equal. apply map_ext. intros i. apply Hsame.
Qed.

End StorageTheorems.

(** ** What the extractor returns *)

Section ExtractorTheorems.
Context {V : Type} {scalar : Scalar V}.

Lemma nth_error_block {A} n j k (l : list A) :
  k < n -> nth_error (block n j l) k = nth_error l (j * n + k).
Proof.
  intros Hk. unfold block. rewrite nth_error_firstn.
  destruct (Nat.ltb_spec k n); [|lia]. apply nth_error_skipn.
Qed.

Lemma nth_error_map_slots {B} (f : nat * nat -> B) n order rep k :
  rep < length order -> k < n ->
  nth_error (map f (slots n order)) (rep * n + k)
  = Some (f (nth rep order 0, k)).
Proof.
  intros Hrep Hk. rewrite <- nth_error_block by assumption.
  rewrite block_map_slots by assumption.
  rewrite nth_error_map, nth_error_nth' with (d := 0)
    by (rewrite length_seq; lia).
  rewrite seq_nth by assumption. reflexivity.
Qed.

(** The entries of the realisation matrix: on a valid call, row
    [rep * n + k] (realisation [k] of replication [rep], with [n] the
    realisations per replication) carries the replication index [rep] and
    holds in the column of variable [(p, offset)] the stored value of
    process [p] at sample [offset + k] in replication [rep], cast to
    float64.  All columns of a row are thus aligned in time and taken from
    one replication. *)
Theorem realisation_entries (w : World V) a n_p n_s n_r
  (cv : variable) (idx : list variable) :
  holds (self w) a n_p n_s n_r ->
  (0 <= snd cv <= Z.of_nat n_s)%Z ->
  Forall (valid_variable n_p (snd cv)) idx ->
  free_of_nan a n_p (available n_s cv) n_r idx ->
  exists M ri,
    get_realisations cv (PyList idx) w = (Ok (M, ri), w) /\
    forall rep k, rep < n_r -> k < available n_s cv ->
      nth_error ri (rep * available n_s cv + k) = Some rep /\
      exists row,
        nth_error (mrows M) (rep * available n_s cv + k) = Some row /\
        forall j v, nth_error idx j = Some v ->
          nth_error row j
          = Some (float64
                    (item a [process_of n_p (fst v); Z.to_nat (snd v) + k;
                             rep])).
Proof.
  intros Hholds Ht Hidx Hnan.
  eexists _, _. split.
  { cbn [get_realisations].
    now rewrite (get_data_closed w a n_p n_s n_r cv idx false). }
  intros rep k Hrep Hk. split.
  - rewrite replication_index_slots.
    rewrite nth_error_map_slots by (rewrite ?length_arange; assumption).
    cbn [fst]. now rewrite nth_arange.
  - unfold realisation_matrix, realisation_rows. cbn [mrows].
    rewrite nth_error_map_slots by (rewrite ?length_arange; assumption).
    eexists. split; [reflexivity|].
    intros j v Hj. cbn [fst snd]. rewrite nth_arange by assumption.
    rewrite nth_error_map, Hj. reflexivity.
Qed.

(** The size queries agree with the extractor: [n_realisations] with the
    current value is the number of rows [get_realisations] returns,
    [n_realisations_samples] is the number of rows each replication
    contributes, and [n_realisations_repl] the number of replications. *)
Theorem n_realisations_counts_rows (w : World V) a n_p n_s n_r
  (cv : variable) (idx : list variable) :
  holds (self w) a n_p n_s n_r ->
  (0 <= snd cv <= Z.of_nat n_s)%Z ->
  Forall (valid_variable n_p (snd cv)) idx ->
  free_of_nan a n_p (available n_s cv) n_r idx ->
  exists M ri N n,
    get_realisations cv (PyList idx) w = (Ok (M, ri), w) /\
    n_realisations (Some cv) w = (Ok N, w) /\
    n_realisations_samples (Some cv) w = (Ok n, w) /\
    n_realisations_repl w = (Ok n_r, w) /\
    Z.of_nat (nrows M) = N /\ Z.of_nat (length (mrows M)) = N /\
    Z.of_nat (length ri) = N /\
    N = (n * Z.of_nat n_r)%Z /\
    forall rep, rep < n_r -> Z.of_nat (count_occ Nat.eq_dec ri rep) = n.
Proof.
  intros Hholds Ht Hidx Hnan.
  pose proof Hholds as (_ & _ & _ & Hs & Hr).
  assert (Hsamples : n_realisations_samples (Some cv) w
                     = (Ok (Z.of_nat n_s - snd cv)%Z, w)).
  { unfold n_realisations_samples.
    now rewrite (bind_ok _ _ _ _ _ (getattr_some _ _ w n_s Hs)). }
  assert (Hrepl : n_realisations_repl w = (Ok n_r, w))
    by now apply getattr_some.
  eexists _, _, _, _. split.
  { cbn [get_realisations].
    now rewrite (get_data_closed w a n_p n_s n_r cv idx false). }
  split.
  { unfold n_realisations.
    rewrite (bind_ok _ _ _ _ _ Hsamples), (bind_ok _ _ _ _ _ Hrepl).
    reflexivity. }
  split; [exact Hsamples|]. split; [exact Hrepl|].
  unfold realisation_matrix, nrows. cbn [mshape mrows fst].
  rewrite length_realisation_rows, length_replication_index, length_arange.
  repeat split; try (unfold available; nia).
  intros rep Hrep.
  rewrite count_occ_replication_index, count_occ_arange by assumption.
  unfold available. lia.
Qed.

Lemma short_permutation_fixed n g :
  n <= 1 -> fst (np_random_permutation n g) = arange n.
Proof.
  intros Hn. pose proof (np_random_permutation_perm n g) as Hperm.
  destruct n as [|[|n]]; [| |lia].
  - now apply Permutation_nil, Permutation_sym.
  - now apply Permutation_length_1_inv, Permutation_sym.
Qed.

(** With at most one replication there is nothing to shuffle: on a valid
    call [permute_replications] returns the matrix and the replication index
    of [get_realisations]. *)
Theorem single_replication_not_shuffled (w : World V) a n_p n_s n_r
  (cv : variable) (idx : list variable) :
  holds (self w) a n_p n_s n_r ->
  (0 <= snd cv <= Z.of_nat n_s)%Z ->
  Forall (valid_variable n_p (snd cv)) idx ->
  free_of_nan a n_p (available n_s cv) n_r idx ->
  n_r <= 1 ->
  is_ok (fst (get_realisations cv (PyList idx) w)) = true /\
  fst (permute_replications cv (PyList idx) w)
  = fst (get_realisations cv (PyList idx) w).
Proof.
  intros Hholds Ht Hidx Hnan Hnr.
  cbn [get_realisations permute_replications].
  rewrite (get_data_closed w a n_p n_s n_r cv idx true),
    (get_data_closed w a n_p n_s n_r cv idx false) by assumption.
  cbn [fst]. rewrite short_permutation_fixed by assumption.
  split; reflexivity.
Qed.

End ExtractorTheorems.

(** ** How the extractor fails *)

Section ExtractorFailures.
Context {V : Type} {scalar : Scalar V}.


Variables (w : World V) (a : ndarray V) (n_p n_s n_r : nat).
Hypothesis Hholds : holds (self w) a n_p n_s n_r.
Variable cv : variable.
Hypothesis Ht : (0 <= snd cv <= Z.of_nat n_s)%Z.





End ExtractorFailures.

Section ExtractorFailureTheorems.
Context {V : Type} {scalar : Scalar V}.






End ExtractorFailureTheorems.

(** ** More on sample permutation *)

Section PermuteSamplesTheorems.
Context {V : Type} {scalar : Scalar V}.

(** On a valid call [permute_samples] moves whole rows and keeps them in
    their replication: there is one permutation [perm] of the positions of
    a replication such that, for every replication, the rows of the result
    are the rows [get_realisations] has for that replication taken in the
    order [perm]; the second value returned lists [perm] for every
    replication. *)
Theorem permute_samples_moves_rows (w : World V) a n_p n_s n_r
  (cv : variable) (idx : list variable) (pr : perm_range_arg) :
  holds (self w) a n_p n_s n_r ->
  (0 <= snd cv <= Z.of_nat n_s)%Z ->
  Forall (valid_variable n_p (snd cv)) idx ->
  free_of_nan a n_p (available n_s cv) n_r idx ->
  valid_perm_range (available n_s cv) n_r pr ->
  exists M perm_idx M0 ri perm w',
    permute_samples cv (PyList idx) pr w = (Ok (M, perm_idx), w') /\
    get_realisations cv (PyList idx) w = (Ok (M0, ri), w) /\
    Permutation perm (arange (n_per_repl (available n_s cv) n_r)) /\
    mshape M = mshape M0 /\
    length (mrows M) = length (mrows M0) /\
    length perm_idx = length ri /\
    forall r, r < n_r ->
      take (rows_of_replication ri r (mrows M0)) perm
      = Ok (rows_of_replication ri r (mrows M)) /\
      rows_of_replication ri r perm_idx = perm.
Proof.
  intros Hholds Ht Hidx Hnan Hpr.
  destruct (permute_samples_run w a n_p n_s n_r cv idx pr
              Hholds Ht Hidx Hnan Hpr)
    as (M & pidx & perm & w' & Hrun & Hself & Hshape & Hperm & _ & Hinv).
  exists M, pidx,
    (realisation_matrix a n_p (available n_s cv) idx (arange n_r)),
    (replication_index (available n_s cv) (arange n_r)), perm, w'.
  split; [exact Hrun|]. split.
  { cbn [get_realisations].
    now rewrite (get_data_closed w a n_p n_s n_r cv idx false). }
  split; [exact Hperm|]. split.
  { rewrite Hshape. unfold realisation_matrix. cbn [mshape].
    now rewrite length_arange. }
  destruct Hinv as (Hlen & Hlenp & Hinv).
  unfold realisation_matrix. cbn [mrows].
  split; [now rewrite Hlen, length_realisation_rows, length_replication_index|].
  split; [exact Hlenp|].
  intros r Hr. apply (proj1 (Hinv r)). apply -> in_rev. apply in_seq. lia.
Qed.

(** An integer [perm_range] equal to the number of realisations per
    replication is the same request as 'max': both calls do the same, and
    they succeed. *)
Theorem permute_samples_full_range_is_max (w : World V) a n_p n_s n_r
  (cv : variable) (idx : list variable) (b : Z) :
  holds (self w) a n_p n_s n_r ->
  (0 <= snd cv <= Z.of_nat n_s)%Z ->
  Forall (valid_variable n_p (snd cv)) idx ->
  free_of_nan a n_p (available n_s cv) n_r idx ->
  b = Z.of_nat (n_per_repl (available n_s cv) n_r) -> (1 < b)%Z ->
  permute_samples cv (PyList idx) (PermInt b) w
  = permute_samples cv (PyList idx) (PermStr "max") w /\
  is_ok (fst (permute_samples cv (PyList idx) (PermStr "max") w)) = true.
Proof.
  intros Hholds Ht Hidx Hnan Hb Hgt. split.
  - unfold permute_samples. cbn [get_realisations].
    rewrite !(bind_ok _ _ _ _ _
                (get_data_closed w a n_p n_s n_r cv idx false
                   Hholds Ht Hidx Hnan)).
    change (count_occ Nat.eq_dec
              (replication_index (available n_s cv) (arange n_r)) 0)
      with (n_per_repl (available n_s cv) n_r).
    rewrite <- Hb. cbn [String.eqb Ascii.eqb Bool.eqb].
    unfold assert at 1. destruct (Z.ltb_spec 1 b); [|lia].
    reflexivity.
  - destruct (permute_samples_run w a n_p n_s n_r cv idx (PermStr "max")
                Hholds Ht Hidx Hnan eq_refl)
      as (M & pidx & perm & w' & -> & _). reflexivity.
Qed.

(** A string other than 'max' as [perm_range] is refused: no permuted
    realisations are returned, and when the extraction goes through the
    call raises a ValueError without drawing a random number. *)
Theorem permute_samples_rejects_string (w : World V)
  (cv : variable) (idx : idx_arg) (s : string) :
  s <> "max"%string ->
  is_ok (fst (permute_samples cv idx (PermStr s) w)) = false /\
  forall M ri w',
    get_realisations cv idx w = (Ok (M, ri), w') ->
    permute_samples cv idx (PermStr s) w = (Raise (ValueError msg_unknown), w').
Proof.
  intros Hs.
  assert (Hmain : forall M ri w',
    get_realisations cv idx w = (Ok (M, ri), w') ->
    permute_samples cv idx (PermStr s) w
    = (Raise (ValueError msg_unknown), w')).
  { intros M ri w' Hget. unfold permute_samples.
    rewrite (bind_ok _ _ _ _ _ Hget).
    apply String.eqb_neq in Hs. rewrite Hs. reflexivity. }
  split; [|exact Hmain].
  destruct (get_realisations cv idx w) as [[[M ri]|e] w'] eqn:Hget.
  - now rewrite (Hmain M ri w' eq_refl).
  - unfold permute_samples. now rewrite (bind_raise _ _ _ _ _ Hget).
Qed.

End PermuteSamplesTheorems.

(** ** The property [data] and instances without data *)

Section Lifecycle.
Context {V : Type} {scalar : Scalar V}.

(** On an instance that holds no array, assigning to [data] stores the
    array and reading [data] gives it back; counts, output and random source
    are not touched. *)
Theorem data_assignment_on_empty_instance (w : World V) (d : ndarray V) :
  _data (self w) = None ->
  (data_setter d ;; data) w
  = (Ok d, mkWorld (set__data (Some d) (self w)) (stdout w) (random w)).
Proof.
  intros Hnone.
  unfold data_setter, hasattr_data, try_except, data, bind, getattr,
    update_self, ret.
  rewrite Hnone. reflexivity.
Qed.

(** Deleting [data] and assigning it anew goes through and puts the new
    array in place of the old one, while [n_processes], [n_samples] and
    [n_replications] keep the values that belonged to the old array. *)
Theorem delete_then_assign_keeps_counts (w : World V) (a d : ndarray V) :
  _data (self w) = Some a ->
  (data_deleter ;; data_setter d ;; data) w
  = (Ok d, mkWorld (set__data (Some d) (self w))
                   (stdout w ++ [PrintOverwriting]) (random w)) /\
  n_processes (set__data (Some d) (self w)) = n_processes (self w) /\
  n_samples (set__data (Some d) (self w)) = n_samples (self w) /\
  n_replications (set__data (Some d) (self w)) = n_replications (self w).
Proof.
  intros Ha. split; [|repeat split].
  unfold data_deleter, data_setter, hasattr_data, try_except, data, bind,
    getattr, update_self, print, ret.
  cbn [self]. rewrite Ha. reflexivity.
Qed.

(** An instance that was never given data has no counts: every extraction
    whose offsets pass the first check, every surrogate call and every size
    query that needs the number of samples raises an AttributeError and
    leaves the world as it was. *)
Theorem no_data_no_realisations (w : World V)
  (cv : variable) (idx : list variable) (pr : perm_range_arg) :
  n_samples (self w) = None ->
  Forall (fun x : variable => (snd x <= snd cv)%Z) idx ->
  get_realisations cv (PyList idx) w = (Raise (AttributeError "n_samples"), w) /\
  permute_replications cv (PyList idx) w
  = (Raise (AttributeError "n_samples"), w) /\
  permute_samples cv (PyList idx) pr w
  = (Raise (AttributeError "n_samples"), w) /\
  (forall c, n_realisations c w = (Raise (AttributeError "n_samples"), w)) /\
  (forall c, n_realisations_samples c w
             = (Raise (AttributeError "n_samples"), w)).
Proof.
  intros Hnone Hoff.
  assert (Hsamples : forall c, n_realisations_samples c w
                               = (Raise (AttributeError "n_samples"), w)).
  { intros [c|]; unfold n_realisations_samples;
      now rewrite (bind_raise _ _ _ _ _ (getattr_none _ _ w Hnone)). }
  assert (Hget : forall shuffle,
             _get_data idx cv shuffle w
             = (Raise (AttributeError "n_samples"), w)).
  { intros shuffle. unfold _get_data.
    replace (forallb (fun x => (snd x <=? snd cv)%Z) idx) with true.
    2:{ symmetry. apply forallb_forall. intros x Hx.
        rewrite Forall_forall in Hoff. apply Z.leb_le. now apply Hoff. }
    cbn [negb]. now rewrite (bind_raise _ _ _ _ _ (Hsamples (Some cv))). }
  split; [apply Hget|]. split; [apply Hget|]. split; [|split].
  - unfold permute_samples. apply bind_raise. apply Hget.
  - intros c. unfold n_realisations.
    now rewrite (bind_raise _ _ _ _ _ (Hsamples c)).
  - exact Hsamples.
Qed.

End Lifecycle.

(** ** Requests the extractor refuses before it reads any data *)

Section ExtractorGuards.
Context {V : Type} {scalar : Scalar V}.

(** A current value that lies beyond the last sample is not rejected by a
    check of its own: the size queries report a negative number of
    realisations, and every extraction fails when it allocates the
    realisation matrix, with the ValueError of [np.empty], before a random
    number is drawn. *)
Theorem current_value_beyond_last_sample (w : World V) a n_p n_s n_r
  (cv : variable) (idx : list variable) (pr : perm_range_arg) :
  holds (self w) a n_p n_s n_r ->
  (Z.of_nat n_s < snd cv)%Z -> 0 < n_r ->
  Forall (fun x : variable => (snd x <= snd cv)%Z) idx ->
  (exists N, n_realisations (Some cv) w = (Ok N, w) /\ (N < 0)%Z) /\
  get_realisations cv (PyList idx) w
  = (Raise (ValueError "negative dimensions are not allowed"), w) /\
  permute_replications cv (PyList idx) w
  = (Raise (ValueError "negative dimensions are not allowed"), w) /\
  permute_samples cv (PyList idx) pr w
  = (Raise (ValueError "negative dimensions are not allowed"), w).
Proof.
  intros (Hd & Hshape & Hp & Hs & Hr) Ht Hnr Hoff.
  assert (Hsamples : n_realisations_samples (Some cv) w
                     = (Ok (Z.of_nat n_s - snd cv)%Z, w)).
  { unfold n_realisations_samples.
    now rewrite (bind_ok _ _ _ _ _ (getattr_some _ _ w n_s Hs)). }
  assert (Hrepl : n_realisations_repl w = (Ok n_r, w)).
  { apply getattr_some, Hr. }
  assert (Hget : forall shuffle,
             _get_data idx cv shuffle w
             = (Raise (ValueError "negative dimensions are not allowed"), w)).
  { intros shuffle. unfold _get_data.
    replace (forallb (fun x => (snd x <=? snd cv)%Z) idx) with true.
    2:{ symmetry. apply forallb_forall. intros x Hx.
        rewrite Forall_forall in Hoff. apply Z.leb_le. now apply Hoff. }
    cbn [negb].
    rewrite (bind_ok _ _ _ _ _ Hsamples), (bind_ok _ _ _ _ _ Hrepl).
    unfold lift at 1, np_empty2.
    destruct (Z.ltb_spec ((Z.of_nat n_s - snd cv) * Z.of_nat n_r) 0); [|nia].
    reflexivity. }
  split; [|split; [apply Hget | split; [apply Hget|]]].
  - exists ((Z.of_nat n_s - snd cv) * Z.of_nat n_r)%Z. split; [|nia].
    unfold n_realisations.
    now rewrite (bind_ok _ _ _ _ _ Hsamples), (bind_ok _ _ _ _ _ Hrepl).
  - unfold permute_samples. apply bind_raise. apply Hget.
Qed.

End ExtractorGuards.

(** ** Axis-order strings that do not describe the array *)

Section SymbolsOfDimOrder.
Context {V : Type} {scalar : Scalar V} {std : Standardise V}.

Lemma In_str_remove c x s : In c (str_remove s x) <-> In c s /\ c <> x.
Proof.
  unfold str_remove. rewrite filter_In.
  destruct (Ascii.eqb_spec c x); cbn; intuition congruence.
Qed.

Lemma In_missing_dims c l s :
  In c (fold_left str_remove l s) <-> In c s /\ ~ In c l.
Proof.
  revert s. induction l as [|x l IH]; intros s; cbn [fold_left In].
  - tauto.
  - rewrite IH, In_str_remove. intuition congruence.
Qed.

Lemma ndim_expand_dims (a : ndarray V) :
  ndim (expand_dims a (ndim a)) = S (ndim a).
Proof.
  unfold ndim, expand_dims. cbn [shape].
  rewrite firstn_all, skipn_all, length_app. cbn. lia.
Qed.

Lemma add_singletons (missing : str) (a : ndarray V) (dim_order : str) :
  exists a',
    fold_left (fun '(data, dim_order) dim =>
                 (expand_dims data (ndim data), dim_order ++ [dim]))
              missing (a, dim_order)
    = (a', dim_order ++ missing) /\
    ndim a' = ndim a + length missing.
Proof.
  revert a dim_order. induction missing as [|c missing IH]; intros a dim_order.
  - exists a. cbn. rewrite app_nil_r. split; [reflexivity | lia].
  - destruct (IH (expand_dims a (ndim a)) (dim_order ++ [c])) as (a' & Heq & Hn).
    exists a'. split.
    + cbn [fold_left]. cbv beta iota. etransitivity; [exact Heq|].
      now rewrite <- app_assoc.
    + rewrite Hn, ndim_expand_dims. cbn. lia.
Qed.

Lemma str_index_In c (s : str) :
  In c s -> exists i, str_index s c = Some i /\ i < length s.
Proof.
  induction s as [|x s IH]; intros Hin; [destruct Hin|].
  cbn [str_index]. destruct (Ascii.eqb_spec x c) as [->|Hne].
  - exists 0. cbn. split; [reflexivity | lia].
  - destruct Hin as [->|Hin]; [contradiction|].
    destruct (IH Hin) as (i & -> & Hi). exists (S i). cbn. split; [reflexivity | lia].
Qed.

Lemma length_swap_entries {A} (d : A) l i j :
  length (swap_entries d l i j) = length l.
Proof. unfold swap_entries. now rewrite length_map, length_seq. Qed.

Lemma In_swap_entries {A} (d : A) l i j x :
  i < length l -> j < length l -> In x l -> In x (swap_entries d l i j).
Proof.
  intros Hi Hj Hin. destruct (In_nth l x d Hin) as (k & Hk & <-).
  unfold swap_entries. apply in_map_iff.
  exists (if k =? i then j else if k =? j then i else k). split.
  - destruct (Nat.eqb_spec k i) as [->|Hki].
    + destruct (Nat.eqb_spec j i) as [->|Hji]; [reflexivity|].
      now rewrite Nat.eqb_refl.
    + destruct (Nat.eqb_spec k j) as [->|Hkj].
      * now rewrite Nat.eqb_refl.
      * destruct (Nat.eqb_spec k i); [contradiction|].
        destruct (Nat.eqb_spec k j); [contradiction | reflexivity].
  - apply in_seq.
    destruct (Nat.eqb_spec k i); [lia|]. destruct (Nat.eqb_spec k j); lia.
Qed.

Lemma ndim_swapaxes (a : ndarray V) i j :
  i < ndim a -> j < ndim a ->
  exists a', swapaxes a i j = Ok a' /\ ndim a' = ndim a.
Proof.
  intros Hi Hj. unfold swapaxes.
  destruct (Nat.ltb_spec i (ndim a)); [|lia].
  destruct (Nat.ltb_spec j (ndim a)); [|lia].
  eexists. split; [reflexivity|].
  unfold ndim. cbn [shape]. apply length_swap_entries.
Qed.

Lemma three_symbols (l : str) :
  In "p"%char l -> In "s"%char l -> In "r"%char l -> 3 <= length l.
Proof.
  intros Hp Hs Hr.
  apply (NoDup_incl_length (l := ["p"; "s"; "r"]%char)).
  - repeat constructor; cbn; intuition discriminate.
  - intros c [<-|[<-|[<-|[]]]]; assumption.
Qed.

(** The canonicalizer never fails on the symbols: what [dim_order] does not
    declare is added, so 'p' and 's' are always found. *)
Lemma reorder_data_any_symbols (arr : ndarray V) (dim_order : str) :
  length dim_order = ndim arr ->
  exists a',
    _reorder_data arr dim_order = Ok a' /\
    ndim a' = ndim arr + length (fold_left str_remove dim_order psr) /\
    3 <= ndim a'.
Proof.
  intros Hlen. unfold _reorder_data.
  destruct (add_singletons (fold_left str_remove dim_order psr) arr dim_order)
    as (a1 & -> & Hn1).
  set (missing := fold_left str_remove dim_order psr) in *.
  set (l := dim_order ++ missing).
  assert (Hin : forall c, In c psr -> In c l).
  { intros c Hc. unfold l. apply in_or_app.
    destruct (in_dec ascii_dec c dim_order) as [H|H]; [now left | right].
    apply In_missing_dims. now split. }
  assert (Hl : length l = ndim a1).
  { unfold l. rewrite length_app. lia. }
  assert (H3 : 3 <= length l).
  { apply three_symbols; apply Hin; cbn; auto. }
  assert (Hstep1 : exists a2 l2,
    match nth_error l 0 with
    | None => Raise (IndexError "string index out of range")
    | Some c =>
        if negb (Ascii.eqb c "p") then
          match str_index l "p" with
          | None => Raise (ValueError "substring not found")
          | Some ind_p =>
              obind (swapaxes a1 0 ind_p) (fun data =>
              Ok (data, swap_chars l 0 ind_p))
          end
        else Ok (a1, l)
    end = Ok (a2, l2) /\ ndim a2 = ndim a1 /\ length l2 = length l /\
    In "s"%char l2).
  { destruct (nth_error l 0) as [c|] eqn:Hc.
    2:{ apply nth_error_None in Hc. lia. }
    destruct (negb (Ascii.eqb c "p")).
    - destruct (str_index_In "p"%char l) as (ind_p & -> & Hind);
        [apply Hin; cbn; auto|].
      destruct (ndim_swapaxes a1 0 ind_p) as (a2 & -> & Hn2); [lia | lia|].
      exists a2, (swap_chars l 0 ind_p). cbn [obind].
      split; [reflexivity|]. split; [exact Hn2|]. unfold swap_chars.
      split; [apply length_swap_entries|].
      apply In_swap_entries; [lia | lia | apply Hin; cbn; auto].
    - exists a1, l. repeat split. apply Hin; cbn; auto. }
  destruct Hstep1 as (a2 & l2 & -> & Hn2 & Hl2 & Hs2). cbn [obind].
  destruct (nth_error l2 1) as [c|] eqn:Hc.
  2:{ apply nth_error_None in Hc. lia. }
  destruct (negb (Ascii.eqb c "s")).
  - destruct (str_index_In "s"%char l2 Hs2) as (ind_s & -> & Hind).
    destruct (ndim_swapaxes a2 1 ind_s) as (a3 & -> & Hn3); [lia | lia|].
    exists a3. split; [reflexivity|]. split; lia.
  - exists a2. split; [reflexivity|]. split; lia.
Qed.

Lemma missing_dims_count (dim_order : str) :
  length dim_order <= 3 ->
  (length dim_order + length (fold_left str_remove dim_order psr) = 3
   <-> valid_dim_order dim_order).
Proof.
  intros Hlen. unfold valid_dim_order.
  destruct dim_order as [|c1 [|c2 [|c3 [|c4 dim_order]]]];
    cbn [length] in Hlen; try lia;
    cbn [fold_left psr list_ascii_of_string str_remove filter length].
  all: repeat match goal with
         | |- context [Ascii.eqb ?a ?b] =>
             destruct (Ascii.eqb_spec a b); try discriminate; subst;
             cbn [negb filter length]
         end.
  all: split; [intros Hcount; try (cbn in Hcount; lia) | intros [Hnodup Hsym]].
  all: try solve [split;
                  [repeat (apply NoDup_cons; [cbn; intuition discriminate|]);
                   apply NoDup_nil
                  |repeat (apply Forall_cons; [cbn; auto|]); apply Forall_nil]].
  all: try (cbn; lia).
  all: exfalso.
  all: repeat match goal with
         | H : Forall _ (_ :: _) |- _ => inversion H; clear H; subst
         | H : NoDup (_ :: _) |- _ => inversion H; clear H; subst
         end; cbn [In psr list_ascii_of_string] in *; intuition congruence.
Qed.

(** [set_data] checks the length of the axis-order string and nothing
    else.  With normalisation switched off every string of at most three
    characters, as many as the array has axes, is accepted, also one with
    repeated or foreign symbols: the call returns, [data] reads back an
    array, and the three counts are the lengths of its first three axes.
    That array has three axes exactly when the string consists of distinct
    symbols out of 'p', 's' and 'r'; otherwise it has more. *)
Theorem set_data_checks_only_the_length (w : World V) (arr : ndarray V)
  (dim_order : str) :
  normalise (self w) = false ->
  length dim_order <= 3 -> length dim_order = ndim arr ->
  exists d,
    (set_data arr dim_order ;; data) w
    = (Ok d, snd (set_data arr dim_order w)) /\
    3 <= ndim d /\
    (ndim d = 3 <-> valid_dim_order dim_order) /\
    n_processes (self (snd (set_data arr dim_order w)))
    = nth_error (shape d) 0 /\
    n_samples (self (snd (set_data arr dim_order w)))
    = nth_error (shape d) 1 /\
    n_replications (self (snd (set_data arr dim_order w)))
    = nth_error (shape d) 2.
Proof.
  intros Hnrm Hlen3 Hlen.
  destruct (reorder_data_any_symbols arr dim_order Hlen)
    as (a' & Hreorder & Hn & H3).
  exists a'.
  assert (Hrun : exists n1 n2 n3 rest,
    shape a' = n1 :: n2 :: n3 :: rest /\
    set_data arr dim_order w
    = (Ok tt, mkWorld (mkData false (Some a') (Some n1) (Some n2) (Some n3))
                      ((stdout w ++ [PrintAdding n1 n2 n3])
                       ++ [PrintOverwriting]) (random w))).
  { unfold ndim in H3.
    destruct (shape a') as [|n1 [|n2 [|n3 rest]]] eqn:Hshape;
      cbn [length] in H3; try lia.
    exists n1, n2, n3, rest. split; [reflexivity|].
    destruct w as [[nrm d0 np0 ns0 nr0] out g]. cbn [self normalise] in Hnrm.
    subst nrm. unfold set_data.
    destruct (Nat.ltb_spec 3 (length dim_order)); [lia|].
    rewrite Hlen, Nat.eqb_refl. cbn [negb].
    unfold lift at 1. rewrite Hreorder.
    unfold _set_data_size, shape_at, bind, lift, update_self, getattr, print,
      try_except, data_deleter, get_normalise, data_setter, hasattr_data,
      data, ret.
    rewrite Hshape. cbn. destruct d0; reflexivity. }
  destruct Hrun as (n1 & n2 & n3 & rest & Hshape & Hrun).
  unfold bind. rewrite Hrun. cbn [snd self n_processes n_samples n_replications].
  rewrite Hshape. cbn [nth_error].
  split; [reflexivity|]. split; [exact H3|]. split; [|auto].
  rewrite Hn, <- Hlen. apply missing_dims_count, Hlen3.
Qed.

End SymbolsOfDimOrder.

(** ** From [set_data] to [get_realisations] *)

Section RoundTrip.
Context {V : Type} {scalar : Scalar V} {std : Standardise V}.

Lemma process_of_nat n_p p : p < n_p -> process_of n_p (Z.of_nat p) = p.
Proof.
  intros Hp. unfold process_of, py_index.
  destruct (Z.leb_spec 0 (Z.of_nat p)); [|lia].
  destruct (Z.ltb_spec (Z.of_nat p) (Z.of_nat n_p)); [|lia].
  cbn. apply Nat2Z.id.
Qed.

Lemma py_index_nat n_p p : p < n_p -> py_index n_p (Z.of_nat p) <> None.
Proof.
  intros Hp. unfold py_index.
  destruct (Z.leb_spec 0 (Z.of_nat p)); [|lia].
  destruct (Z.ltb_spec (Z.of_nat p) (Z.of_nat n_p)); [|lia].
  discriminate.
Qed.

(** What [set_data] stores is what [get_realisations] hands out, as
    float64.  With normalisation switched off, the current value (0, 0) and
    the variables (0, 0), ..., (n_processes - 1, 0), the realisation matrix
    holds the whole input cast to float64: row [i_r * n_samples + i_s]
    belongs to replication [i_r] and has in column [i_p] the float64 value
    of the entry of the input for process [i_p], sample [i_s] and
    replication [i_r], wherever the axis-order string put them. *)
Theorem stored_data_is_read_back (w : World V) (arr : ndarray V)
  (dim_order : str) :
  valid_dim_order dim_order ->
  length dim_order = ndim arr -> 1 <= ndim arr <= 3 ->
  normalise (self w) = false ->
  (forall i_p i_s i_r,
     i_p < declared_size arr dim_order "p" ->
     i_s < declared_size arr dim_order "s" ->
     i_r < declared_size arr dim_order "r" ->
     isnan (float64 (item arr (source_index dim_order i_p i_s i_r))) = false) ->
  exists M ri,
    (set_data arr dim_order ;;
     get_realisations (0, 0)%Z
       (PyList (map (fun p => (Z.of_nat p, 0%Z))
                    (arange (declared_size arr dim_order "p"))))) w
    = (Ok (M, ri), snd (set_data arr dim_order w)) /\
    forall i_p i_s i_r,
      i_p < declared_size arr dim_order "p" ->
      i_s < declared_size arr dim_order "s" ->
      i_r < declared_size arr dim_order "r" ->
      nth_error ri (i_r * declared_size arr dim_order "s" + i_s) = Some i_r /\
      exists row,
        nth_error (mrows M) (i_r * declared_size arr dim_order "s" + i_s)
        = Some row /\
        nth_error row i_p
        = Some (float64 (item arr (source_index dim_order i_p i_s i_r))).
Proof.
  intros Hvalid Hlen Hrank Hnrm Hnan.
  destruct (reorder_data_canonical arr dim_order Hvalid Hlen Hrank)
    as (a' & Hreorder & Hshape & Hitem).
  set (n_p := declared_size arr dim_order "p") in *.
  set (n_s := declared_size arr dim_order "s") in *.
  set (n_r := declared_size arr dim_order "r") in *.
  set (idx := map (fun p => (Z.of_nat p, 0%Z)) (arange n_p)).
  pose proof (set_data_state w arr a' dim_order n_p n_s n_r Hlen ltac:(lia)
                Hreorder Hshape) as Hset.
  rewrite Hnrm in Hset. cbn [stored] in Hset.
  unfold bind at 1. rewrite Hset. cbn [snd].
  set (w1 := mkWorld _ _ _).
  assert (Hholds : holds (self w1) a' n_p n_s n_r) by (repeat split; assumption).
  assert (Hav : available n_s (0, 0)%Z = n_s).
  { unfold available. cbn [snd]. lia. }
  assert (Hidx : Forall (valid_variable n_p (snd (0, 0)%Z)) idx).
  { apply Forall_forall. intros v Hv. apply in_map_iff in Hv.
    destruct Hv as (p & <- & Hp). apply in_seq in Hp.
    split; [apply py_index_nat; lia | cbn; lia]. }
  assert (Hfree : free_of_nan a' n_p (available n_s (0, 0)%Z) n_r idx).
  { intros v rep k Hv Hrep Hk. apply in_map_iff in Hv.
    destruct Hv as (p & <- & Hp). apply in_seq in Hp.
    unfold realisation, stored_value. cbn [fst snd Z.to_nat Nat.add].
    rewrite process_of_nat, Hitem by lia. apply Hnan; lia. }
  eexists _, _. split.
  { cbn [get_realisations].
    rewrite (get_data_closed w1 a' n_p n_s n_r (0, 0)%Z idx false Hholds
               ltac:(cbn; lia) Hidx Hfree).
    reflexivity. }
  rewrite Hav. intros i_p i_s i_r Hp Hs Hr. split.
  - rewrite replication_index_slots.
    rewrite nth_error_map_slots by (rewrite ?length_arange; assumption).
    cbn [fst]. now rewrite nth_arange.
  - unfold realisation_matrix, realisation_rows. cbn [mrows].
    rewrite nth_error_map_slots by (rewrite ?length_arange; assumption).
    eexists. split; [reflexivity|]. cbn [fst snd].
    rewrite nth_arange by assumption.
    unfold idx. rewrite !nth_error_map.
    unfold arange. rewrite nth_error_nth' with (d := 0)
      by (rewrite length_seq; assumption).
    rewrite seq_nth by assumption. cbn [option_map Nat.add].
    unfold realisation, stored_value. cbn [fst snd Z.to_nat Nat.add].
    now rewrite process_of_nat, Hitem by assumption.
Qed.

End RoundTrip.

(** ** Nothing to permute *)

Section NothingToPermute.
Context {V : Type} {scalar : Scalar V}.

Lemma rows_from_replications {A} (ri : list nat) (rows rows0 : list A) :
  length rows = length ri -> length rows0 = length ri ->
  (forall r, rows_of_replication ri r rows = rows_of_replication ri r rows0) ->
  rows = rows0.
Proof.
  unfold rows_of_replication. revert rows rows0.
  induction ri as [|x ri IH]; intros [|a rows] [|b rows0] Hl Hl0 H;
    try discriminate; trivial.
  cbn in *. injection Hl as Hl. injection Hl0 as Hl0.
  assert (a = b).
  { specialize (H x). rewrite Nat.eqb_refl in H. now injection H. }
  subst. f_equal. apply IH; trivial. intros r. specialize (H r).
  destruct (x =? r); [now injection H | assumption].
Qed.

Lemma short_list_permutation {A} (l l' : list A) :
  length l <= 1 -> Permutation l' l -> l' = l.
Proof.
  intros Hl Hp. destruct l as [|x [|y l]]; cbn in Hl; [| |lia].
  - now apply Permutation_nil, Permutation_sym.
  - now apply Permutation_length_1_inv, Permutation_sym.
Qed.

(** When the current value leaves at most one realisation per replication
    there is nothing to permute over samples: with 'max' the call goes
    through and returns the realisation matrix of [get_realisations]
    unchanged, and every integer [perm_range] is refused. *)
Theorem single_realisation_not_permuted (w : World V) a n_p n_s n_r
  (cv : variable) (idx : list variable) :
  holds (self w) a n_p n_s n_r ->
  (0 <= snd cv <= Z.of_nat n_s)%Z ->
  Forall (valid_variable n_p (snd cv)) idx ->
  free_of_nan a n_p (available n_s cv) n_r idx ->
  available n_s cv <= 1 ->
  (exists M ri perm_idx w',
     get_realisations cv (PyList idx) w = (Ok (M, ri), w) /\
     permute_samples cv (PyList idx) (PermStr "max") w
     = (Ok (M, perm_idx), w')) /\
  forall b, is_ok (fst (permute_samples cv (PyList idx) (PermInt b) w)) = false.
Proof.
  intros Hholds Ht Hidx Hnan Hone. split.
  - destruct (permute_samples_run w a n_p n_s n_r cv idx (PermStr "max")
                Hholds Ht Hidx Hnan eq_refl)
      as (M & pidx & perm & w' & Hrun & _ & Hshape & Hperm & _ & Hinv).
    destruct Hinv as (Hlen & _ & Hinv).
    exists (realisation_matrix a n_p (available n_s cv) idx (arange n_r)),
      (replication_index (available n_s cv) (arange n_r)), pidx, w'.
    split.
    { cbn [get_realisations].
      now rewrite (get_data_closed w a n_p n_s n_r cv idx false). }
    rewrite Hrun. destruct M as [shp rows]. cbn [mshape mrows] in *.
    unfold realisation_matrix. rewrite length_arange, Hshape.
    enough (Hrows : rows = realisation_rows a n_p (available n_s cv) idx
                             (arange n_r)) by now rewrite Hrows.
    apply (rows_from_replications
             (replication_index (available n_s cv) (arange n_r)));
      [exact Hlen | now rewrite length_realisation_rows,
                      length_replication_index|].
    intros r. destruct (in_dec Nat.eq_dec r (rev (arange n_r))) as [Hr|Hr].
    2:{ apply (proj2 (Hinv r) Hr). }
    destruct (proj1 (Hinv r) Hr) as [Htake _].
    assert (Hrn : r < n_r) by (apply in_rev, in_seq in Hr; lia).
    assert (Hd : length (rows_of_replication
                           (replication_index (available n_s cv) (arange n_r))
                           r (realisation_rows a n_p (available n_s cv) idx
                                (arange n_r)))
                 = available n_s cv).
    { apply length_rows_of_replication; [|exact Hrn].
      now rewrite length_realisation_rows, length_replication_index. }
    apply short_list_permutation; [lia|].
    apply (take_ok_permutation _ _ perm Htake).
    rewrite Hd. rewrite n_per_repl_some in Hperm by lia. exact Hperm.
  - intros b. unfold permute_samples. cbn [get_realisations].
    rewrite (bind_ok _ _ _ _ _
               (get_data_closed w a n_p n_s n_r cv idx false
                  Hholds Ht Hidx Hnan)).
    change (count_occ Nat.eq_dec
              (replication_index (available n_s cv) (arange n_r)) 0)
      with (n_per_repl (available n_s cv) n_r).
    pose proof (n_per_repl_le (available n_s cv) n_r) as Hle.
    unfold bind, assert, ret.
    destruct (Z.ltb_spec 1 b); [|reflexivity].
    match goal with |- context [if ?c then _ else _] => destruct c end;
      [|reflexivity].
    destruct (Z.leb_spec b (Z.of_nat (n_per_repl (available n_s cv) n_r)));
      [lia | reflexivity].
Qed.

End NothingToPermute.

(** ** The further properties at concrete inputs *)

Lemma sp_valid : valid_dim_order (str_of "sp").
Proof.
  split.
  - apply NoDup_cons; [intros [H|[]]; discriminate H|].
    apply NoDup_cons; [intros [] | apply NoDup_nil].
  - apply Forall_cons; [cbn; auto|].
    apply Forall_cons; [cbn; auto | apply Forall_nil].
Defined.

Lemma rank_two_in_range : 1 <= ndim (arange_reshape_R [4; 3]) <= 3.
Proof. cbn. lia. Defined.

Lemma set_data_rejects_dim_order_witness :
  (3 < length (str_of "psr") \/
   length (str_of "psr") <> ndim (arange_reshape_R [4; 3])) /\
  exists msg,
    @set_data R Rscalar Rstandardise (arange_reshape_R [4; 3]) (str_of "psr")
      (fresh_world true) = (Raise (RuntimeError msg), fresh_world true).
Proof.
  assert (H : 3 < length (str_of "psr") \/
              length (str_of "psr") <> ndim (arange_reshape_R [4; 3])).
  { right. cbn. lia. }
  split; [exact H|].
  apply (@set_data_rejects_dim_order R Rscalar Rstandardise (fresh_world true)
           (arange_reshape_R [4; 3]) (str_of "psr") H).
Defined.

Lemma set_data_stores_canonical_witness :
  normalise (self (@fresh_world R false)) = false /\
  exists d,
    (@set_data R Rscalar Rstandardise (arange_reshape_R [4; 3]) (str_of "sp")
       ;; data) (fresh_world false)
    = (Ok d, snd (@set_data R Rscalar Rstandardise (arange_reshape_R [4; 3])
                    (str_of "sp") (fresh_world false))) /\
    shape d = [declared_size (arange_reshape_R [4; 3]) (str_of "sp") "p";
               declared_size (arange_reshape_R [4; 3]) (str_of "sp") "s";
               declared_size (arange_reshape_R [4; 3]) (str_of "sp") "r"] /\
    forall i_p i_s i_r,
      item d [i_p; i_s; i_r]
      = item (arange_reshape_R [4; 3]) (source_index (str_of "sp") i_p i_s i_r).
Proof.
  split; [reflexivity|].
  apply (@set_data_stores_canonical R Rscalar Rstandardise (fresh_world false)
           (arange_reshape_R [4; 3]) (str_of "sp") sp_valid eq_refl
           rank_two_in_range eq_refl).
Defined.

Lemma set_data_forgets_previous_state_witness :
  normalise (self (@fresh_world R true))
  = normalise (self (snd (@set_data R Rscalar Rstandardise
                            (arange_reshape_R [2; 4; 3]) (str_of "psr")
                            (fresh_world true)))) /\
  fst (@set_data R Rscalar Rstandardise (arange_reshape_R [4; 3])
         (str_of "sp") (fresh_world true)) = Ok tt /\
  self (snd (@set_data R Rscalar Rstandardise (arange_reshape_R [4; 3])
               (str_of "sp") (fresh_world true)))
  = self (snd (@set_data R Rscalar Rstandardise (arange_reshape_R [4; 3])
                 (str_of "sp")
                 (snd (@set_data R Rscalar Rstandardise
                         (arange_reshape_R [2; 4; 3]) (str_of "psr")
                         (fresh_world true))))) /\
  stdout (snd (@set_data R Rscalar Rstandardise (arange_reshape_R [4; 3])
                 (str_of "sp") (fresh_world true)))
  = stdout (@fresh_world R true)
    ++ [PrintAdding (declared_size (arange_reshape_R [4; 3]) (str_of "sp") "p")
                    (declared_size (arange_reshape_R [4; 3]) (str_of "sp") "s")
                    (declared_size (arange_reshape_R [4; 3]) (str_of "sp") "r");
        PrintOverwriting] /\
  random (snd (@set_data R Rscalar Rstandardise (arange_reshape_R [4; 3])
                 (str_of "sp") (fresh_world true)))
  = random (@fresh_world R true).
Proof.
  assert (H : normalise (self (@fresh_world R true))
              = normalise (self (snd (@set_data R Rscalar Rstandardise
                                        (arange_reshape_R [2; 4; 3])
                                        (str_of "psr") (fresh_world true))))).
  { reflexivity. }
  split; [exact H|].
  apply (@set_data_forgets_previous_state R Rscalar Rstandardise
           (fresh_world true)
           (snd (@set_data R Rscalar Rstandardise (arange_reshape_R [2; 4; 3])
                   (str_of "psr") (fresh_world true)))
           (arange_reshape_R [4; 3]) (str_of "sp") sp_valid eq_refl
           rank_two_in_range H).
Defined.


Lemma normalisation_is_per_process_witness :
  shape (arange_reshape_R [4; 3]) = shape only_process_1 /\
  1 < declared_size (arange_reshape_R [4; 3]) (str_of "sp") "p" /\
  (forall i_s i_r,
     item (arange_reshape_R [4; 3]) (source_index (str_of "sp") 1 i_s i_r)
     = item only_process_1 (source_index (str_of "sp") 1 i_s i_r)) /\
  exists d1 d2,
    (@set_data R Rscalar Rstandardise (arange_reshape_R [4; 3]) (str_of "sp")
       ;; data) (fresh_world true)
    = (Ok d1, snd (@set_data R Rscalar Rstandardise (arange_reshape_R [4; 3])
                     (str_of "sp") (fresh_world true))) /\
    (@set_data R Rscalar Rstandardise only_process_1 (str_of "sp")
       ;; data) (fresh_world true)
    = (Ok d2, snd (@set_data R Rscalar Rstandardise only_process_1
                     (str_of "sp") (fresh_world true))) /\
    forall k r, item d1 [1; k; r] = item d2 [1; k; r].
Proof.
  assert (Hp : 1 < declared_size (arange_reshape_R [4; 3]) (str_of "sp") "p").
  { cbn. lia. }
  assert (Hsame : forall i_s i_r,
     item (arange_reshape_R [4; 3]) (source_index (str_of "sp") 1 i_s i_r)
     = item only_process_1 (source_index (str_of "sp") 1 i_s i_r)).
  { intros i_s i_r. reflexivity. }
  split; [reflexivity|]. split; [exact Hp|]. split; [exact Hsame|].
  apply (@normalisation_is_per_process R Rscalar Rstandardise
           (fresh_world true) (fresh_world true)
           (arange_reshape_R [4; 3]) only_process_1 (str_of "sp") 1
           sp_valid eq_refl rank_two_in_range eq_refl eq_refl eq_refl
           Hp Hsame).
Defined.

Lemma realisation_entries_witness :
  exists M ri,
    @get_realisations Z (Zscalar 0 0) (1, 3)%Z
      (PyList [(1, 0); (1, 1); (1, 2)]%Z) example_world
    = (Ok (M, ri), example_world) /\
    forall rep k, rep < 3 -> k < available 4 (1, 3)%Z ->
      nth_error ri (rep * available 4 (1, 3)%Z + k) = Some rep /\
      exists row,
        nth_error (mrows M) (rep * available 4 (1, 3)%Z + k) = Some row /\
        forall j v, nth_error [(1, 0); (1, 1); (1, 2)]%Z j = Some v ->
          nth_error row j
          = Some (@float64 Z (Zscalar 0 0)
                    (item (arange_reshape [2; 4; 3])
                          [process_of 2 (fst v); Z.to_nat (snd v) + k; rep])).
Proof.
  apply (@realisation_entries Z (Zscalar 0 0) example_world
           (arange_reshape [2; 4; 3]) 2 4 3 (1, 3)%Z
           [(1, 0); (1, 1); (1, 2)]%Z).
  - exact example_world_holds.
  - cbn. lia.
  - exact example_variables_valid.
  - apply integers_free_of_nan.
Defined.

Lemma n_realisations_counts_rows_witness :
  exists M ri N n,
    @get_realisations Z (Zscalar 0 0) (1, 3)%Z
      (PyList [(1, 0); (1, 1); (1, 2)]%Z) example_world
    = (Ok (M, ri), example_world) /\
    n_realisations (Some (1, 3)%Z) example_world = (Ok N, example_world) /\
    n_realisations_samples (Some (1, 3)%Z) example_world
    = (Ok n, example_world) /\
    n_realisations_repl example_world = (Ok 3, example_world) /\
    Z.of_nat (nrows M) = N /\ Z.of_nat (length (mrows M)) = N /\
    Z.of_nat (length ri) = N /\
    N = (n * Z.of_nat 3)%Z /\
    forall rep, rep < 3 -> Z.of_nat (count_occ Nat.eq_dec ri rep) = n.
Proof.
  apply (@n_realisations_counts_rows Z (Zscalar 0 0) example_world
           (arange_reshape [2; 4; 3]) 2 4 3 (1, 3)%Z
           [(1, 0); (1, 1); (1, 2)]%Z).
  - exact example_world_holds.
  - cbn. lia.
  - exact example_variables_valid.
  - apply integers_free_of_nan.
Defined.

Lemma single_replication_world_holds :
  holds (self single_replication_world) (arange_reshape [2; 4; 1]) 2 4 1.
Proof. repeat split. Defined.

Lemma single_replication_not_shuffled_witness :
  1 <= 1 /\
  is_ok (fst (@get_realisations Z (Zscalar 0 0) (1, 3)%Z
                (PyList [(1, 0); (1, 1); (1, 2)]%Z) single_replication_world))
  = true /\
  fst (@permute_replications Z (Zscalar 0 0) (1, 3)%Z
         (PyList [(1, 0); (1, 1); (1, 2)]%Z) single_replication_world)
  = fst (@get_realisations Z (Zscalar 0 0) (1, 3)%Z
           (PyList [(1, 0); (1, 1); (1, 2)]%Z) single_replication_world).
Proof.
  split; [lia|].
  apply (@single_replication_not_shuffled Z (Zscalar 0 0)
           single_replication_world (arange_reshape [2; 4; 1]) 2 4 1
           (1, 3)%Z [(1, 0); (1, 1); (1, 2)]%Z).
  - exact single_replication_world_holds.
  - cbn. lia.
  - exact example_variables_valid.
  - apply integers_free_of_nan.
  - lia.
Defined.







Lemma permute_samples_moves_rows_witness :
  valid_perm_range (available 4 (1, 0)%Z) 3 (PermStr "max") /\
  exists M perm_idx M0 ri perm w',
    @permute_samples Z (Zscalar 0 0) (1, 0)%Z (PyList [(1, 0); (0, 0)]%Z)
      (PermStr "max") example_world = (Ok (M, perm_idx), w') /\
    @get_realisations Z (Zscalar 0 0) (1, 0)%Z (PyList [(1, 0); (0, 0)]%Z)
      example_world = (Ok (M0, ri), example_world) /\
    Permutation perm (arange (n_per_repl (available 4 (1, 0)%Z) 3)) /\
    mshape M = mshape M0 /\
    length (mrows M) = length (mrows M0) /\
    length perm_idx = length ri /\
    forall r, r < 3 ->
      take (rows_of_replication ri r (mrows M0)) perm
      = Ok (rows_of_replication ri r (mrows M)) /\
      rows_of_replication ri r perm_idx = perm.
Proof.
  assert (Hpr : valid_perm_range (available 4 (1, 0)%Z) 3 (PermStr "max"))
    by reflexivity.
  split; [exact Hpr|].
  apply (@permute_samples_moves_rows Z (Zscalar 0 0) example_world
           (arange_reshape [2; 4; 3]) 2 4 3 (1, 0)%Z
           [(1, 0); (0, 0)]%Z (PermStr "max")).
  - exact example_world_holds.
  - cbn. lia.
  - exact example_variables_valid_0.
  - apply integers_free_of_nan.
  - exact Hpr.
Defined.

Lemma permute_samples_full_range_is_max_witness :
  4%Z = Z.of_nat (n_per_repl (available 4 (1, 0)%Z) 3) /\ (1 < 4)%Z /\
  @permute_samples Z (Zscalar 0 0) (1, 0)%Z (PyList [(1, 0); (0, 0)]%Z)
    (PermInt 4) example_world
  = @permute_samples Z (Zscalar 0 0) (1, 0)%Z (PyList [(1, 0); (0, 0)]%Z)
      (PermStr "max") example_world /\
  is_ok (fst (@permute_samples Z (Zscalar 0 0) (1, 0)%Z
                (PyList [(1, 0); (0, 0)]%Z) (PermStr "max") example_world))
  = true.
Proof.
  assert (Hb : 4%Z = Z.of_nat (n_per_repl (available 4 (1, 0)%Z) 3))
    by reflexivity.
  split; [exact Hb|]. split; [lia|].
  apply (@permute_samples_full_range_is_max Z (Zscalar 0 0) example_world
           (arange_reshape [2; 4; 3]) 2 4 3 (1, 0)%Z
           [(1, 0); (0, 0)]%Z 4%Z).
  - exact example_world_holds.
  - cbn. lia.
  - exact example_variables_valid_0.
  - apply integers_free_of_nan.
  - exact Hb.
  - lia.
Defined.

Lemma permute_samples_rejects_string_witness :
  "block"%string <> "max"%string /\
  is_ok (fst (@permute_samples Z (Zscalar 0 0) (1, 0)%Z
                (PyList [(1, 0); (0, 0)]%Z) (PermStr "block") example_world))
  = false /\
  forall M ri w',
    @get_realisations Z (Zscalar 0 0) (1, 0)%Z (PyList [(1, 0); (0, 0)]%Z)
      example_world = (Ok (M, ri), w') ->
    @permute_samples Z (Zscalar 0 0) (1, 0)%Z (PyList [(1, 0); (0, 0)]%Z)
      (PermStr "block") example_world
    = (Raise (ValueError msg_unknown), w').
Proof.
  assert (Hs : "block"%string <> "max"%string) by discriminate.
  split; [exact Hs|].
  apply (@permute_samples_rejects_string Z (Zscalar 0 0) example_world
           (1, 0)%Z (PyList [(1, 0); (0, 0)]%Z) "block"%string Hs).
Defined.

Lemma data_assignment_on_empty_instance_witness :
  _data (self (@fresh_world Z false)) = None /\
  (data_setter (arange_reshape [2; 4; 3]) ;; data) (@fresh_world Z false)
  = (Ok (arange_reshape [2; 4; 3]),
     mkWorld (set__data (Some (arange_reshape [2; 4; 3]))
                        (self (@fresh_world Z false)))
             (stdout (@fresh_world Z false)) (random (@fresh_world Z false))).
Proof.
  split; [reflexivity|].
  apply (@data_assignment_on_empty_instance Z (fresh_world false)
           (arange_reshape [2; 4; 3]) eq_refl).
Defined.

Lemma delete_then_assign_keeps_counts_witness :
  _data (self example_world) = Some (arange_reshape [2; 4; 3]) /\
  (data_deleter ;; data_setter (arange_reshape [5; 1; 1]) ;; data)
    example_world
  = (Ok (arange_reshape [5; 1; 1]),
     mkWorld (set__data (Some (arange_reshape [5; 1; 1])) (self example_world))
             (stdout example_world ++ [PrintOverwriting])
             (random example_world)) /\
  n_processes (set__data (Some (arange_reshape [5; 1; 1])) (self example_world))
  = n_processes (self example_world) /\
  n_samples (set__data (Some (arange_reshape [5; 1; 1])) (self example_world))
  = n_samples (self example_world) /\
  n_replications
    (set__data (Some (arange_reshape [5; 1; 1])) (self example_world))
  = n_replications (self example_world).
Proof.
  split; [reflexivity|].
  apply (@delete_then_assign_keeps_counts Z example_world
           (arange_reshape [2; 4; 3]) (arange_reshape [5; 1; 1]) eq_refl).
Defined.

Lemma offsets_below_0 :
  Forall (fun x : variable => (snd x <= snd (1, 0)%Z)%Z) [(1, 0); (0, 0)]%Z.
Proof. repeat constructor; cbn; lia. Defined.

Lemma no_data_no_realisations_witness :
  n_samples (self (@fresh_world Z true)) = None /\
  @get_realisations Z (Zscalar 0 0) (1, 0)%Z (PyList [(1, 0); (0, 0)]%Z)
    (fresh_world true)
  = (Raise (AttributeError "n_samples"), fresh_world true) /\
  @permute_replications Z (Zscalar 0 0) (1, 0)%Z (PyList [(1, 0); (0, 0)]%Z)
    (fresh_world true)
  = (Raise (AttributeError "n_samples"), fresh_world true) /\
  @permute_samples Z (Zscalar 0 0) (1, 0)%Z (PyList [(1, 0); (0, 0)]%Z)
    (PermStr "max") (fresh_world true)
  = (Raise (AttributeError "n_samples"), fresh_world true) /\
  (forall c, n_realisations c (@fresh_world Z true)
             = (Raise (AttributeError "n_samples"), fresh_world true)) /\
  (forall c, n_realisations_samples c (@fresh_world Z true)
             = (Raise (AttributeError "n_samples"), fresh_world true)).
Proof.
  split; [reflexivity|].
  apply (@no_data_no_realisations Z (Zscalar 0 0) (fresh_world true)
           (1, 0)%Z [(1, 0); (0, 0)]%Z (PermStr "max") eq_refl
           offsets_below_0).
Defined.

Lemma offsets_below_5 :
  Forall (fun x : variable => (snd x <= snd (1, 5)%Z)%Z) [(1, 0); (0, 2)]%Z.
Proof. repeat constructor; cbn; lia. Defined.

Lemma current_value_beyond_last_sample_witness :
  (Z.of_nat 4 < snd (1, 5)%Z)%Z /\ 0 < 3 /\
  (exists N, @n_realisations Z (Some (1, 5)%Z) example_world
             = (Ok N, example_world) /\ (N < 0)%Z) /\
  @get_realisations Z (Zscalar 0 0) (1, 5)%Z (PyList [(1, 0); (0, 2)]%Z)
    example_world
  = (Raise (ValueError "negative dimensions are not allowed"), example_world) /\
  @permute_replications Z (Zscalar 0 0) (1, 5)%Z (PyList [(1, 0); (0, 2)]%Z)
    example_world
  = (Raise (ValueError "negative dimensions are not allowed"), example_world) /\
  @permute_samples Z (Zscalar 0 0) (1, 5)%Z (PyList [(1, 0); (0, 2)]%Z)
    (PermStr "max") example_world
  = (Raise (ValueError "negative dimensions are not allowed"), example_world).
Proof.
  assert (Ht : (Z.of_nat 4 < snd (1, 5)%Z)%Z) by (cbn; lia).
  split; [exact Ht|]. split; [lia|].
  apply (@current_value_beyond_last_sample Z (Zscalar 0 0) example_world
           (arange_reshape [2; 4; 3]) 2 4 3 (1, 5)%Z [(1, 0); (0, 2)]%Z
           (PermStr "max") example_world_holds Ht).
  - lia.
  - exact offsets_below_5.
Defined.

Lemma set_data_checks_only_the_length_witness :
  normalise (self (@fresh_world R false)) = false /\
  length (str_of "xp") <= 3 /\
  length (str_of "xp") = ndim (arange_reshape_R [4; 3]) /\
  exists d,
    (@set_data R Rscalar Rstandardise (arange_reshape_R [4; 3]) (str_of "xp")
       ;; data) (fresh_world false)
    = (Ok d, snd (@set_data R Rscalar Rstandardise (arange_reshape_R [4; 3])
                    (str_of "xp") (fresh_world false))) /\
    3 <= ndim d /\
    (ndim d = 3 <-> valid_dim_order (str_of "xp")) /\
    n_processes (self (snd (@set_data R Rscalar Rstandardise
                              (arange_reshape_R [4; 3]) (str_of "xp")
                              (fresh_world false))))
    = nth_error (shape d) 0 /\
    n_samples (self (snd (@set_data R Rscalar Rstandardise
                            (arange_reshape_R [4; 3]) (str_of "xp")
                            (fresh_world false))))
    = nth_error (shape d) 1 /\
    n_replications (self (snd (@set_data R Rscalar Rstandardise
                                 (arange_reshape_R [4; 3]) (str_of "xp")
                                 (fresh_world false))))
    = nth_error (shape d) 2.
Proof.
  assert (Hlen : length (str_of "xp") <= 3) by (cbn; lia).
  split; [reflexivity|]. split; [exact Hlen|]. split; [reflexivity|].
  apply (@set_data_checks_only_the_length R Rscalar Rstandardise
           (fresh_world false) (arange_reshape_R [4; 3]) (str_of "xp")
           eq_refl Hlen eq_refl).
Defined.

Lemma stored_data_is_read_back_witness :
  normalise (self (@fresh_world R false)) = false /\
  exists M ri,
    (@set_data R Rscalar Rstandardise (arange_reshape_R [4; 3]) (str_of "sp")
       ;;
     @get_realisations R Rscalar (0, 0)%Z
       (PyList (map (fun p => (Z.of_nat p, 0%Z))
                    (arange (declared_size (arange_reshape_R [4; 3])
                                           (str_of "sp") "p")))))
      (fresh_world false)
    = (Ok (M, ri),
       snd (@set_data R Rscalar Rstandardise (arange_reshape_R [4; 3])
              (str_of "sp") (fresh_world false))) /\
    forall i_p i_s i_r,
      i_p < declared_size (arange_reshape_R [4; 3]) (str_of "sp") "p" ->
      i_s < declared_size (arange_reshape_R [4; 3]) (str_of "sp") "s" ->
      i_r < declared_size (arange_reshape_R [4; 3]) (str_of "sp") "r" ->
      nth_error ri
        (i_r * declared_size (arange_reshape_R [4; 3]) (str_of "sp") "s" + i_s)
      = Some i_r /\
      exists row,
        nth_error (mrows M)
          (i_r * declared_size (arange_reshape_R [4; 3]) (str_of "sp") "s"
           + i_s)
        = Some row /\
        nth_error row i_p
        = Some (@float64 R Rscalar
                  (item (arange_reshape_R [4; 3])
                        (source_index (str_of "sp") i_p i_s i_r))).
Proof.
  split; [reflexivity|].
  apply (@stored_data_is_read_back R Rscalar Rstandardise (fresh_world false)
           (arange_reshape_R [4; 3]) (str_of "sp") sp_valid eq_refl
           rank_two_in_range eq_refl).
  intros i_p i_s i_r _ _ _. reflexivity.
Defined.

Lemma single_realisation_not_permuted_witness :
  available 4 (1, 3)%Z <= 1 /\
  (exists M ri perm_idx w',
     @get_realisations Z (Zscalar 0 0) (1, 3)%Z
       (PyList [(1, 0); (1, 1); (1, 2)]%Z) example_world
     = (Ok (M, ri), example_world) /\
     @permute_samples Z (Zscalar 0 0) (1, 3)%Z
       (PyList [(1, 0); (1, 1); (1, 2)]%Z) (PermStr "max") example_world
     = (Ok (M, perm_idx), w')) /\
  forall b,
    is_ok (fst (@permute_samples Z (Zscalar 0 0) (1, 3)%Z
                  (PyList [(1, 0); (1, 1); (1, 2)]%Z) (PermInt b)
                  example_world)) = false.
Proof.
  assert (Hone : available 4 (1, 3)%Z <= 1) by (cbn; lia).
  split; [exact Hone|].
  apply (@single_realisation_not_permuted Z (Zscalar 0 0) example_world
           (arange_reshape [2; 4; 3]) 2 4 3 (1, 3)%Z
           [(1, 0); (1, 1); (1, 2)]%Z).
  - exact example_world_holds.
  - cbn. lia.
  - exact example_variables_valid.
  - apply integers_free_of_nan.
  - exact Hone.
Defined.
